(** * extract_msg: property records, entry-ID kinds and the meeting-forward header

    A shallow embedding of

    - [extract_msg/enums.py]   ([EntryIDType], [EntryIDTypeHex]),
    - [extract_msg/prop.py]    ([createProp], [PropBase], [FixedLengthProp],
                                [VariableLengthProp]),
    - [extract_msg/msg_classes/meeting_forward.py]
                               ([MeetingForwardNotification.headerFormatProperties]).

    and, further down, of the other enumerations of enums.py with
    [ElectronicAddressProperties.fromBits], and of the script
    [docs/_gen.py].

    Python values are modelled as the code has them: [bytes] as [list byte],
    [int] as [Z] (unbounded, so no wrap-around is written), [float] as an IEEE
    binary64 [spec_float], [str] as [string], [None]-or-value as [option],
    [enum.Enum] classes as the ordered list of their [NAME = value] lines.
    Exceptions and the module logger are threaded through a small monad:
    a computation takes the log written so far and gives back the log and
    either a value or the exception that left it.

    The model describes what the bodies of the functions do once the module
    is imported; annotations are not evaluated by it. *)

From Stdlib Require Import ZArith List Strings.String Strings.Ascii Strings.Byte Bool Lia.
From Stdlib Require Import Floats.SpecFloat.
Import ListNotations.

Local Open Scope string_scope.
Local Open Scope list_scope.
Local Open Scope Z_scope.

(** ** Python exceptions *)

Inductive exn : Type :=
| NameError (name : string)
| ValueError
| KeyError
| TypeError
| OverflowError
| OSError
| ZeroDivisionError
| struct_error
| KeyboardInterrupt.

(** [except Exception] takes every exception class above but
    [KeyboardInterrupt], which derives from [BaseException] only. *)
Definition isinstance_Exception (e : exn) : bool :=
  match e with
  | KeyboardInterrupt => false
  | _ => true
  end.

Definition isinstance_ValueError (e : exn) : bool :=
  match e with
  | ValueError => true
  | _ => false
  end.

Inductive result (A : Type) : Type :=
| Ok (a : A)
| Raise (e : exn).

Arguments Ok {A} a.
Arguments Raise {A} e.

(** ** Bytes and hexadecimal text *)

Definition bytes := list byte.

Definition byte_eqb (a b : byte) : bool := Byte.eqb a b.

Fixpoint bytes_eqb (a b : bytes) : bool :=
  match a, b with
  | [], [] => true
  | x :: a', y :: b' => byte_eqb x y && bytes_eqb a' b'
  | _, _ => false
  end.

Definition hex_digit (n : N) : ascii :=
  match n with
  | 0%N => "0" | 1%N => "1" | 2%N => "2" | 3%N => "3"
  | 4%N => "4" | 5%N => "5" | 6%N => "6" | 7%N => "7"
  | 8%N => "8" | 9%N => "9" | 10%N => "A" | 11%N => "B"
  | 12%N => "C" | 13%N => "D" | 14%N => "E" | _ => "F"
  end%char.

(** Modelled from the spec: [hexEncode], the hex text of a byte string that
    the round-trip law of the entry-ID kinds is stated with; two upper-case
    digits per byte, as the values of [EntryIDTypeHex] are written. *)
Fixpoint hexEncode (b : bytes) : string :=
  match b with
  | [] => EmptyString
  | x :: b' =>
      let n := Byte.to_N x in
      String (hex_digit (N.div n 16)) (String (hex_digit (N.modulo n 16)) (hexEncode b'))
  end.

(** ** [enum.Enum] classes

    A class body is the list of its [NAME = value] lines in source order.
    A line whose value repeats an earlier one does not make a new member:
    the name becomes an alias of the first member with that value. *)

Module PyEnum.
Section Enum.
Context {V : Type}.
Variable V_eqb : V -> V -> bool.

Record member : Type := { name : string; value : V }.

Definition defs : Type := list (string * V).

(** [cls(v)]: the member whose value is [v], first definition first. *)
Fixpoint by_value (cls : defs) (v : V) : option member :=
  match cls with
  | [] => None
  | (n, w) :: cls' =>
      if V_eqb w v then Some {| name := n; value := w |} else by_value cls' v
  end.

Fixpoint defined_value (cls : defs) (n : string) : option V :=
  match cls with
  | [] => None
  | (m, w) :: cls' => if String.eqb m n then Some w else defined_value cls' n
  end.

(** [cls[n]]: the member bound to the name [n]; for an alias, the member
    it is an alias of. *)
Definition by_name (cls : defs) (n : string) : option member :=
  match defined_value cls n with
  | Some w => by_value cls w
  | None => None
  end.

(** [cls(v)] raises [ValueError] when no member has the value. *)
Definition call (cls : defs) (v : V) : result member :=
  match by_value cls v with
  | Some m => Ok m
  | None => Raise ValueError
  end.

(** [cls[n]] raises [KeyError] when the name is not bound in the class. *)
Definition getitem (cls : defs) (n : string) : result member :=
  match by_name cls n with
  | Some m => Ok m
  | None => Raise KeyError
  end.
End Enum.

Arguments member V : clear implicits.
Arguments defs V : clear implicits.
End PyEnum.

(** ** enums.py: entry-ID kinds *)

Module enums.

Definition EntryIDType : PyEnum.defs bytes :=
  [ ("ADDRESS_BOOK_RECIPIENT",
     [xdc; xa7; x40; xc8; xc0; x42; x10; x1a; xb4; xb9; x08; x00; x2b; x2f; xe1; x82]);
    ("CA_OR_PDL_RECIPIENT",
     [xfe; x42; xaa; x0a; x18; xc7; x1a; x10; xe8; x85; x0b; x65; x1c; x24; x00; x00]);
    ("NNTP_NEWSGROUP_FOLDER",
     [x38; xa1; xbb; x10; x05; xe5; x10; x1a; xa1; xbb; x08; x00; x2b; x2a; x56; xc2]);
    ("ONE_OFF_RECIPIENT",
     [x81; x2b; x1f; xa4; xbe; xa3; x10; x19; x9d; x6e; x00; xdd; x01; x0f; x54; x02]);
    ("PERMANENT",
     [xdc; xa7; x40; xc8; xc0; x42; x10; x1a; xb4; xb9; x08; x00; x2b; x2f; xe1; x82]);
    ("PUBLIC_MESSAGE_STORE",
     [x1a; x44; x73; x90; xaa; x66; x11; xcd; x9b; xc8; x00; xaa; x00; x2f; xc4; x5a]);
    ("WRAPPED",
     [xc0; x91; xad; xd3; x51; x9d; xcf; x11; xa4; xa9; x00; xaa; x00; x47; xfa; xa4]) ].

Definition EntryIDTypeHex : PyEnum.defs string :=
  [ ("ADDRESS_BOOK_RECIPIENT", "DCA740C8C042101AB4B908002B2FE182");
    ("CA_OR_PDL_RECIPIENT", "FE42AA0A18C71A10E8850B651C240000");
    ("NNTP_NEWSGROUP_FOLDER", "38A1BB1005E5101AA1BB08002B2A56C2");
    ("ONE_OFF_RECIPIENT", "812B1FA4BEA310199D6E00DD010F5402");
    ("PERMANENT", "DCA740C8C042101AB4B908002B2FE182");
    ("PUBLIC_MESSAGE_STORE", "1A447390AA6611CD9BC800AA002FC45A");
    ("WRAPPED", "C091ADD3519DCF11A4A900AA0047FAA4") ].

(** [EntryIDType(b)] and [EntryIDType[n]]. *)
Definition EntryIDType_call (b : bytes) : result (PyEnum.member bytes) :=
  PyEnum.call bytes_eqb EntryIDType b.

Definition EntryIDType_getitem (n : string) : result (PyEnum.member bytes) :=
  PyEnum.getitem bytes_eqb EntryIDType n.

(** [EntryIDTypeHex(h)] and [EntryIDTypeHex[n]]. *)
Definition EntryIDTypeHex_call (h : string) : result (PyEnum.member string) :=
  PyEnum.call String.eqb EntryIDTypeHex h.

Definition EntryIDTypeHex_getitem (n : string) : result (PyEnum.member string) :=
  PyEnum.getitem String.eqb EntryIDTypeHex n.

(** [EntryIDType.toHex]: [return EntryIDTypeHex[self.name]]. *)
Definition toHex (self : PyEnum.member bytes) : result (PyEnum.member string) :=
  EntryIDTypeHex_getitem (PyEnum.name self).

(** [EntryIDTypeHex.toRaw]: [return EntryIDType[self.name]]. *)
Definition toRaw (self : PyEnum.member string) : result (PyEnum.member bytes) :=
  EntryIDType_getitem (PyEnum.name self).

End enums.

(** ** Logging and the computation monad *)

(** A piece of a formatted log message: literal text, or a value put into
    an f-string. *)
Inductive fragment : Type :=
| Lit (s : string)
| FInt (z : Z)
| FStr (s : string)
| FFloat (f : spec_float)
| FBytes (b : bytes)
| FMember (m : PyEnum.member Z).

(** One call on the module's [logger]. [logger.warn] is the old name of
    [logger.warning]; [logger.exception] logs at error level with the
    exception attached. *)
Inductive log_call : Type :=
| warning (msg : list fragment)
| error (msg : list fragment)
| exception (e : exn).

Definition log := list log_call.

(** A computation reads the log so far and returns its outcome and the new
    log; what was logged before an exception stays logged. *)
Definition M (A : Type) : Type := log -> result A * log.

Definition ret {A} (a : A) : M A := fun l => (Ok a, l).

Definition raise {A} (e : exn) : M A := fun l => (Raise e, l).

Definition bind {A B} (c : M A) (k : A -> M B) : M B :=
  fun l =>
    match c l with
    | (Ok a, l') => k a l'
    | (Raise e, l') => (Raise e, l')
    end.

Definition lift {A} (r : result A) : M A := fun l => (r, l).

Definition emit (c : log_call) : M unit := fun l => (Ok tt, (l ++ [c])%list).

(** [try: body  except <class> as e: handler e]; an exception the clause
    does not take goes on. *)
Definition try_except {A} (body : M A) (catches : exn -> bool) (handler : exn -> M A) : M A :=
  fun l =>
    match body l with
    | (Ok a, l') => (Ok a, l')
    | (Raise e, l') => if catches e then handler e l' else (Raise e, l')
    end.

Declare Scope py_scope.
Delimit Scope py_scope with py.
Notation "x <- c ;; k" := (bind c (fun x => k))
  (at level 61, c at next level, right associativity) : py_scope.
Notation "c ;; k" := (bind c (fun _ => k))
  (at level 61, right associativity) : py_scope.
Notation "' pat <- c ;; k" := (bind c (fun x => match x with pat => k end))
  (at level 61, pat pattern, c at next level, right associativity) : py_scope.

(** ** Python numbers *)

Definition prec64 : Z := 53.
Definition emax64 : Z := 1024.

(** [float(n)] for an [int]: nearest-even rounding to binary64, and
    [OverflowError] when the rounded magnitude would reach [2**1024]. *)
Definition float_of_int (n : Z) : result spec_float :=
  if 2 ^ 1024 - 2 ^ 970 <=? Z.abs n then Raise OverflowError
  else Ok (binary_normalize prec64 emax64 n 0 false).

Definition float_is_zero (f : spec_float) : bool :=
  match f with
  | S754_zero _ => true
  | _ => false
  end.

(** [x / y] on floats. *)
Definition float_truediv (x y : spec_float) : result spec_float :=
  if float_is_zero y then Raise ZeroDivisionError
  else Ok (SFdiv prec64 emax64 x y).

(** The literal [10000.0]. *)
Definition f10000 : spec_float := binary_normalize prec64 emax64 10000 0 false.

(** [n / y] for an [int] [n] and a [float] [y]: [n] is converted first. *)
Definition int_truediv_float (n : Z) (y : spec_float) : result spec_float :=
  match float_of_int n with
  | Ok x => float_truediv x y
  | Raise e => Raise e
  end.

(** [f] is a positive, valid binary64 with a negative exponent, and the
    ratio [num / den] ([den > 0]) lies within half a unit in the last place
    of it: [f] is the float a decimal literal of that ratio denotes. *)
Definition nearest_to_ratio (num den : Z) (f : spec_float) : bool :=
  match f with
  | S754_finite false m e =>
      valid_binary prec64 emax64 f && (e <? 0) &&
      (2 * Z.abs (Zpos m * den - num * 2 ^ (- e)) <=? den)
  | _ => false
  end.

(** [x in t] for a tuple of ints. *)
Definition contains (t : list Z) (x : Z) : bool := existsb (Z.eqb x) t.

(** [str.upper] on ASCII text. *)
Definition upper_ascii (c : ascii) : ascii :=
  let n := nat_of_ascii c in
  if (97 <=? n)%nat && (n <=? 122)%nat then ascii_of_nat (n - 32) else c.

Fixpoint upper (s : string) : string :=
  match s with
  | EmptyString => EmptyString
  | String c s' => String (upper_ascii c) (upper s')
  end.

(** ** What prop.py imports

    [constants], [utils], [enum] and the libraries [struct], [datetime] and
    [olefile] are not part of these sources.  What prop.py uses of them is
    collected in the records below, and the embedding of prop.py is
    parametric in them. *)

(** A compiled [struct.Struct] whose [unpack] yields an [A]; [struct.error]
    is raised through [result]. *)
Definition Struct (A : Type) : Type := bytes -> result A.

Definition unpack {A} (s : Struct A) (buffer : bytes) : result A := s buffer.

Record datetime_module : Type := {
  datetime : Type;
  datetime_max : datetime;
  (** [d + datetime.timedelta(days = x)] *)
  add_timedelta_days : datetime -> spec_float -> result datetime;
  (** [d.__format__(spec)] *)
  datetime_format : datetime -> string -> string
}.

Record constants_module (dt : datetime_module) : Type := {
  ST2 : Struct (Z * Z);
  ST3 : Struct Z;
  STFIX : Struct bytes;
  STVAR : Struct (Z * bytes);
  STI16 : Struct Z;
  STI32 : Struct Z;
  STI64 : Struct Z;
  STF32 : Struct spec_float;
  STF64 : Struct spec_float;
  FIXED_LENGTH_PROPS : list Z;
  VARIABLE_LENGTH_PROPS : list Z;
  MULTIPLE_2_BYTES_HEX : list Z;
  MULTIPLE_4_BYTES_HEX : list Z;
  MULTIPLE_8_BYTES_HEX : list Z;
  MULTIPLE_16_BYTES_HEX : list Z;
  PYTPFLOATINGTIME_START : datetime dt
}.

Arguments ST2 {dt} _.
Arguments ST3 {dt} _.
Arguments STFIX {dt} _.
Arguments STVAR {dt} _.
Arguments STI16 {dt} _.
Arguments STI32 {dt} _.
Arguments STI64 {dt} _.
Arguments STF32 {dt} _.
Arguments STF64 {dt} _.
Arguments FIXED_LENGTH_PROPS {dt} _.
Arguments VARIABLE_LENGTH_PROPS {dt} _.
Arguments MULTIPLE_2_BYTES_HEX {dt} _.
Arguments MULTIPLE_4_BYTES_HEX {dt} _.
Arguments MULTIPLE_8_BYTES_HEX {dt} _.
Arguments MULTIPLE_16_BYTES_HEX {dt} _.
Arguments PYTPFLOATINGTIME_START {dt} _.

(** The argument of [properHex], which prop.py calls on bytes and on an int. *)
Inductive hexarg : Type :=
| HexBytes (b : bytes)
| HexInt (n : Z).

Record utils_module (dt : datetime_module) : Type := {
  fromTimeStamp : spec_float -> result (datetime dt);
  filetimeToUtc : Z -> result spec_float;
  properHex : hexarg -> string
}.

Arguments fromTimeStamp {dt} _.
Arguments filetimeToUtc {dt} _.
Arguments properHex {dt} _.

Record olefile_module (dt : datetime_module) : Type := {
  filetime2datetime : Z -> result (datetime dt)
}.

Arguments filetime2datetime {dt} _.

Record enum_module : Type := {
  ErrorCode : PyEnum.defs Z;
  ErrorCodeType : PyEnum.defs Z
}.

(** What a module-level name of prop.py is bound to: an enumeration class,
    or something that is not called with a number. *)
Inductive pyobject : Type :=
| EnumClass (cls : PyEnum.defs Z)
| OtherObject.

Definition namespace := list (string * pyobject).

Fixpoint lookup_name (ns : namespace) (n : string) : option pyobject :=
  match ns with
  | [] => None
  | (m, o) :: ns' => if String.eqb m n then Some o else lookup_name ns' n
  end.

(** Reading a global name: [NameError] when nothing binds it (the names read
    this way are not builtins). *)
Definition load_global (ns : namespace) (n : string) : result pyobject :=
  match lookup_name ns n with
  | Some o => Ok o
  | None => Raise (NameError n)
  end.

(** [o(v)] for an int [v]. *)
Definition call_with_int (o : pyobject) (v : Z) : result (PyEnum.member Z) :=
  match o with
  | EnumClass cls => PyEnum.call Z.eqb cls v
  | OtherObject => Raise TypeError
  end.

(** ** prop.py *)

Module prop.
Section prop.
Variable dt : datetime_module.
Variable constants : constants_module dt.
Variable utils : utils_module dt.
Variable olefile : olefile_module dt.
Variable enum : enum_module.

Local Open Scope py_scope.

(** The names bound at module level: the imports, [logger], and the
    function and the classes the module defines. *)
Definition globals : namespace :=
  [ ("datetime", OtherObject); ("logging", OtherObject);
    ("olefile", OtherObject); ("constants", OtherObject);
    ("ErrorCode", EnumClass (ErrorCode enum));
    ("ErrorCodeType", EnumClass (ErrorCodeType enum));
    ("fromTimeStamp", OtherObject); ("filetimeToUtc", OtherObject);
    ("properHex", OtherObject); ("logger", OtherObject);
    ("createProp", OtherObject); ("PropBase", OtherObject);
    ("FixedLengthProp", OtherObject); ("VariableLengthProp", OtherObject) ].

(** The values [parseType] returns. *)
Inductive pyval : Type :=
| PyBytes (b : bytes)
| PyNone
| PyInt (n : Z)
| PyFloat (f : spec_float)
| PyBool (b : bool)
| PyDatetime (d : datetime dt)
| PyMember (m : PyEnum.member Z).

Record PropBase : Type := {
  raw : bytes;
  name : string;
  type : Z;
  flags : Z;
  flagMandatory : bool;
  flagReadable : bool;
  flagWritable : bool
}.

(** [PropBase.__init__]; [string[3::-1]] is the first four bytes, last
    first. *)
Definition PropBase_init (string : bytes) : M PropBase :=
  let __raw := string in
  let __name := upper (properHex utils (HexBytes (rev (firstn 4 string)))) in
  '(__type, __flags) <- lift (unpack (ST2 constants) string) ;;
  let __fm := Z.land __flags 1 =? 1 in
  let __fr := Z.land __flags 2 =? 2 in
  let __fw := Z.land __flags 4 =? 4 in
  ret {| raw := __raw; name := __name; type := __type; flags := __flags;
         flagMandatory := __fm; flagReadable := __fr; flagWritable := __fw |}.

(** The object [PropBase.__init__] builds from an entry whose header
    unpacks to the type [ty] and the flags [fl]. *)
Definition PropBase_of (string : bytes) (ty fl : Z) : PropBase :=
  {| raw := string;
     name := upper (properHex utils (HexBytes (rev (firstn 4 string))));
     type := ty;
     flags := fl;
     flagMandatory := Z.land fl 1 =? 1;
     flagReadable := Z.land fl 2 =? 2;
     flagWritable := Z.land fl 4 =? 4 |}.

Definition null8 : bytes := [x00; x00; x00; x00; x00; x00; x00; x00].

(** [FixedLengthProp.parseType] *)
Definition parseType (self : PropBase) (_type : Z) (stream : bytes) : M pyval :=
  let value := stream in
  if _type =? 0x0000 then
    ret (PyBytes value)
  else if _type =? 0x0001 then
    (if negb (bytes_eqb value null8)
     then emit (warning [Lit "Property type is PtypNull, but is not equal to 0."])
     else ret tt) ;;
    ret PyNone
  else if _type =? 0x0002 then
    v <- lift (unpack (STI16 constants) value) ;; ret (PyInt v)
  else if _type =? 0x0003 then
    v <- lift (unpack (STI32 constants) value) ;; ret (PyInt v)
  else if _type =? 0x0004 then
    v <- lift (unpack (STF32 constants) value) ;; ret (PyFloat v)
  else if _type =? 0x0005 then
    v <- lift (unpack (STF64 constants) value) ;; ret (PyFloat v)
  else if _type =? 0x0006 then
    v <- lift (unpack (STI64 constants) value) ;;
    q <- lift (int_truediv_float v f10000) ;;
    ret (PyFloat q)
  else if _type =? 0x0007 then
    v <- lift (unpack (STF64 constants) value) ;;
    d <- lift (add_timedelta_days dt (PYTPFLOATINGTIME_START constants) v) ;;
    ret (PyDatetime d)
  else if _type =? 0x000A then
    v <- lift (unpack (STI32 constants) value) ;;
    try_except
      (cls <- lift (load_global globals "ErrorCodeType") ;;
       m <- lift (call_with_int cls v) ;;
       ret (PyMember m))
      isinstance_ValueError
      (fun _ =>
         emit (warning [Lit "Error type found that was not from Additional Error Codes. Value was ";
                        FInt v; Lit ". You should report this to the developers."]) ;;
         try_except
           (cls <- lift (load_global globals "ErrorType") ;;
            m <- lift (call_with_int cls v) ;;
            emit (warning [Lit "REPORT TO DEVELOPERS: Error type of "; FMember m;
                           Lit " was found."]))
           isinstance_ValueError
           (fun _ => ret tt) ;;
         ret (PyInt v))
  else if _type =? 0x000B then
    v <- lift (unpack (ST3 constants) value) ;; ret (PyBool (v =? 1))
  else if _type =? 0x0014 then
    v <- lift (unpack (STI64 constants) value) ;; ret (PyInt v)
  else if _type =? 0x0040 then
    try_except
      (rawtime <- lift (unpack (ST3 constants) value) ;;
       if rawtime <? 116444736000000000 then
         d <- lift (filetime2datetime olefile rawtime) ;; ret (PyDatetime d)
       else if negb (rawtime =? 915151392000000000) then
         t <- lift (filetimeToUtc utils rawtime) ;;
         d <- lift (fromTimeStamp utils t) ;;
         ret (PyDatetime d)
       else
         ret (PyDatetime (datetime_max dt)))
      isinstance_Exception
      (fun e =>
         emit (exception e) ;;
         r <- lift (unpack (ST3 constants) value) ;;
         t <- lift (filetimeToUtc utils r) ;;
         emit (error [Lit "Timestamp value of "; FFloat t;
                      Lit " caused an exception. This was probably caused by the time stamp being too far in the future."]) ;;
         emit (error [FBytes (raw self)]) ;;
         ret (PyBytes value))
  else if _type =? 0x0048 then
    ret (PyBytes value)
  else
    ret (PyBytes value).

Record FixedLengthProp : Type := {
  fixed_base : PropBase;
  value : pyval
}.

(** [FixedLengthProp.__init__] *)
Definition FixedLengthProp_init (string : bytes) : M FixedLengthProp :=
  self <- PropBase_init string ;;
  stream <- lift (unpack (STFIX constants) string) ;;
  __value <- parseType self (type self) stream ;;
  ret {| fixed_base := self; value := __value |}.

Record VariableLengthProp : Type := {
  variable_base : PropBase;
  length : Z;
  reservedFlags : bytes;
  realLength : option Z
}.

(** [VariableLengthProp.__init__]; [//] is floor division, which [Z.div]
    is for the positive widths. *)
Definition VariableLengthProp_init (string : bytes) : M VariableLengthProp :=
  self <- PropBase_init string ;;
  '(__length, __reserved) <- lift (unpack (STVAR constants) string) ;;
  let __realLength :=
    if type self =? 0x001E then Some (__length - 1)
    else if type self =? 0x001F then Some (__length - 2)
    else if contains (MULTIPLE_2_BYTES_HEX constants) (type self) then Some (__length / 2)
    else if contains (MULTIPLE_4_BYTES_HEX constants) (type self) then Some (__length / 4)
    else if contains (MULTIPLE_8_BYTES_HEX constants) (type self) then Some (__length / 8)
    else if contains (MULTIPLE_16_BYTES_HEX constants) (type self) then Some (__length / 16)
    else if type self =? 0x000D then None
    else Some __length in
  ret {| variable_base := self; length := __length; reservedFlags := __reserved;
         realLength := __realLength |}.

(** What [createProp] returns. *)
Inductive Prop_ : Type :=
| IsFixedLengthProp (p : FixedLengthProp)
| IsVariableLengthProp (p : VariableLengthProp).

Definition createProp (string : bytes) : M Prop_ :=
  '(temp, _) <- lift (unpack (ST2 constants) string) ;;
  if contains (FIXED_LENGTH_PROPS constants) temp then
    p <- FixedLengthProp_init string ;; ret (IsFixedLengthProp p)
  else
    (if negb (contains (VARIABLE_LENGTH_PROPS constants) temp)
     then emit (warning [Lit "Unknown property type: "; FStr (properHex utils (HexInt temp))])
     else ret tt) ;;
    p <- VariableLengthProp_init string ;; ret (IsVariableLengthProp p).

End prop.

Arguments PyBytes {dt} b.
Arguments PyNone {dt}.
Arguments PyInt {dt} n.
Arguments PyFloat {dt} f.
Arguments PyBool {dt} b.
Arguments PyDatetime {dt} d.
Arguments PyMember {dt} m.
Arguments fixed_base {dt} f.
Arguments value {dt} f.
Arguments IsFixedLengthProp {dt} p.
Arguments IsVariableLengthProp {dt} p.

End prop.

(** ** msg_classes/meeting_forward.py *)

Module meeting_forward.

(** The members of [RecurPatternType] that the header table names.  The
    declaration of the enumeration is not part of these sources;
    [OTHER_MEMBER] stands for any further member it may declare. *)
Inductive RecurPatternType : Type :=
| DAY
| WEEK
| MONTH
| MONTH_NTH
| MONTH_END
| HJ_MONTH
| HJ_MONTH_NTH
| HJ_MONTH_END
| OTHER_MEMBER (name : string).

Definition RecurPatternType_eqb (a b : RecurPatternType) : bool :=
  match a, b with
  | DAY, DAY | WEEK, WEEK | MONTH, MONTH | MONTH_NTH, MONTH_NTH
  | MONTH_END, MONTH_END | HJ_MONTH, HJ_MONTH | HJ_MONTH_NTH, HJ_MONTH_NTH
  | HJ_MONTH_END, HJ_MONTH_END => true
  | OTHER_MEMBER n, OTHER_MEMBER m => String.eqb n m
  | _, _ => false
  end.

(** [d[k]] on a dict display written as its [key: value] lines. *)
Fixpoint dict_getitem {V} (d : list (RecurPatternType * V)) (k : RecurPatternType) : result V :=
  match d with
  | [] => Raise KeyError
  | (k', v) :: d' => if RecurPatternType_eqb k' k then Ok v else dict_getitem d' k
  end.

Section meeting_forward.
Variable dt : datetime_module.

(** The recurrence structure [appointmentRecur] returns, as far as the
    header reads it. *)
Record RecurrencePattern : Type := { patternType : RecurPatternType }.

(** What the header reads of a [MeetingForwardNotification]: attributes
    it inherits from [MeetingRelated] and the message classes below. *)
Record MeetingForwardNotification : Type := {
  subject : option string;
  location : option string;
  startDate : option (datetime dt);
  endDate : option (datetime dt);
  datetimeFormat : string;
  appointmentRecur : option RecurrencePattern;
  recurrencePattern : option string;
  organizer : option string;
  to : option string;
  cc : option string;
  bcc : option string;
  importanceString : option string
}.

Definition HEADER_FORMAT_TYPE : Type := list (string * list (string * option string)).

Definition recurrence_table : list (RecurPatternType * string) :=
  [ (DAY, "Daily");
    (WEEK, "Weekly");
    (MONTH, "Monthly");
    (MONTH_NTH, "Monthly");
    (MONTH_END, "Monthly");
    (HJ_MONTH, "Monthly");
    (HJ_MONTH_NTH, "Monthly");
    (HJ_MONTH_END, "Monthly") ].

(** The recurrence string computed at the head of
    [headerFormatProperties]. *)
Definition recur_string (self : MeetingForwardNotification) : result string :=
  let recur := "(none)" in
  match appointmentRecur self with
  | Some r => dict_getitem recurrence_table (patternType r)
  | None => Ok recur
  end.

Definition format_date (self : MeetingForwardNotification) (d : option (datetime dt)) : option string :=
  match d with
  | Some d' => Some (datetime_format dt d' (datetimeFormat self))
  | None => None
  end.

Definition headerFormatProperties (self : MeetingForwardNotification) : result HEADER_FORMAT_TYPE :=
  match recur_string self with
  | Raise e => Raise e
  | Ok recur =>
      Ok [ ("-main info-",
            [ ("Subject", subject self);
              ("Location", location self) ]);
           ("-date-",
            [ ("Start", format_date self (startDate self));
              ("End", format_date self (endDate self)) ]);
           ("-recurrence-",
            [ ("Recurrance", Some recur);
              ("Recurrence Pattern", recurrencePattern self) ]);
           ("-attendees-",
            [ ("Organizer", organizer self);
              ("Required Attendees", to self);
              ("Optional Attendees", cc self);
              ("Resources", bcc self) ]);
           ("-importance-",
            [ ("Importance", importanceString self) ]) ]
  end.

(** [d[section][key]] on the returned header. *)
Fixpoint assoc {V} (k : string) (d : list (string * V)) : option V :=
  match d with
  | [] => None
  | (k', v) :: d' => if String.eqb k' k then Some v else assoc k d'
  end.

Definition header_field (h : HEADER_FORMAT_TYPE) (section key : string) : option (option string) :=
  match assoc section h with
  | Some fields => assoc key fields
  | None => None
  end.
End meeting_forward.

Arguments subject {dt} m.
Arguments location {dt} m.
Arguments startDate {dt} m.
Arguments endDate {dt} m.
Arguments datetimeFormat {dt} m.
Arguments appointmentRecur {dt} m.
Arguments recurrencePattern {dt} m.
Arguments organizer {dt} m.
Arguments to {dt} m.
Arguments cc {dt} m.
Arguments bcc {dt} m.
Arguments importanceString {dt} m.
Arguments recur_string {dt} self.
Arguments headerFormatProperties {dt} self.

End meeting_forward.

(** ** An instance of the imported modules

    The property-entry layout of MS-OXMSG (16-byte entries, little-endian
    fields), the property types of MS-OXCDATA, and simple stand-ins for the
    date functions, with a [datetime] counted in microseconds from
    1601-01-01.  The theorems below hold for every instance; this one is
    used to run the embedding on concrete entries. *)

Module oxmsg.

Fixpoint le_uint (b : bytes) : Z :=
  match b with
  | [] => 0
  | x :: b' => Z.of_N (Byte.to_N x) + 256 * le_uint b'
  end.

Definition le_sint (b : bytes) : Z :=
  let n := le_uint b in
  let w := 8 * Z.of_nat (List.length b) in
  if n <? 2 ^ (w - 1) then n else n - 2 ^ w.

Definition slice (off len : nat) (b : bytes) : bytes := firstn len (skipn off b).

(** A struct of [size] bytes: [unpack] refuses any other buffer length. *)
Definition sized {A} (size : nat) (f : bytes -> A) : Struct A :=
  fun b => if Nat.eqb (List.length b) size then Ok (f b) else Raise struct_error.

(** The binary64 value of a 64-bit pattern. *)
Definition float_of_bits64 (n : Z) : spec_float :=
  let s := Z.testbit n 63 in
  let e := Z.land (Z.shiftr n 52) 0x7FF in
  let m := Z.land n 0xFFFFFFFFFFFFF in
  if e =? 0 then
    match m with
    | Zpos p => S754_finite s p (-1074)
    | _ => S754_zero s
    end
  else if e =? 0x7FF then
    (if m =? 0 then S754_infinity s else S754_nan)
  else
    match m + 2 ^ 52 with
    | Zpos p => S754_finite s p (e - 1075)
    | _ => S754_nan
    end.

(** The binary32 value of a 32-bit pattern, as a binary64. *)
Definition float_of_bits32 (n : Z) : spec_float :=
  let s := Z.testbit n 31 in
  let e := Z.land (Z.shiftr n 23) 0xFF in
  let m := Z.land n 0x7FFFFF in
  let signed (k : Z) := if s then - k else k in
  if e =? 0 then
    (if m =? 0 then S754_zero s
     else binary_normalize prec64 emax64 (signed m) (-149) s)
  else if e =? 0xFF then
    (if m =? 0 then S754_infinity s else S754_nan)
  else
    binary_normalize prec64 emax64 (signed (m + 2 ^ 23)) (e - 150) s.

Definition usec_per_day : Z := 86400000000.

Definition datetime_min_usec : Z := - 584388 * usec_per_day.
Definition datetime_max_usec : Z := 3067671 * usec_per_day - 1.

Definition in_datetime_range (u : Z) : result Z :=
  if (datetime_min_usec <=? u) && (u <=? datetime_max_usec) then Ok u
  else Raise OverflowError.

(** [a / b] rounded to the nearest integer, halves to even ([b > 0]). *)
Definition div_round_even (a b : Z) : Z :=
  let q := a / b in
  let r := a mod b in
  match 2 * r ?= b with
  | Lt => q
  | Gt => q + 1
  | Eq => if Z.even q then q else q + 1
  end.

(** [scale] times a finite float, rounded to an integer. *)
Definition scaled_float (scale : Z) (x : spec_float) : result Z :=
  match x with
  | S754_zero _ => Ok 0
  | S754_finite s m e =>
      let a := (if s then - Zpos m else Zpos m) * scale in
      Ok (if 0 <=? e then a * 2 ^ e else div_round_even a (2 ^ (- e)))
  | S754_infinity _ => Raise OverflowError
  | S754_nan => Raise ValueError
  end.

Definition dt : datetime_module :=
  {| datetime := Z;
     datetime_max := datetime_max_usec;
     add_timedelta_days := fun d x =>
       match scaled_float usec_per_day x with
       | Ok u => in_datetime_range (d + u)
       | Raise e => Raise e
       end;
     datetime_format := fun _ spec => spec |}.

Definition constants : constants_module dt :=
  {| ST2 := sized 16 (fun b => (le_uint (slice 0 2 b), le_uint (slice 4 4 b)));
     ST3 := sized 8 le_uint;
     STFIX := sized 16 (slice 8 8);
     STVAR := sized 16 (fun b => (le_sint (slice 8 4 b), slice 12 4 b));
     STI16 := sized 8 (fun b => le_sint (slice 0 2 b));
     STI32 := sized 8 (fun b => le_uint (slice 0 4 b));
     STI64 := sized 8 le_sint;
     STF32 := sized 8 (fun b => float_of_bits32 (le_uint (slice 0 4 b)));
     STF64 := sized 8 (fun b => float_of_bits64 (le_uint b));
     FIXED_LENGTH_PROPS :=
       [0x0000; 0x0001; 0x0002; 0x0003; 0x0004; 0x0005; 0x0006; 0x0007;
        0x000A; 0x000B; 0x0014; 0x0040; 0x0048];
     VARIABLE_LENGTH_PROPS :=
       [0x000D; 0x001E; 0x001F; 0x00FB; 0x00FD; 0x00FE; 0x0102;
        0x1002; 0x1003; 0x1004; 0x1005; 0x1006; 0x1007; 0x1014;
        0x101E; 0x101F; 0x1040; 0x1048; 0x1102];
     MULTIPLE_2_BYTES_HEX := [0x1002];
     MULTIPLE_4_BYTES_HEX := [0x1003; 0x1004];
     MULTIPLE_8_BYTES_HEX := [0x1005; 0x1007; 0x1014; 0x1040];
     MULTIPLE_16_BYTES_HEX := [0x1048];
     (* 1899-12-30 *)
     PYTPFLOATINGTIME_START := (109205 * usec_per_day : datetime dt) |}.

Fixpoint hex_of_pos (fuel : nat) (n : Z) (acc : string) : string :=
  match fuel with
  | O => acc
  | S fuel' =>
      if n <=? 0 then acc
      else hex_of_pos fuel' (n / 16) (String (hex_digit (Z.to_N (n mod 16))) acc)
  end.

Definition hex_of_int (n : Z) : string :=
  let h := hex_of_pos (Z.to_nat (Z.log2 n + 1)) n EmptyString in
  if Nat.even (String.length h) then h else String "0"%char h.

Definition seconds_1601_to_1970 : Z := 11644473600.

Definition fromTimeStamp (t : spec_float) : result (datetime dt) :=
  match scaled_float 1000000 t with
  | Ok u => in_datetime_range (u + seconds_1601_to_1970 * 1000000)
  | Raise e => Raise e
  end.

Definition filetimeToUtc (n : Z) : result spec_float :=
  int_truediv_float (n - 116444736000000000)
    (binary_normalize prec64 emax64 10000000 0 false).

Definition properHex (a : hexarg) : string :=
  match a with
  | HexBytes b => hexEncode b
  | HexInt n => hex_of_int n
  end.

Definition utils : utils_module dt :=
  Build_utils_module dt fromTimeStamp filetimeToUtc properHex.

Definition filetime2datetime (n : Z) : result (datetime dt) :=
  in_datetime_range (n / 10).

Definition olefile : olefile_module dt :=
  Build_olefile_module dt filetime2datetime.

(** The first lines of the error tables of MS-OXCDATA. *)
Definition enum : enum_module :=
  {| ErrorCode := [("SUCCESS", 0); ("GENERAL_FAILURE", 0x80004005)];
     ErrorCodeType := [("SUCCESS", 0); ("GENERAL_FAILURE", 0x80004005);
                       ("OUT_OF_MEMORY", 0x8007000E)] |}.

(** A 16-byte property entry: type, property id, flags, eight value bytes. *)
Definition entry (type_lo type_hi : byte) (payload : bytes) : bytes :=
  [type_lo; type_hi; x01; x30; x06; x00; x00; x00] ++ payload.

(** Entries of the types the properties below are run on. *)
Definition string8_entry : bytes :=        (* type 0x001E, length 10 *)
  entry x1e x00 [x0a; x00; x00; x00; x00; x00; x00; x00].
Definition string8_empty_entry : bytes :=  (* type 0x001E, length 0 *)
  entry x1e x00 [x00; x00; x00; x00; x00; x00; x00; x00].
Definition guid_array_entry : bytes :=     (* type 0x1048, length 32 *)
  entry x48 x10 [x20; x00; x00; x00; x00; x00; x00; x00].
Definition unknown_entry : bytes :=        (* type 0x9999 *)
  entry x99 x99 [x0a; x00; x00; x00; x00; x00; x00; x00].
Definition guid_entry : bytes :=           (* type 0x0048 *)
  entry x48 x00 [x01; x02; x03; x04; x05; x06; x07; x08].
Definition currency_entry : bytes :=       (* type 0x0006, value 123456 *)
  entry x06 x00 [x40; xe2; x01; x00; x00; x00; x00; x00].
Definition errorcode_entry : bytes :=      (* type 0x000A, value 1 *)
  entry x0a x00 [x01; x00; x00; x00; x00; x00; x00; x00].
Definition time_sentinel_entry : bytes :=  (* type 0x0040, 915151392000000000 *)
  entry x40 x00 [x00; x40; xdd; xa3; x57; x45; xb3; x0c].
Definition time_overflow_entry : bytes :=  (* type 0x0040, 2**63 - 1 *)
  entry x40 x00 [xff; xff; xff; xff; xff; xff; xff; x7f].

(** A weekly meeting forward notification. *)
Definition weekly_forward : meeting_forward.MeetingForwardNotification dt :=
  meeting_forward.Build_MeetingForwardNotification dt
    (Some "Stand-up") (Some "Room 1") None None "%c"
    (Some {| meeting_forward.patternType := meeting_forward.WEEK |})
    (Some "every Monday") (Some "A") (Some "B") None None (Some "Normal").

End oxmsg.

(** ** enums.py: the other enumerations, and [fromBits] *)

Module enums_tables.

Definition AddressBookType : PyEnum.defs Z :=
  [ ("LOCAL_MAIL_USER", 0x000);
    ("DISTRIBUTION_LIST", 0x001);
    ("BULLETIN_BOARD_OR_PUBLIC_FOLDER", 0x002);
    ("AUTOMATED_MAILBOX", 0x003);
    ("ORGANIZATIONAL_MAILBOX", 0x004);
    ("PRIVATE_DISTRIBUTION_LIST", 0x005);
    ("REMOTE_MAIL_USER", 0x006);
    ("CONTAINER", 0x100);
    ("TEMPLATE", 0x101);
    ("ONE_OFF_USER", 0x102);
    ("SEARCH", 0x200) ].

Definition AttachErrorBehavior : PyEnum.defs Z :=
  [ ("THROW", 0);
    ("NOT_IMPLEMENTED", 1);
    ("BROKEN", 2) ].

Definition AttachmentType : PyEnum.defs Z :=
  [ ("DATA", 0);
    ("MSG", 1);
    ("WEB", 2);
    ("SIGNED", 3) ].

Definition BCImageAlignment : PyEnum.defs Z :=
  [ ("STRETCH", 0x00);
    ("TOP_LEFT", 0x01);
    ("TOP_CENTER", 0x02);
    ("TOP_RIGHT", 0x03);
    ("MIDDLE_LEFT", 0x04);
    ("MIDDLE_CENTER", 0x05);
    ("MIDDLE_RIGHT", 0x06);
    ("BOTTOM_LEFT", 0x07);
    ("BOTTOM_CENTER", 0x08);
    ("BOTTOM_RIGHT", 0x09) ].

Definition BCImageSource : PyEnum.defs Z :=
  [ ("CONTACT_PHOTO", 0);
    ("CARD_PHOTO", 1) ].

Definition BCLabelFormat : PyEnum.defs Z :=
  [ ("NO_LABEL", 0 (* 0b000 *));
    ("RIGHT_LTR", 1 (* 0b001 *));
    ("LEFT_LTR", 2 (* 0b010 *));
    ("UNKNOWN", 4 (* 0b100 *));
    ("RIGHT_RTL", 5 (* 0b101 *));
    ("LEFT_RTL", 6 (* 0b110 *)) ].

Definition BCTemplateID : PyEnum.defs Z :=
  [ ("IM_ALIGN_LEFT", 0x00);
    ("IM_ALIGN_RIGHT", 0x01);
    ("IM_ALIGN_TOP", 0x02);
    ("IM_ALIGN_BOTTOM", 0x03);
    ("NO_IMAGE", 0x04);
    ("BACKGROUND", 0x05) ].

Definition BCTextFormat : PyEnum.defs Z :=
  [ ("LEFT", 0 (* 0b00000000 *));
    ("LEFT_M", 1 (* 0b00000001 *));
    ("LEFT_B", 2 (* 0b00000010 *));
    ("LEFT_BM", 3 (* 0b00000011 *));
    ("LEFT_I", 4 (* 0b00000100 *));
    ("LEFT_IM", 5 (* 0b00000101 *));
    ("LEFT_IB", 6 (* 0b00000110 *));
    ("LEFT_IBM", 7 (* 0b00000111 *));
    ("LEFT_U", 8 (* 0b00001000 *));
    ("LEFT_UM", 9 (* 0b00001001 *));
    ("LEFT_UB", 10 (* 0b00001010 *));
    ("LEFT_UBM", 11 (* 0b00001011 *));
    ("LEFT_UI", 12 (* 0b00001100 *));
    ("LEFT_UIM", 13 (* 0b00001101 *));
    ("LEFT_UIB", 14 (* 0b00001110 *));
    ("LEFT_UIBM", 15 (* 0b00001111 *));
    ("CENTER", 32 (* 0b00100000 *));
    ("CENTER_M", 33 (* 0b00100001 *));
    ("CENTER_B", 34 (* 0b00100010 *));
    ("CENTER_BM", 35 (* 0b00100011 *));
    ("CENTER_I", 36 (* 0b00100100 *));
    ("CENTER_IM", 37 (* 0b00100101 *));
    ("CENTER_IB", 38 (* 0b00100110 *));
    ("CENTER_IBM", 39 (* 0b00100111 *));
    ("CENTER_U", 40 (* 0b00101000 *));
    ("CENTER_UM", 41 (* 0b00101001 *));
    ("CENTER_UB", 42 (* 0b00101010 *));
    ("CENTER_UBM", 43 (* 0b00101011 *));
    ("CENTER_UI", 44 (* 0b00101100 *));
    ("CENTER_UIM", 45 (* 0b00101101 *));
    ("CENTER_UIB", 46 (* 0b00101110 *));
    ("CENTER_UIBM", 47 (* 0b00101111 *));
    ("RIGHT", 16 (* 0b00010000 *));
    ("RIGHT_M", 17 (* 0b00010001 *));
    ("RIGHT_B", 18 (* 0b00010010 *));
    ("RIGHT_BM", 19 (* 0b00010011 *));
    ("RIGHT_I", 20 (* 0b00010100 *));
    ("RIGHT_IM", 21 (* 0b00010101 *));
    ("RIGHT_IB", 22 (* 0b00010110 *));
    ("RIGHT_IBM", 23 (* 0b00010111 *));
    ("RIGHT_U", 24 (* 0b00011000 *));
    ("RIGHT_UM", 25 (* 0b00011001 *));
    ("RIGHT_UB", 26 (* 0b00011010 *));
    ("RIGHT_UBM", 27 (* 0b00011011 *));
    ("RIGHT_UI", 28 (* 0b00011100 *));
    ("RIGHT_UIM", 29 (* 0b00011101 *));
    ("RIGHT_UIB", 30 (* 0b00011110 *));
    ("RIGHT_UIBM", 31 (* 0b00011111 *)) ].

Definition ContactAddressIndex : PyEnum.defs Z :=
  [ ("EMAIL_1", 0);
    ("EMAIL_2", 1);
    ("EMAIL_3", 2);
    ("FAX_1", 3);
    ("FAX_2", 4);
    ("FAX_3", 5) ].

Definition DeencapType : PyEnum.defs Z :=
  [ ("PLAIN", 0);
    ("HTML", 1) ].

Definition DisplayType : PyEnum.defs Z :=
  [ ("MAILUSER", 0x0000);
    ("DISTLIST", 0x0001);
    ("FORUM", 0x0002);
    ("AGENT", 0x0003);
    ("ORGANIZATION", 0x0004);
    ("PRIVATE_DISTLIST", 0x0005);
    ("REMOTE_MAILUSER", 0x0006);
    ("CONTAINER", 0x0100);
    ("TEMPLATE", 0x0101);
    ("ADDRESS_TEMPLATE", 0x0102);
    ("SEARCH", 0x0200) ].

Definition ElectronicAddressProperties : PyEnum.defs Z :=
  [ ("EMAIL_1", 0x00000000);
    ("EMAIL_2", 0x00000001);
    ("EMAIL_3", 0x00000002);
    ("BUSINESS_FAX", 0x00000003);
    ("HOME_FAX", 0x00000004);
    ("PRIMARY_FAX", 0x00000005) ].

Definition Gender : PyEnum.defs Z :=
  [ ("UNSPECIFIED", 0x0000);
    ("FEMALE", 0x0001);
    ("MALE", 0x0002) ].

Definition Importance : PyEnum.defs Z :=
  [ ("LOW", 0);
    ("MEDIUM", 1);
    ("IMPORTANCE_HIGH", 2) ].

Definition Intelligence : PyEnum.defs Z :=
  [ ("DUMB", 0);
    ("SMART", 1) ].

Definition MacintoshEncoding : PyEnum.defs Z :=
  [ ("BIN_HEX", 0);
    ("UUENCODE", 1);
    ("APPLE_SINGLE", 2);
    ("APPLE_DOUBLE", 3) ].

Definition MessageFormat : PyEnum.defs Z :=
  [ ("TNEF", 0);
    ("MIME", 1) ].

Definition NamedPropertyType : PyEnum.defs Z :=
  [ ("NUMERICAL_NAMED", 0);
    ("STRING_NAMED", 1) ].

Definition OORBodyFormat : PyEnum.defs Z :=
  [ ("TEXT_ONLY", 3 (* 0b0011 *));
    ("HTML_ONLY", 7 (* 0b0111 *));
    ("TEXT_AND_HTML", 11 (* 0b1011 *));
    ("UNSPECIFIED", 0 (* 0b0000 *)) ].

Definition PostalAddressID : PyEnum.defs Z :=
  [ ("UNSPECIFIED", 0x00000000);
    ("HOME", 0x00000001);
    ("WORK", 0x00000002);
    ("OTHER", 0x00000003) ].

Definition Priority : PyEnum.defs Z :=
  [ ("URGENT", 0x00000001);
    ("NORMAL", 0x00000000);
    ("NOT_URGENT", 0xFFFFFFFF) ].

Definition PropertiesType : PyEnum.defs Z :=
  [ ("MESSAGE", 0);
    ("MESSAGE_EMBED", 1);
    ("ATTACHMENT", 2);
    ("RECIPIENT", 3) ].

Definition RecipientRowFlagType : PyEnum.defs Z :=
  [ ("NOTYPE", 0x0);
    ("X500DN", 0x1);
    ("MSMAIL", 0x2);
    ("SMTP", 0x3);
    ("FAX", 0x4);
    ("PROFESSIONALOFFICESYSTEM", 0x5);
    ("PERSONALDESTRIBUTIONLIST1", 0x6);
    ("PERSONALDESTRIBUTIONLIST2", 0x7) ].

Definition RecipientType : PyEnum.defs Z :=
  [ ("SENDER", 0);
    ("TO", 1);
    ("CC", 2);
    ("BCC", 3) ].

Definition RuleActionType : PyEnum.defs Z :=
  [ ("OP_MOVE", 0x01);
    ("OP_COPY", 0x02);
    ("OP_REPLY", 0x03);
    ("OP_OOF_REPLY", 0x04);
    ("OP_DEFER_ACTION", 0x05);
    ("OP_BOUNCE", 0x06);
    ("OP_FORWARD", 0x07);
    ("OP_DELEGATE", 0x08);
    ("OP_TAG", 0x09);
    ("OP_DELETE", 0x0A);
    ("OP_MARK_AS_READ", 0x0B) ].

Definition Sensitivity : PyEnum.defs Z :=
  [ ("NORMAL", 0);
    ("PERSONAL", 1);
    ("PRIVATE", 2);
    ("CONFIDENTIAL", 3) ].

Definition TaskAcceptance : PyEnum.defs Z :=
  [ ("NOT_ASSIGNED", 0x00000000);
    ("UNKNOWN", 0x00000001);
    ("ACCEPTED", 0x00000002);
    ("REJECTED", 0x00000003) ].

Definition TaskHistory : PyEnum.defs Z :=
  [ ("NONE", 0x00000000);
    ("ACCEPTED", 0x00000001);
    ("REJECTED", 0x00000002);
    ("OTHER", 0x00000003);
    ("DUE_DATE_CHANGED", 0x00000004);
    ("ASSIGNED", 0x00000005) ].

Definition TaskMode : PyEnum.defs Z :=
  [ ("UNASSIGNED", 0);
    ("EMBEDDED_REQUEST", 1);
    ("ACCEPTED", 2);
    ("REJECTED", 3);
    ("EMBEDDED_UPDATE", 4);
    ("SELF_ASSIGNED", 5) ].

Definition TaskOwnership : PyEnum.defs Z :=
  [ ("NOT_ASSIGNED", 0x00000000);
    ("ASSIGNERS_COPY", 0x00000001);
    ("ASSIGNEES_COPY", 0x00000002) ].

Definition TaskStatus : PyEnum.defs Z :=
  [ ("NOT_STARTED", 0x00000000);
    ("IN_PROGRESS", 0x00000001);
    ("COMPLETE", 0x00000002);
    ("WAITING_ON_OTHER", 0x00000003);
    ("DEFERRED", 0x00000004) ].

Definition Guid : PyEnum.defs string :=
  [ ("PS_MAPI", "{00020328-0000-0000-C000-000000000046}");
    ("PS_PUBLIC_STRINGS", "{00020329-0000-0000-C000-000000000046}");
    ("PSETID_COMMON", "{00062008-0000-0000-C000-000000000046}");
    ("PSETID_ADDRESS", "{00062004-0000-0000-C000-000000000046}");
    ("PS_INTERNET_HEADERS", "{00020386-0000-0000-C000-000000000046}");
    ("PSETID_APPOINTMENT", "{00062002-0000-0000-C000-000000000046}");
    ("PSETID_MEETING", "{6ED8DA90-450B-101B-98DA-00AA003F1305}");
    ("PSETID_LOG", "{0006200A-0000-0000-C000-000000000046}");
    ("PSETID_MESSAGING", "{41F28F13-83F4-4114-A584-EEDB5A6B0BFF}");
    ("PSETID_NOTE", "{0006200E-0000-0000-C000-000000000046}");
    ("PSETID_POSTRSS", "{00062041-0000-0000-C000-000000000046}");
    ("PSETID_TASK", "{00062003-0000-0000-C000-000000000046}");
    ("PSETID_UNIFIEDMESSAGING", "{4442858E-A9E3-4E80-B900-317A210CC15B}");
    ("PSETID_AIRSYNC", "{71035549-0739-4DCB-9163-00F0580DBBDF}");
    ("PSETID_SHARING", "{00062040-0000-0000-C000-000000000046}");
    ("PSETID_XMLEXTRACTEDENTITIES", "{23239608-685D-4732-9C55-4C95CB4E8E33}");
    ("PSETID_ATTACHMENT", "{96357F7F-59E1-47D0-99A7-46515C183B54}") ].

(** The enumerations with integer values, by class name, in source order. *)
Definition int_classes : list (string * PyEnum.defs Z) :=
  [ ("AddressBookType", AddressBookType);
    ("AttachErrorBehavior", AttachErrorBehavior);
    ("AttachmentType", AttachmentType);
    ("BCImageAlignment", BCImageAlignment);
    ("BCImageSource", BCImageSource);
    ("BCLabelFormat", BCLabelFormat);
    ("BCTemplateID", BCTemplateID);
    ("BCTextFormat", BCTextFormat);
    ("ContactAddressIndex", ContactAddressIndex);
    ("DeencapType", DeencapType);
    ("DisplayType", DisplayType);
    ("ElectronicAddressProperties", ElectronicAddressProperties);
    ("Gender", Gender);
    ("Importance", Importance);
    ("Intelligence", Intelligence);
    ("MacintoshEncoding", MacintoshEncoding);
    ("MessageFormat", MessageFormat);
    ("NamedPropertyType", NamedPropertyType);
    ("OORBodyFormat", OORBodyFormat);
    ("PostalAddressID", PostalAddressID);
    ("Priority", Priority);
    ("PropertiesType", PropertiesType);
    ("RecipientRowFlagType", RecipientRowFlagType);
    ("RecipientType", RecipientType);
    ("RuleActionType", RuleActionType);
    ("Sensitivity", Sensitivity);
    ("TaskAcceptance", TaskAcceptance);
    ("TaskHistory", TaskHistory);
    ("TaskMode", TaskMode);
    ("TaskOwnership", TaskOwnership);
    ("TaskStatus", TaskStatus) ].

(** The names bound at module level in enums.py: the two imports and the
    classes. *)
Definition globals : namespace :=
  [ ("enum", OtherObject); ("Set", OtherObject);
    ("AddressBookType", EnumClass AddressBookType);
    ("AttachErrorBehavior", EnumClass AttachErrorBehavior);
    ("AttachmentType", EnumClass AttachmentType);
    ("BCImageAlignment", EnumClass BCImageAlignment);
    ("BCImageSource", EnumClass BCImageSource);
    ("BCLabelFormat", EnumClass BCLabelFormat);
    ("BCTemplateID", EnumClass BCTemplateID);
    ("BCTextFormat", EnumClass BCTextFormat);
    ("ContactAddressIndex", EnumClass ContactAddressIndex);
    ("DeencapType", EnumClass DeencapType);
    ("DisplayType", EnumClass DisplayType);
    ("ElectronicAddressProperties", EnumClass ElectronicAddressProperties);
    ("EntryIDType", OtherObject);
    ("EntryIDTypeHex", OtherObject);
    ("Gender", EnumClass Gender);
    ("Guid", OtherObject);
    ("Importance", EnumClass Importance);
    ("Intelligence", EnumClass Intelligence);
    ("MacintoshEncoding", EnumClass MacintoshEncoding);
    ("MessageFormat", EnumClass MessageFormat);
    ("NamedPropertyType", EnumClass NamedPropertyType);
    ("OORBodyFormat", EnumClass OORBodyFormat);
    ("PostalAddressID", EnumClass PostalAddressID);
    ("Priority", EnumClass Priority);
    ("PropertiesType", EnumClass PropertiesType);
    ("RecipientRowFlagType", EnumClass RecipientRowFlagType);
    ("RecipientType", EnumClass RecipientType);
    ("RuleActionType", EnumClass RuleActionType);
    ("Sensitivity", EnumClass Sensitivity);
    ("TaskAcceptance", EnumClass TaskAcceptance);
    ("TaskHistory", EnumClass TaskHistory);
    ("TaskMode", EnumClass TaskMode);
    ("TaskOwnership", EnumClass TaskOwnership);
    ("TaskStatus", EnumClass TaskStatus) ].

(** The digits of [bin(p)], most significant first. *)
Fixpoint bin_digits (p : positive) : list ascii :=
  match p with
  | xH => ["1"%char]
  | xO q => bin_digits q ++ ["0"%char]
  | xI q => bin_digits q ++ ["1"%char]
  end.

(** [bin(n)] *)
Definition bin (n : Z) : string :=
  match n with
  | Z0 => "0b0"
  | Zpos p => String "0" (String "b" (string_of_list_ascii (bin_digits p)))
  | Zneg p => String "-" (String "0" (String "b" (string_of_list_ascii (bin_digits p))))
  end.

(** [s[:1:-1]]: the characters from the last one down to index 2. *)
Definition slice_down_to_2 (s : string) : list ascii :=
  rev (skipn 2 (list_ascii_of_string s)).

Definition enumerate {A} (l : list A) : list (nat * A) :=
  combine (seq 0 (List.length l)) l.

(** [int(o)] for an object bound at module level: none of them is a number
    or a string. *)
Definition int_of_object (o : pyobject) : result Z := Raise TypeError.

(** The generator [cls(int(x)) for index, val in ... if val == '1'] as
    [tuple] consumes it: the items in order, up to the first exception.
    [x] is bound neither by the generator nor by [fromBits], so it is read
    as a global. *)
Fixpoint fromBits_generator (cls : PyEnum.defs Z) (items : list (nat * ascii))
  : result (list (PyEnum.member Z)) :=
  match items with
  | [] => Ok []
  | (index, val) :: rest =>
      if Ascii.eqb val "1" then
        match load_global globals "x" with
        | Raise e => Raise e
        | Ok x =>
            match int_of_object x with
            | Raise e => Raise e
            | Ok i =>
                match PyEnum.call Z.eqb cls i with
                | Raise e => Raise e
                | Ok m =>
                    match fromBits_generator cls rest with
                    | Raise e => Raise e
                    | Ok ms => Ok (m :: ms)
                    end
                end
            end
        end
      else fromBits_generator cls rest
  end.

(** [ElectronicAddressProperties.fromBits] *)
Definition fromBits (value : Z) : result (list (PyEnum.member Z)) :=
  if value <? 0 then Raise ValueError
  else fromBits_generator ElectronicAddressProperties
         (enumerate (slice_down_to_2 (bin value))).

End enums_tables.

(** Decide that a line [NAME = v] of a class body makes a member of its
    own: [cls(v)] and [cls[NAME]] are both the member [NAME] of value [v]. *)
Definition line_ok {V} (V_eqb : V -> V -> bool) (cls : PyEnum.defs V) (d : string * V) : bool :=
  match PyEnum.by_value V_eqb cls (snd d), PyEnum.by_name V_eqb cls (fst d) with
  | Some k, Some k' =>
      String.eqb (PyEnum.name k) (fst d) && String.eqb (PyEnum.name k') (fst d) &&
      V_eqb (PyEnum.value k) (snd d) && V_eqb (PyEnum.value k') (snd d)
  | _, _ => false
  end.

(** ** Reading a property whichever class it has *)

Module prop_views.
Import prop.

(** The [PropBase] part of what [createProp] returned: both classes inherit
    [raw], [name], [type], [flags] and the three flag properties. *)
Definition base {dt} (p : Prop_ dt) : PropBase :=
  match p with
  | IsFixedLengthProp f => fixed_base f
  | IsVariableLengthProp v => variable_base v
  end.

(** [isinstance(p, FixedLengthProp)] *)
Definition is_fixed {dt} (p : Prop_ dt) : bool :=
  match p with
  | IsFixedLengthProp _ => true
  | IsVariableLengthProp _ => false
  end.

End prop_views.

(** More entries for the instance of the imported modules. *)
Module oxmsg_entries.
Import oxmsg.

Definition null_entry : bytes :=           (* type 0x0001, value bytes not zero *)
  entry x01 x00 [x00; x00; x00; x00; x01; x00; x00; x00].
Definition binary_entry : bytes :=         (* type 0x0102, length 5 *)
  entry x02 x01 [x05; x00; x00; x00; x00; x00; x00; x00].
Definition object_entry : bytes :=         (* type 0x000D, length 12 *)
  entry x0d x00 [x0c; x00; x00; x00; x00; x00; x00; x00].
Definition long_array_entry : bytes :=     (* type 0x1003, length 10 *)
  entry x03 x10 [x0a; x00; x00; x00; x00; x00; x00; x00].
Definition unspecified_entry : bytes :=    (* type 0x0000 *)
  entry x00 x00 [x11; x22; x33; x44; x55; x66; x77; x88].
Definition errorcode_known_entry : bytes := (* type 0x000A, value 0x80004005 *)
  entry x0a x00 [x05; x40; x00; x80; x00; x00; x00; x00].
Definition floatingtime_entry : bytes :=   (* type 0x0007, 1.5 days *)
  entry x07 x00 [x00; x00; x00; x00; x00; x00; xf8; x3f].
Definition floatingtime_huge_entry : bytes := (* type 0x0007, 1e300 days *)
  entry x07 x00 [x9c; x75; x00; x88; x3c; xe4; x37; x7e].
Definition time_epoch_entry : bytes :=     (* type 0x0040, 116444736000000000 *)
  entry x40 x00 [x00; x80; x3e; xd5; xde; xb1; x9d; x01].

End oxmsg_entries.

(** What a step adds to the log: nothing, or a few lines at its end. *)
Definition grows_by (n : nat) (l l' : log) : Prop :=
  exists added, l' = l ++ added /\ (List.length added <= n)%nat.


(** ** docs/_gen.py

    A [dict] with [str] keys is the list of its items in insertion order.
    A path that [root.glob] yields is given by what the script reads of it:
    its [name], and the names of its parents from [x.parent] up to, and
    without, [root] (the list the [while] loop collects). *)

Module docs_gen.

Definition rbind {A B} (r : result A) (k : A -> result B) : result B :=
  match r with
  | Ok a => k a
  | Raise e => Raise e
  end.

Section dict.
Context {V : Type}.

Definition dict : Type := list (string * V).

(** [d.get(k)] *)
Fixpoint get (d : dict) (k : string) : option V :=
  match d with
  | [] => None
  | (k', v) :: d' => if String.eqb k' k then Some v else get d' k
  end.

(** [k in d] *)
Definition has_key (d : dict) (k : string) : bool :=
  match get d k with
  | Some _ => true
  | None => false
  end.

(** [d[k]] *)
Definition getitem (d : dict) (k : string) : result V :=
  match get d k with
  | Some v => Ok v
  | None => Raise KeyError
  end.

(** [d[k] = v]: the value is replaced where the key is, a new key goes to
    the end. *)
Fixpoint set (d : dict) (k : string) (v : V) : dict :=
  match d with
  | [] => [(k, v)]
  | (k', v') :: d' => if String.eqb k' k then (k, v) :: d' else (k', v') :: set d' k v
  end.

Definition keys (d : dict) : list string := map fst d.

End dict.

Arguments dict V : clear implicits.

(** [sep.join(l)] *)
Definition join (sep : string) (l : list string) : string := String.concat sep l.

(** [s.startswith(p)] *)
Definition startswith (s p : string) : bool := String.prefix p s.

Record Package : Type := {
  modules : list string;
  packages : list string
}.

Record Path : Type := {
  name : string;
  (** [x.parent.name], [x.parent.parent.name], ... below [root] *)
  parent_names : list string
}.

(** [[f'{name}.{x}' for x in data if data[x]]] when [want] is [true],
    [... if not data[x]] when it is [false], over the keys [ks]. *)
Fixpoint select (name : string) (data : dict bool) (ks : list string) (want : bool)
  : result (list string) :=
  match ks with
  | [] => Ok []
  | x :: ks' =>
      rbind (getitem data x) (fun b =>
      rbind (select name data ks' want) (fun rest =>
      Ok (if Bool.eqb b want then (name ++ "." ++ x)%string :: rest else rest)))
  end.

Definition _makePackage (name : string) (data : dict bool) : result Package :=
  rbind (select name data (keys data) false) (fun ms =>
  rbind (select name data (keys data) true) (fun ps =>
  Ok {| modules := ms; packages := ps |})).

(** [if path not in ret: ret[path] = {}] *)
Definition ensure (ret : dict (dict bool)) (path : string) : dict (dict bool) :=
  if has_key ret path then ret else set ret path [].

(** The body of [for index, name in enumerate(parents[1:])], from [index]
    on; [ret[path][name] = True] changes the dict that [ret] holds at
    [path]. *)
Fixpoint register (ret : dict (dict bool)) (parents : list string)
    (index : nat) (names : list string) : result (dict (dict bool)) :=
  match names with
  | [] => Ok ret
  | name :: names' =>
      let path := join "." (firstn (index + 1) parents) in
      let ret := ensure ret path in
      rbind (getitem ret path) (fun d =>
      let ret := if has_key d name then ret else set ret path (set d name true) in
      register ret parents (S index) names')
  end.

(** One turn of the loop of [_readProject] over the paths of the glob. *)
Definition visit (rootName : string) (ret : dict (dict bool)) (x : Path)
  : result (dict (dict bool)) :=
  if startswith (name x) "_" then Ok ret
  else
    let parents := parent_names x in
    if existsb (fun y => startswith y "_") parents then Ok ret
    else
      let parents := parents ++ [rootName] in
      let parents := rev parents in
      rbind (register ret parents 0 (tl parents)) (fun ret =>
      let path := join "." parents in
      let ret := ensure ret path in
      rbind (getitem ret path) (fun d =>
      Ok (set ret path (set d (name x) false)))).

Fixpoint visit_all (rootName : string) (ret : dict (dict bool)) (glob : list Path)
  : result (dict (dict bool)) :=
  match glob with
  | [] => Ok ret
  | x :: glob' => rbind (visit rootName ret x) (fun ret => visit_all rootName ret glob')
  end.

(** [_readProject(root)], for a root named [rootName] under which the glob
    finds the paths [glob]. *)
Definition _readProject (rootName : string) (glob : list Path) : result (dict (dict bool)) :=
  let ret := [(rootName, [])] in
  visit_all rootName ret glob.

(** [{x: _makePackage(x, y) for x, y in items}], added to [acc]. *)
Fixpoint packages_of (acc : dict Package) (items : list (string * dict bool))
  : result (dict Package) :=
  match items with
  | [] => Ok acc
  | (x, y) :: items' =>
      rbind (_makePackage x y) (fun p => packages_of (set acc x p) items')
  end.

Definition readProject (rootName : string) (glob : list Path) : result (dict Package) :=
  rbind (_readProject rootName glob) (fun initialRead =>
  packages_of [] initialRead).

(** The module path a file is filed under: the names from the root down,
    joined by dots. *)
Definition package_path (rootName : string) (x : Path) : string :=
  join "." (rev (parent_names x ++ [rootName])).

(** The paths the loop does not skip. *)
Definition visited (x : Path) : bool :=
  negb (startswith (name x) "_") &&
  negb (existsb (fun y => startswith y "_") (parent_names x)).

End docs_gen.

(** What the properties of [_readProject] speak of. *)
Module docs_gen_spec.
Import docs_gen.

(** [ret[p][n]] is there and is [False]: [n] is filed as a module of [p]. *)
Definition recorded (ret : dict (dict bool)) (p n : string) : Prop :=
  exists d, get ret p = Some d /\ get d n = Some false.

(** Every path of [done] that the loop does not skip is filed. *)
Definition complete (rootName : string) (done : list Path) (ret : dict (dict bool)) : Prop :=
  forall x, In x done -> visited x = true ->
            recorded ret (package_path rootName x) (name x).

(** Every entry of [ret] comes from a path of [done] that the loop does not
    skip: a [False] entry is the name of such a file, under the path of its
    package, and a [True] entry is the name of one of its parents. *)
Definition sound (rootName : string) (done : list Path) (ret : dict (dict bool)) : Prop :=
  forall p d n (b : bool), In (p, d) ret -> In (n, b) d ->
    exists x, In x done /\ visited x = true /\
              if b then In n (parent_names x)
              else n = name x /\ p = package_path rootName x.

(** The items of a dict of unique keys, as [d.items()] gives them. *)
Definition well_keyed {V} (d : dict V) : Prop := NoDup (keys d).

(** [f'{name}.{x}'] for the key of an item. *)
Definition dotted (name : string) (kv : string * bool) : string :=
  (name ++ "." ++ fst kv)%string.

End docs_gen_spec.

(** A small project tree for the generator: two modules at the root, a
    private module, a subpackage with a module, and a private directory. *)
Module docs_gen_examples.
Import docs_gen.

Definition sample_glob : list Path :=
  [ {| name := "enums.py"; parent_names := [] |};
    {| name := "prop.py"; parent_names := [] |};
    {| name := "_version.py"; parent_names := [] |};
    {| name := "meeting_forward.py"; parent_names := ["msg_classes"] |};
    {| name := "helper.py"; parent_names := ["_private"; "msg_classes"] |} ].

Definition sample_data : dict bool :=
  [ ("enums.py", false); ("prop.py", false); ("msg_classes", true) ].

End docs_gen_examples.

(** ** docs/_gen.py: the files it reads and writes

    The directory of the script is a dict from file name to text.  Text is
    modelled with one character per [ascii] (the characters above 127 stand
    for the code points of the same number), files are opened in text mode
    with the default newline handling of a POSIX system, and the names given
    to [open] and [os.remove] are plain file names of that directory. *)

Module docs_gen_io.
Import docs_gen.

Definition LF : ascii := "010"%char.
Definition CR : ascii := "013"%char.

(** The text ["\n"]. *)
Definition nl : string := String LF EmptyString.

(** [s.replace('_', '\\_')] *)
Fixpoint escape_underscores (s : string) : string :=
  match s with
  | EmptyString => EmptyString
  | String c s' =>
      if Ascii.eqb c "_" then String "\" (String "_" (escape_underscores s'))
      else String c (escape_underscores s')
  end.

(** [c * n] *)
Fixpoint times (c : ascii) (n : nat) : string :=
  match n with
  | O => EmptyString
  | S n' => String c (times c n')
  end.

(** [s.endswith(suffix)] *)
Definition endswith (s suffix : string) : bool :=
  let ls := String.length s in
  let lx := String.length suffix in
  (lx <=? ls)%nat && String.eqb (substring (ls - lx) lx s) suffix.

(** [s[:-3]] *)
Definition drop_last3 (s : string) : string :=
  substring 0 (String.length s - 3) s.

(** The [f.write] calls of the loop body of [generateFile] for one module. *)
Definition module_writes (module : string) : list string :=
  let module := if endswith module ".py" then drop_last3 module else module in
  let temp := (escape_underscores module ++ " module")%string in
  [ (temp ++ nl ++ times "-" (String.length temp) ++ nl ++ nl)%string;
    (".. automodule:: " ++ module ++ nl)%string;
    ("   :members:" ++ nl)%string;
    ("   :undoc-members:" ++ nl)%string;
    ("   :show-inheritance:" ++ nl ++ nl)%string ].

(** All the [f.write] calls of [generateFile], in order. *)
Definition generateFile_writes (name : string) (package : Package) : list string :=
  let temp := (escape_underscores name ++ " package")%string in
  [ (temp ++ nl ++ times "=" (String.length temp) ++ nl ++ nl)%string ]
  ++ (match packages package with
      | [] => []
      | _ =>
          [ ("Subpackages" ++ nl ++ "-----------" ++ nl ++ nl)%string;
            (".. toctree::" ++ nl)%string;
            ("   :maxdepth: 4" ++ nl ++ nl)%string;
            ("   " ++ join (nl ++ "   ") (packages package))%string;
            (nl ++ nl)%string ]
      end)
  ++ (match modules package with
      | [] => []
      | _ =>
          [ ("Submodules" ++ nl ++ "----------" ++ nl ++ nl)%string ]
          ++ flat_map module_writes (modules package)
      end)
  ++ [ ("Module contents" ++ nl ++ "---------------" ++ nl ++ nl)%string;
       (".. automodule:: " ++ name ++ nl)%string;
       ("   :members:" ++ nl)%string;
       ("   :undoc-members:" ++ nl)%string;
       ("   :show-inheritance:" ++ nl)%string ].

Definition files : Type := dict string.

(** [generateFile]: the file [name + '.rst'] is created or overwritten with
    what is written. *)
Definition generateFile (fs : files) (name : string) (package : Package) : files :=
  set fs (name ++ ".rst")%string (String.concat "" (generateFile_writes name package)).

(** The lines a text file yields when iterated: a line ends after ["\n"],
    and ["\r"] and ["\r\n"] are read as ["\n"]; [cur] is the line being
    read, last character first. *)
Fixpoint file_lines (cur : list ascii) (s : list ascii) {struct s} : list (list ascii) :=
  match s with
  | [] =>
      match cur with
      | [] => []
      | _ => [rev cur]
      end
  | c :: s' =>
      if Ascii.eqb c LF then rev (LF :: cur) :: file_lines [] s'
      else if Ascii.eqb c CR then
        match s' with
        | c' :: s'' =>
            if Ascii.eqb c' LF then rev (LF :: cur) :: file_lines [] s''
            else rev (LF :: cur) :: file_lines [] s'
        | [] => [rev (LF :: cur)]
        end
      else file_lines (c :: cur) s'
  end.

(** [c.isspace()] for a character below 256. *)
Definition is_space (c : ascii) : bool :=
  let n := nat_of_ascii c in
  ((9 <=? n) && (n <=? 13) || (28 <=? n) && (n <=? 32) || (n =? 133) || (n =? 160))%nat.

Fixpoint lstrip (s : list ascii) : list ascii :=
  match s with
  | [] => []
  | c :: s' => if is_space c then lstrip s' else s
  end.

Definition rstrip (s : list ascii) : list ascii := rev (lstrip (rev s)).

(** [s.strip()] *)
Definition strip (s : string) : string :=
  string_of_list_ascii (lstrip (rstrip (list_ascii_of_string s))).

Definition autogen : string := "_autogen.txt".

(** [getAutoGenerated]: [[x.strip() for x in f if x]]; a missing file makes
    [open] raise. *)
Definition getAutoGenerated (fs : files) : result (list string) :=
  match get fs autogen with
  | None => Raise OSError
  | Some text =>
      Ok (map (fun x => strip (string_of_list_ascii x))
              (filter (fun x => negb (Nat.eqb (List.length x) 0))
                      (file_lines [] (list_ascii_of_string text))))
  end.

(** [writeAutoGenerated] *)
Definition writeAutoGenerated (fs : files) (names : list string) : files :=
  set fs autogen (join nl names).

(** [del d[k]] *)
Fixpoint delete {V} (d : dict V) (k : string) : dict V :=
  match d with
  | [] => []
  | (k', v) :: d' => if String.eqb k' k then d' else (k', v) :: delete d' k
  end.

(** [os.remove] of a file of the directory: a missing file raises. *)
Definition os_remove (fs : files) (x : string) : result files :=
  if has_key fs x then Ok (delete fs x) else Raise OSError.

Fixpoint remove_all (fs : files) (names : list string) : result files :=
  match names with
  | [] => Ok fs
  | x :: names' => rbind (os_remove fs x) (fun fs => remove_all fs names')
  end.

(** [for x, y in project.items(): generateFile(x, y)] *)
Fixpoint generate_all (fs : files) (items : list (string * Package)) : files :=
  match items with
  | [] => fs
  | (x, y) :: items' => generate_all (generateFile fs x y) items'
  end.

(** [run], in a directory [fs], when the glob of the package directory
    [extract_msg] finds [glob]. *)
Definition run (fs : files) (glob : list Path) : result files :=
  rbind (getAutoGenerated fs) (fun old =>
  rbind (remove_all fs old) (fun fs =>
  rbind (readProject "extract_msg" glob) (fun project =>
  let fs := generate_all fs project in
  Ok (writeAutoGenerated fs (map (fun x => (x ++ ".rst")%string) (keys project)))))).

End docs_gen_io.

(** What the properties of the files speak of. *)
Module docs_gen_io_spec.
Import docs_gen docs_gen_io.

(** No character of [s] ends a line. *)
Definition no_newline (s : string) : Prop :=
  Forall (fun c => Ascii.eqb c LF = false /\ Ascii.eqb c CR = false)
         (list_ascii_of_string s).

(** A name that survives a line of its own in a text file: not empty, no
    line end inside, no white space at either end. *)
Definition plain_name (s : string) : Prop :=
  s <> "" /\ no_newline s /\ strip s = s.

(** [part] occurs in [text]. *)
Definition occurs_in (part text : string) : Prop :=
  exists before after, text = (before ++ part ++ after)%string.

(** The module name a directive is written for: without its [.py]. *)
Definition stem (module : string) : string :=
  if endswith module ".py" then drop_last3 module else module.

(** The state in which the removals of [run] succeed: [_autogen.txt] can be
    read, lists no file twice, and every file it lists is there. *)
Definition runnable (fs : files) : Prop :=
  exists old,
    getAutoGenerated fs = Ok old /\ NoDup old /\
    Forall (fun x => has_key fs x = true) old.

(** A key of the dict [_readProject] returns: the root name followed by
    names of parents of paths of [done] that are not skipped. *)
Definition key_shape (rootName : string) (done : list Path) (p : string) : Prop :=
  exists ds,
    p = join "." (rootName :: ds) /\
    forall n, In n ds -> exists x, In x done /\ visited x = true /\ In n (parent_names x).

End docs_gen_io_spec.

(** A directory of the script after an earlier run that wrote one page. *)
Module docs_gen_io_examples.
Import docs_gen docs_gen_io.

Definition sample_fs : files :=
  [ (autogen, "old_page.rst"); ("old_page.rst", "old text"); ("index.rst", "kept") ].

Definition sample_package : Package :=
  {| modules := ["extract_msg.enums.py"; "extract_msg.prop.py"];
     packages := ["extract_msg.msg_classes"] |}.

End docs_gen_io_examples.

(** * Properties *)

(** ** Helper facts *)

Lemma bytes_eqb_eq (a b : bytes) : bytes_eqb a b = true <-> a = b.
Proof.
  revert b; induction a as [|x a IH]; intros [|y b]; simpl;
    try (split; [discriminate | discriminate]); try tauto.
  rewrite andb_true_iff, IH. unfold byte_eqb.
  split.
  - intros [Hxy ->]. apply Byte.byte_dec_bl in Hxy. now subst.
  - intros [= -> ->]. split; [apply Byte.byte_dec_lb|]; reflexivity.
Qed.

Lemma contains_In (t : list Z) (x : Z) : contains t x = true <-> In x t.
Proof.
  unfold contains. rewrite existsb_exists. split.
  - intros (y & Hy & Heq). apply Z.eqb_eq in Heq. now subst.
  - intros H. exists x. split; [assumption | apply Z.eqb_refl].
Qed.

Lemma contains_not_In (t : list Z) (x : Z) : contains t x = false <-> ~ In x t.
Proof.
  rewrite <- contains_In. destruct (contains t x); split; intros H; try reflexivity;
    try discriminate; try (intros H'; discriminate). now contradiction H.
Qed.

(** ** Entry-ID kinds *)

Module enums_facts.
Import enums.

(** C5 (bytes and hex kinds round-trip).  For every line [NAME = b] of
    [EntryIDType], [EntryIDType(b)] is a member [k], [k.toHex()] is a member
    of [EntryIDTypeHex] whose value is the hex text of [b], and its
    [toRaw()] is [k] again; for every line [NAME = h] of [EntryIDTypeHex]
    the same holds from the hex side; and the two names with the same
    signature, [ADDRESS_BOOK_RECIPIENT] and [PERMANENT], both resolve, in
    both classes, to a member (the same one). *)
Theorem EntryID_roundtrip :
  Forall (fun d : string * bytes =>
            exists k h,
              EntryIDType_call (snd d) = Ok k /\
              PyEnum.value k = snd d /\
              toHex k = Ok h /\
              PyEnum.value h = hexEncode (snd d) /\
              toRaw h = Ok k) EntryIDType
  /\
  Forall (fun d : string * string =>
            exists h k,
              EntryIDTypeHex_call (snd d) = Ok h /\
              PyEnum.value h = snd d /\
              toRaw h = Ok k /\
              hexEncode (PyEnum.value k) = snd d /\
              toHex k = Ok h) EntryIDTypeHex
  /\
  (exists k h,
      EntryIDType_getitem "ADDRESS_BOOK_RECIPIENT" = Ok k /\
      EntryIDType_getitem "PERMANENT" = Ok k /\
      EntryIDTypeHex_getitem "ADDRESS_BOOK_RECIPIENT" = Ok h /\
      EntryIDTypeHex_getitem "PERMANENT" = Ok h /\
      toHex k = Ok h /\ toRaw h = Ok k).
Proof.
  split; [|split].
  - unfold EntryIDType.
    repeat (apply Forall_cons;
            [eexists; eexists; repeat split; vm_compute; reflexivity|]).
    apply Forall_nil.
  - unfold EntryIDTypeHex.
    repeat (apply Forall_cons;
            [eexists; eexists; repeat split; vm_compute; reflexivity|]).
    apply Forall_nil.
  - eexists; eexists; repeat split; vm_compute; reflexivity.
Qed.

End enums_facts.

(** ** Property records *)

Module prop_facts.
Import prop.

Section prop_facts.
Variable dt : datetime_module.
Variable constants : constants_module dt.
Variable utils : utils_module dt.
Variable olefile : olefile_module dt.
Variable enum : enum_module.

Local Abbreviation PropBase_init := (PropBase_init dt constants utils).
Local Abbreviation PropBase_of := (PropBase_of dt utils).
Local Abbreviation parseType := (parseType dt constants utils olefile enum).
Local Abbreviation FixedLengthProp_init := (FixedLengthProp_init dt constants utils olefile enum).
Local Abbreviation VariableLengthProp_init := (VariableLengthProp_init dt constants utils).
Local Abbreviation createProp := (createProp dt constants utils olefile enum).

(** Decide the comparisons of a literal type code with the codes of the
    [if]/[elif] chain, and take the branch. *)
Ltac dispatch :=
  repeat match goal with
         | |- context [Z.eqb (Zpos ?a) ?b] =>
             let v := eval vm_compute in (Z.eqb (Zpos a) b) in
             change (Z.eqb (Zpos a) b) with v
         end;
  cbv beta iota zeta.

Lemma PropBase_init_ok (string : bytes) (ty fl : Z) (l : log) :
  unpack (ST2 constants) string = Ok (ty, fl) ->
  PropBase_init string l = (Ok (PropBase_of string ty fl), l).
Proof.
  intros H. unfold prop.PropBase_init, bind, lift, ret. now rewrite H.
Qed.

(** The constructor of a variable-length record never logs, and fails
    only where one of the two [unpack] calls does. *)
Lemma VariableLengthProp_init_ok (string : bytes) (ty fl len : Z) (res : bytes) (l : log) :
  unpack (ST2 constants) string = Ok (ty, fl) ->
  unpack (STVAR constants) string = Ok (len, res) ->
  exists p,
    VariableLengthProp_init string l = (Ok p, l) /\
    variable_base p = PropBase_of string ty fl /\
    length p = len /\ reservedFlags p = res /\
    realLength p =
      (if ty =? 0x001E then Some (len - 1)
       else if ty =? 0x001F then Some (len - 2)
       else if contains (MULTIPLE_2_BYTES_HEX constants) ty then Some (len / 2)
       else if contains (MULTIPLE_4_BYTES_HEX constants) ty then Some (len / 4)
       else if contains (MULTIPLE_8_BYTES_HEX constants) ty then Some (len / 8)
       else if contains (MULTIPLE_16_BYTES_HEX constants) ty then Some (len / 16)
       else if ty =? 0x000D then None
       else Some len).
Proof.
  intros H2 HV. unfold prop.VariableLengthProp_init, bind.
  rewrite (PropBase_init_ok _ _ _ _ H2). unfold lift. rewrite HV.
  unfold ret. eexists. split; [reflexivity|]. simpl. repeat split.
Qed.

(** C1 (realLength rule).  For an entry whose header unpacks to the type
    [ty] and whose variable part unpacks to the length [len], the
    constructor returns a record (without logging) whose [realLength] is
    [len - 1] for type 0x001E, [len - 2] for type 0x001F, [len] floor-divided
    by 2, 4, 8 or 16 for a type of the 2-, 4-, 8- or 16-byte array tuple
    (the first tuple that lists the type, in that order, the two string
    types first), [None] for type 0x000D outside those tuples, and [len]
    for every other type.  So length 10 gives 9 for 0x001E and 8 for 0x001F,
    and length 32 gives 2 for a 16-byte array type. *)
Theorem realLength_rule (string : bytes) (ty fl len : Z) (res : bytes) (l : log) :
  unpack (ST2 constants) string = Ok (ty, fl) ->
  unpack (STVAR constants) string = Ok (len, res) ->
  exists p,
    VariableLengthProp_init string l = (Ok p, l) /\
    type (variable_base p) = ty /\ length p = len /\
    let strings := [0x001E; 0x001F] in
    let M2 := MULTIPLE_2_BYTES_HEX constants in
    let M4 := MULTIPLE_4_BYTES_HEX constants in
    let M8 := MULTIPLE_8_BYTES_HEX constants in
    let M16 := MULTIPLE_16_BYTES_HEX constants in
    (ty = 0x001E -> realLength p = Some (len - 1)) /\
    (ty = 0x001F -> realLength p = Some (len - 2)) /\
    (In ty M2 -> ~ In ty strings -> realLength p = Some (len / 2)) /\
    (In ty M4 -> ~ In ty (strings ++ M2) -> realLength p = Some (len / 4)) /\
    (In ty M8 -> ~ In ty (strings ++ M2 ++ M4) -> realLength p = Some (len / 8)) /\
    (In ty M16 -> ~ In ty (strings ++ M2 ++ M4 ++ M8) ->
     realLength p = Some (len / 16)) /\
    (ty = 0x000D -> ~ In ty (M2 ++ M4 ++ M8 ++ M16) -> realLength p = None) /\
    (~ In ty (strings ++ M2 ++ M4 ++ M8 ++ M16 ++ [0x000D]) ->
     realLength p = Some len) /\
    (ty = 0x001E -> len = 10 -> realLength p = Some 9) /\
    (ty = 0x001F -> len = 10 -> realLength p = Some 8) /\
    (In ty M16 -> ~ In ty (strings ++ M2 ++ M4 ++ M8) -> len = 32 ->
     realLength p = Some 2).
Proof.
  intros H2 HV.
  destruct (VariableLengthProp_init_ok string ty fl len res l H2 HV)
    as (p & Hrun & Hbase & Hlen & _ & Hreal).
  exists p. split; [exact Hrun|]. split; [now rewrite Hbase|]. split; [exact Hlen|].
  cbv zeta. rewrite Hreal. clear Hrun Hbase Hlen Hreal H2 HV.
  repeat rewrite in_app_iff.
  destruct (contains (MULTIPLE_2_BYTES_HEX constants) ty) eqn:E2;
    [apply contains_In in E2 | apply contains_not_In in E2];
  (destruct (contains (MULTIPLE_4_BYTES_HEX constants) ty) eqn:E4;
    [apply contains_In in E4 | apply contains_not_In in E4]);
  (destruct (contains (MULTIPLE_8_BYTES_HEX constants) ty) eqn:E8;
    [apply contains_In in E8 | apply contains_not_In in E8]);
  (destruct (contains (MULTIPLE_16_BYTES_HEX constants) ty) eqn:E16;
    [apply contains_In in E16 | apply contains_not_In in E16]);
  (destruct (Z.eqb_spec ty 0x001E) as [e1|n1];
   [| destruct (Z.eqb_spec ty 0x001F) as [e2|n2];
      [| destruct (Z.eqb_spec ty 0x000D) as [e3|n3]]]);
  simpl In;
  repeat split; intros; subst; try reflexivity; try tauto; try lia;
    try (exfalso; tauto); try (exfalso; lia).
Qed.

(** C10 (no clamping of short strings).  The subtraction of the trailing
    NUL is applied whatever the length: an entry of type 0x001E with a
    length below 1, or of type 0x001F with a length below 2, is built
    without error and without a log line, and its [realLength] is the
    negative number [len - 1] or [len - 2]; length 0 gives -1 for 0x001E,
    and lengths 0 and 1 give -2 and -1 for 0x001F. *)
Theorem realLength_negative (string : bytes) (ty fl len : Z) (res : bytes) (l : log) :
  unpack (ST2 constants) string = Ok (ty, fl) ->
  unpack (STVAR constants) string = Ok (len, res) ->
  exists p,
    VariableLengthProp_init string l = (Ok p, l) /\
    length p = len /\
    (ty = 0x001E -> len < 1 ->
     exists r, realLength p = Some r /\ r = len - 1 /\ r < 0) /\
    (ty = 0x001F -> len < 2 ->
     exists r, realLength p = Some r /\ r = len - 2 /\ r < 0) /\
    (ty = 0x001E -> len = 0 -> realLength p = Some (-1)) /\
    (ty = 0x001F -> len = 0 -> realLength p = Some (-2)) /\
    (ty = 0x001F -> len = 1 -> realLength p = Some (-1)).
Proof.
  intros H2 HV.
  destruct (VariableLengthProp_init_ok string ty fl len res l H2 HV)
    as (p & Hrun & _ & Hlen & _ & Hreal).
  exists p. split; [exact Hrun|]. split; [exact Hlen|].
  rewrite Hreal.
  split; [|split; [|split; [|split]]].
  - intros -> Hl. simpl. eexists. split; [reflexivity | split; [reflexivity | lia]].
  - intros -> Hl. simpl. eexists. split; [reflexivity | split; [reflexivity | lia]].
  - intros -> ->. reflexivity.
  - intros -> ->. reflexivity.
  - intros -> ->. reflexivity.
Qed.

(** The constructor of a fixed-length record: the base object, then
    [parseType] on the eight value bytes. *)
Lemma FixedLengthProp_init_eq (string stream : bytes) (ty fl : Z) (l : log) :
  unpack (ST2 constants) string = Ok (ty, fl) ->
  unpack (STFIX constants) string = Ok stream ->
  FixedLengthProp_init string l =
    match parseType (PropBase_of string ty fl) ty stream l with
    | (Ok v, l') => (Ok {| fixed_base := PropBase_of string ty fl; value := v |}, l')
    | (Raise e, l') => (Raise e, l')
    end.
Proof.
  intros H2 HF. unfold prop.FixedLengthProp_init, bind.
  rewrite (PropBase_init_ok _ _ _ _ H2). unfold lift. rewrite HF. simpl.
  destruct (parseType _ ty stream l) as [[v|e] l']; reflexivity.
Qed.

(** C8 (Guid is returned raw).  A fixed-length record of type 0x0048 is
    built without error and without a log line, and its value is the eight
    bytes [STFIX] unpacks, unchanged. *)
Theorem Guid_returned_raw (string stream : bytes) (fl : Z) (l : log) :
  unpack (ST2 constants) string = Ok (0x0048, fl) ->
  unpack (STFIX constants) string = Ok stream ->
  exists p,
    FixedLengthProp_init string l = (Ok p, l) /\
    type (fixed_base p) = 0x0048 /\
    value p = PyBytes stream.
Proof.
  intros H2 HF. rewrite (FixedLengthProp_init_eq _ _ _ _ _ H2 HF).
  eexists. split; [reflexivity|]. split; reflexivity.
Qed.

(** C4 (unknown type codes fall back to the variable-length record).  For
    an entry whose type is in neither [FIXED_LENGTH_PROPS] nor
    [VARIABLE_LENGTH_PROPS], [createProp] raises nothing: it logs one
    warning, [Unknown property type: ] followed by [properHex] of the type,
    and returns the [VariableLengthProp] built from the entry. *)
Theorem createProp_unknown_type (string : bytes) (ty fl len : Z) (res : bytes) (l : log) :
  unpack (ST2 constants) string = Ok (ty, fl) ->
  unpack (STVAR constants) string = Ok (len, res) ->
  ~ In ty (FIXED_LENGTH_PROPS constants) ->
  ~ In ty (VARIABLE_LENGTH_PROPS constants) ->
  exists p,
    createProp string l =
      (Ok (IsVariableLengthProp p),
       l ++ [warning [Lit "Unknown property type: ";
                      FStr (properHex utils (HexInt ty))]]) /\
    VariableLengthProp_init string l = (Ok p, l) /\
    type (variable_base p) = ty /\ length p = len.
Proof.
  intros H2 HV HnF HnV.
  apply contains_not_In in HnF. apply contains_not_In in HnV.
  destruct (VariableLengthProp_init_ok string ty fl len res
              (l ++ [warning [Lit "Unknown property type: ";
                              FStr (properHex utils (HexInt ty))]]) H2 HV)
    as (p & Hrun & Hbase & Hlen & Hres & Hreal).
  destruct (VariableLengthProp_init_ok string ty fl len res l H2 HV)
    as (p' & Hrun' & Hbase' & Hlen' & Hres' & Hreal').
  assert (p' = p) as ->.
  { destruct p, p'; simpl in *; congruence. }
  exists p. split; [|split; [exact Hrun' | split; [now rewrite Hbase | exact Hlen]]].
  unfold prop.createProp, bind, lift. rewrite H2, HnF, HnV. simpl.
  unfold emit. now rewrite Hrun.
Qed.

Lemma float_of_int_64 (n : Z) :
  - 2 ^ 63 <= n < 2 ^ 63 ->
  float_of_int n = Ok (binary_normalize prec64 emax64 n 0 false).
Proof.
  intros Hn. unfold float_of_int.
  assert (Z.abs n <= 2 ^ 63) as Habs by lia.
  assert (2 ^ 63 < 2 ^ 1024 - 2 ^ 970) as Hbig by (vm_compute; reflexivity).
  destruct (Z.leb_spec (2 ^ 1024 - 2 ^ 970) (Z.abs n)) as [Hle|_]; [lia | reflexivity].
Qed.

(** C7 (Currency).  A fixed-length record of type 0x0006 whose eight value
    bytes unpack to the signed 64-bit integer [n] is built without error and
    without a log line; its value is the binary64 quotient of [float(n)] by
    [10000.0].  For [n = 123456] that is the float 6949954944958149 * 2^-49,
    the binary64 nearest to 123456/10000, which the literal [12.3456]
    denotes. *)
Theorem Currency_divided_by_10000 (string stream : bytes) (fl n : Z) (l : log) :
  unpack (ST2 constants) string = Ok (0x0006, fl) ->
  unpack (STFIX constants) string = Ok stream ->
  unpack (STI64 constants) stream = Ok n ->
  - 2 ^ 63 <= n < 2 ^ 63 ->
  exists p q,
    FixedLengthProp_init string l = (Ok p, l) /\
    value p = PyFloat q /\
    q = SFdiv prec64 emax64
          (binary_normalize prec64 emax64 n 0 false)
          (binary_normalize prec64 emax64 10000 0 false) /\
    (n = 123456 ->
     q = S754_finite false 6949954944958149 (-49) /\
     nearest_to_ratio 123456 10000 q = true).
Proof.
  intros H2 HF HI Hn.
  rewrite (FixedLengthProp_init_eq _ _ _ _ _ H2 HF).
  unfold prop.parseType. dispatch.
  unfold bind, lift, ret. rewrite HI.
  unfold int_truediv_float. rewrite (float_of_int_64 n Hn).
  unfold float_truediv.
  replace (float_is_zero f10000) with false by (vm_compute; reflexivity).
  eexists. eexists. split; [reflexivity|]. split; [reflexivity|].
  split; [reflexivity|].
  intros ->. split; vm_compute; reflexivity.
Qed.

(** C2 (Time, three-way policy).  For a fixed-length record of type 0x0040
    whose eight value bytes unpack to [rawtime]: below 116444736000000000
    the value is what [olefile.olefile.filetime2datetime] returns for
    [rawtime]; at 915151392000000000 it is [datetime.datetime.max]; in every
    other case it is [fromTimeStamp(filetimeToUtc(rawtime))].  Nothing is
    logged in any of the three. *)
Theorem Time_three_way_policy (string stream : bytes) (fl rawtime : Z) (l : log) :
  unpack (ST2 constants) string = Ok (0x0040, fl) ->
  unpack (STFIX constants) string = Ok stream ->
  unpack (ST3 constants) stream = Ok rawtime ->
  (rawtime < 116444736000000000 ->
   forall d, filetime2datetime olefile rawtime = Ok d ->
   exists p, FixedLengthProp_init string l = (Ok p, l) /\ value p = PyDatetime d)
  /\
  (rawtime = 915151392000000000 ->
   exists p, FixedLengthProp_init string l = (Ok p, l) /\
             value p = PyDatetime (datetime_max dt))
  /\
  (116444736000000000 <= rawtime -> rawtime <> 915151392000000000 ->
   forall t d, filetimeToUtc utils rawtime = Ok t -> fromTimeStamp utils t = Ok d ->
   exists p, FixedLengthProp_init string l = (Ok p, l) /\ value p = PyDatetime d).
Proof.
  intros H2 HF H3.
  rewrite (FixedLengthProp_init_eq _ _ _ _ _ H2 HF).
  unfold prop.parseType. dispatch.
  unfold try_except, bind, lift, ret. rewrite H3.
  split; [|split].
  - intros Hlt d Hd.
    destruct (Z.ltb_spec rawtime 116444736000000000) as [_|Hge]; [|lia].
    rewrite Hd. eexists. split; reflexivity.
  - intros ->. simpl. eexists. split; reflexivity.
  - intros Hge Hne t d Ht Hd.
    destruct (Z.ltb_spec rawtime 116444736000000000) as [Hlt|_]; [lia|].
    destruct (Z.eqb_spec rawtime 915151392000000000) as [Heq|_]; [contradiction|].
    change (negb false) with true. rewrite Ht, Hd. eexists. split; reflexivity.
Qed.

(** C6 (a failing Time conversion is caught).  For a fixed-length record of
    type 0x0040 whose conversion ([olefile]'s below the threshold,
    [fromTimeStamp] otherwise) raises an exception [e] of class [Exception],
    and for whose raw value [filetimeToUtc] itself returns, the constructor
    raises nothing: it logs the exception, then the message with
    [filetimeToUtc(rawtime)], then the raw bytes of the entry, and the value
    of the record is the eight undecoded value bytes. *)
Theorem Time_failure_is_caught
    (string stream : bytes) (fl rawtime : Z) (t : spec_float) (e : exn) (l : log) :
  unpack (ST2 constants) string = Ok (0x0040, fl) ->
  unpack (STFIX constants) string = Ok stream ->
  unpack (ST3 constants) stream = Ok rawtime ->
  filetimeToUtc utils rawtime = Ok t ->
  isinstance_Exception e = true ->
  (rawtime < 116444736000000000 /\ filetime2datetime olefile rawtime = Raise e) \/
  (116444736000000000 <= rawtime /\ rawtime <> 915151392000000000 /\
   fromTimeStamp utils t = Raise e) ->
  exists p,
    FixedLengthProp_init string l =
      (Ok p,
       l ++ [exception e;
             error [Lit "Timestamp value of "; FFloat t;
                    Lit " caused an exception. This was probably caused by the time stamp being too far in the future."];
             error [FBytes string]]) /\
    value p = PyBytes stream /\
    raw (fixed_base p) = string.
Proof.
  intros H2 HF H3 Ht He Hconv.
  rewrite (FixedLengthProp_init_eq _ _ _ _ _ H2 HF).
  unfold prop.parseType. dispatch.
  unfold try_except, bind, lift, ret, emit. rewrite H3.
  destruct Hconv as [[Hlt Hd] | (Hge & Hne & Hd)].
  - destruct (Z.ltb_spec rawtime 116444736000000000) as [_|Hge]; [|lia].
    rewrite Hd, He, ?H3, ?Ht.
    change (raw (PropBase_of string 64 fl)) with string.
    rewrite <- !app_assoc. simpl app.
    eexists. split; [reflexivity|]. split; reflexivity.
  - destruct (Z.ltb_spec rawtime 116444736000000000) as [Hlt|_]; [lia|].
    destruct (Z.eqb_spec rawtime 915151392000000000) as [Heq|_]; [contradiction|].
    change (negb false) with true. rewrite ?Ht, Hd. cbv beta iota zeta. rewrite He, ?H3, ?Ht.
    change (raw (PropBase_of string 64 fl)) with string.
    rewrite <- !app_assoc. simpl app.
    eexists. split; [reflexivity|]. split; reflexivity.
Qed.

(** Why the property above asks that [filetimeToUtc] returns: the handler
    calls it for its message, outside any [try], so an exception of
    [filetimeToUtc] leaves the constructor after the first log line. *)
Lemma Time_handler_calls_filetimeToUtc
    (string stream : bytes) (fl rawtime : Z) (e : exn) (l : log) :
  unpack (ST2 constants) string = Ok (0x0040, fl) ->
  unpack (STFIX constants) string = Ok stream ->
  unpack (ST3 constants) stream = Ok rawtime ->
  116444736000000000 <= rawtime -> rawtime <> 915151392000000000 ->
  filetimeToUtc utils rawtime = Raise e ->
  isinstance_Exception e = true ->
  FixedLengthProp_init string l = (Raise e, l ++ [exception e]).
Proof.
  intros H2 HF H3 Hge Hne Ht He.
  rewrite (FixedLengthProp_init_eq _ _ _ _ _ H2 HF).
  unfold prop.parseType. dispatch.
  unfold try_except, bind, lift, ret, emit. rewrite H3.
  destruct (Z.ltb_spec rawtime 116444736000000000) as [Hlt|_]; [lia|].
  destruct (Z.eqb_spec rawtime 915151392000000000) as [Heq|_]; [contradiction|].
  change (negb false) with true. rewrite Ht. cbv beta iota zeta.
  rewrite He. reflexivity.
Qed.

(** Of the two names the branch of type 0x000A reads, prop.py binds
    [ErrorCodeType] (imported) and does not bind [ErrorType]. *)
Lemma ErrorCodeType_is_bound :
  load_global (globals enum) "ErrorCodeType" = Ok (EnumClass (ErrorCodeType enum)).
Proof. reflexivity. Qed.

Lemma ErrorType_is_unbound :
  load_global (globals enum) "ErrorType" = Raise (NameError "ErrorType").
Proof. reflexivity. Qed.

(** The decoded branch of type 0x000A: a value of the enumeration becomes
    its member, and nothing is logged. *)
Lemma ErrorCode_mapped (string stream : bytes) (fl v : Z) (m : PyEnum.member Z) (l : log) :
  unpack (ST2 constants) string = Ok (0x000A, fl) ->
  unpack (STFIX constants) string = Ok stream ->
  unpack (STI32 constants) stream = Ok v ->
  PyEnum.by_value Z.eqb (ErrorCodeType enum) v = Some m ->
  exists p, FixedLengthProp_init string l = (Ok p, l) /\ value p = PyMember m.
Proof.
  intros H2 HF HI Hm.
  rewrite (FixedLengthProp_init_eq _ _ _ _ _ H2 HF).
  unfold prop.parseType. dispatch.
  unfold try_except, bind, lift, ret, emit. rewrite HI.
  rewrite ErrorCodeType_is_bound, ErrorType_is_unbound.
  unfold call_with_int, PyEnum.call. rewrite Hm.
  eexists. split; reflexivity.
Qed.

(** C3 (ErrorCode outside the enumeration), as the code has it.  For a
    fixed-length record of type 0x000A whose 32-bit value [v] is no value of
    [ErrorCodeType], the constructor logs the first warning and then raises
    [NameError]: the handler reads the name [ErrorType], which prop.py
    neither imports nor defines, and its [except ValueError] does not take
    that exception.  No record, and so no raw integer, is returned. *)
Theorem ErrorCode_unmapped_raises (string stream : bytes) (fl v : Z) (l : log) :
  unpack (ST2 constants) string = Ok (0x000A, fl) ->
  unpack (STFIX constants) string = Ok stream ->
  unpack (STI32 constants) stream = Ok v ->
  PyEnum.by_value Z.eqb (ErrorCodeType enum) v = None ->
  FixedLengthProp_init string l =
    (Raise (NameError "ErrorType"),
     l ++ [warning [Lit "Error type found that was not from Additional Error Codes. Value was ";
                    FInt v; Lit ". You should report this to the developers."]]).
Proof.
  intros H2 HF HI Hm.
  rewrite (FixedLengthProp_init_eq _ _ _ _ _ H2 HF).
  unfold prop.parseType. dispatch.
  unfold try_except, bind, lift, ret, emit. rewrite HI.
  rewrite ErrorCodeType_is_bound, ErrorType_is_unbound.
  unfold call_with_int, PyEnum.call. rewrite Hm.
  reflexivity.
Qed.

End prop_facts.
End prop_facts.

(** ** The header of a meeting forward notification *)

Module meeting_forward_facts.
Import meeting_forward.

Section meeting_forward_facts.
Variable dt : datetime_module.

Lemma recurrence_entry_of_header (self : MeetingForwardNotification dt) (recur : string) :
  recur_string self = Ok recur ->
  exists h,
    headerFormatProperties self = Ok h /\
    header_field h "-recurrence-" "Recurrance" = Some (Some recur).
Proof.
  intros H. unfold headerFormatProperties. rewrite H.
  eexists. split; reflexivity.
Qed.

(** C9 (recurrence line of the header).  [headerFormatProperties] of an
    object without a recurrence returns a header whose [Recurrance] entry,
    in the section [-recurrence-], is the text [(none)]; with a recurrence
    whose pattern type is [DAY] the entry is [Daily], with [WEEK] it is
    [Weekly], and with any of the six month pattern types it is
    [Monthly]. *)
Theorem header_recurrence (self : MeetingForwardNotification dt) :
  (appointmentRecur self = None ->
   exists h,
     headerFormatProperties self = Ok h /\
     header_field h "-recurrence-" "Recurrance" = Some (Some "(none)"))
  /\
  (forall r, appointmentRecur self = Some r ->
     (patternType r = DAY ->
      exists h,
        headerFormatProperties self = Ok h /\
        header_field h "-recurrence-" "Recurrance" = Some (Some "Daily")) /\
     (patternType r = WEEK ->
      exists h,
        headerFormatProperties self = Ok h /\
        header_field h "-recurrence-" "Recurrance" = Some (Some "Weekly")) /\
     (In (patternType r)
         [MONTH; MONTH_NTH; MONTH_END; HJ_MONTH; HJ_MONTH_NTH; HJ_MONTH_END] ->
      exists h,
        headerFormatProperties self = Ok h /\
        header_field h "-recurrence-" "Recurrance" = Some (Some "Monthly"))).
Proof.
  split.
  - intros Hnone. apply recurrence_entry_of_header.
    unfold recur_string. now rewrite Hnone.
  - intros r Hr. split; [|split].
    + intros Hp. apply recurrence_entry_of_header.
      unfold recur_string. rewrite Hr, Hp. reflexivity.
    + intros Hp. apply recurrence_entry_of_header.
      unfold recur_string. rewrite Hr, Hp. reflexivity.
    + intros Hp. apply recurrence_entry_of_header.
      unfold recur_string. rewrite Hr.
      simpl in Hp.
      destruct Hp as [<-|[<-|[<-|[<-|[<-|[<-|[]]]]]]]; reflexivity.
Qed.

(** A pattern type the table does not list makes the property raise
    [KeyError]. *)
Lemma header_other_pattern (self : MeetingForwardNotification dt) (n : string) :
  appointmentRecur self = Some {| patternType := OTHER_MEMBER n |} ->
  headerFormatProperties self = Raise KeyError.
Proof.
  intros Hr. unfold headerFormatProperties, recur_string. now rewrite Hr.
Qed.

End meeting_forward_facts.
End meeting_forward_facts.

(** ** The properties on concrete entries *)

Module examples.
Import prop oxmsg.

Lemma realLength_rule_witness :
  unpack (ST2 constants) guid_array_entry = Ok (0x1048, 6) /\
  unpack (STVAR constants) guid_array_entry = Ok (32, [x00; x00; x00; x00]) /\
  exists p,
    VariableLengthProp_init dt constants utils guid_array_entry [] = (Ok p, []) /\
    realLength p = Some 2.
Proof.
  split; [reflexivity|]. split; [reflexivity|].
  destruct (prop_facts.realLength_rule dt constants utils guid_array_entry
              0x1048 6 32 [x00; x00; x00; x00] [] eq_refl eq_refl)
    as (p & Hrun & _ & _ & H).
  cbv zeta in H.
  destruct H as (_ & _ & _ & _ & _ & _ & _ & _ & _ & _ & H16).
  exists p. split; [exact Hrun|].
  apply H16; [now left | | reflexivity].
  simpl. intros H. repeat (destruct H as [H|H]; [discriminate H|]). exact H.
Defined.

Lemma realLength_negative_witness :
  unpack (ST2 constants) string8_empty_entry = Ok (0x001E, 6) /\
  unpack (STVAR constants) string8_empty_entry = Ok (0, [x00; x00; x00; x00]) /\
  exists p,
    VariableLengthProp_init dt constants utils string8_empty_entry [] = (Ok p, []) /\
    realLength p = Some (-1).
Proof.
  split; [reflexivity|]. split; [reflexivity|].
  destruct (prop_facts.realLength_negative dt constants utils string8_empty_entry
              0x001E 6 0 [x00; x00; x00; x00] [] eq_refl eq_refl)
    as (p & Hrun & _ & _ & _ & H & _).
  exists p. split; [exact Hrun | apply H; reflexivity].
Defined.

Lemma Guid_returned_raw_witness :
  unpack (ST2 constants) guid_entry = Ok (0x0048, 6) /\
  unpack (STFIX constants) guid_entry = Ok [x01; x02; x03; x04; x05; x06; x07; x08] /\
  exists p,
    FixedLengthProp_init dt constants utils olefile enum guid_entry [] = (Ok p, []) /\
    type (fixed_base p) = 0x0048 /\
    value p = PyBytes [x01; x02; x03; x04; x05; x06; x07; x08].
Proof.
  split; [reflexivity|]. split; [reflexivity|].
  exact (prop_facts.Guid_returned_raw dt constants utils olefile enum guid_entry
           [x01; x02; x03; x04; x05; x06; x07; x08] 6 [] eq_refl eq_refl).
Defined.

Lemma createProp_unknown_type_witness :
  unpack (ST2 constants) unknown_entry = Ok (0x9999, 6) /\
  ~ In 0x9999 (FIXED_LENGTH_PROPS constants) /\
  ~ In 0x9999 (VARIABLE_LENGTH_PROPS constants) /\
  exists p,
    createProp dt constants utils olefile enum unknown_entry [] =
      (Ok (IsVariableLengthProp p),
       [warning [Lit "Unknown property type: "; FStr "9999"]]) /\
    VariableLengthProp_init dt constants utils unknown_entry [] = (Ok p, []) /\
    type (variable_base p) = 0x9999 /\ length p = 10.
Proof.
  assert (forall t, existsb (Z.eqb 0x9999) t = false -> ~ In 0x9999 t) as Hnot.
  { intros t Ht Hin. apply (proj2 (contains_In t 0x9999)) in Hin.
    unfold contains in Hin. rewrite Ht in Hin. discriminate Hin. }
  split; [reflexivity|].
  split; [apply Hnot; reflexivity|]. split; [apply Hnot; reflexivity|].
  exact (prop_facts.createProp_unknown_type dt constants utils olefile enum
           unknown_entry 0x9999 6 10 [x00; x00; x00; x00] [] eq_refl eq_refl
           (Hnot (FIXED_LENGTH_PROPS constants) eq_refl)
           (Hnot (VARIABLE_LENGTH_PROPS constants) eq_refl)).
Defined.

Lemma Currency_divided_by_10000_witness :
  unpack (ST2 constants) currency_entry = Ok (0x0006, 6) /\
  unpack (STI64 constants) [x40; xe2; x01; x00; x00; x00; x00; x00] = Ok 123456 /\
  exists p,
    FixedLengthProp_init dt constants utils olefile enum currency_entry [] = (Ok p, []) /\
    value p = PyFloat (S754_finite false 6949954944958149 (-49)).
Proof.
  split; [reflexivity|]. split; [reflexivity|].
  destruct (prop_facts.Currency_divided_by_10000 dt constants utils olefile enum
              currency_entry [x40; xe2; x01; x00; x00; x00; x00; x00] 6 123456 []
              eq_refl eq_refl eq_refl)
    as (p & q & Hrun & Hval & _ & Hex).
  - split; [discriminate | reflexivity].
  - exists p. split; [exact Hrun|].
    destruct (Hex eq_refl) as [Hq _]. rewrite Hval, Hq. reflexivity.
Defined.

Lemma Time_three_way_policy_witness :
  unpack (ST2 constants) time_sentinel_entry = Ok (0x0040, 6) /\
  unpack (ST3 constants) [x00; x40; xdd; xa3; x57; x45; xb3; x0c]
    = Ok 915151392000000000 /\
  exists p,
    FixedLengthProp_init dt constants utils olefile enum time_sentinel_entry []
      = (Ok p, []) /\
    value p = PyDatetime (datetime_max dt).
Proof.
  split; [reflexivity|]. split; [reflexivity|].
  destruct (prop_facts.Time_three_way_policy dt constants utils olefile enum
              time_sentinel_entry [x00; x40; xdd; xa3; x57; x45; xb3; x0c] 6
              915151392000000000 [] eq_refl eq_refl eq_refl)
    as (_ & Hsentinel & _).
  exact (Hsentinel eq_refl).
Defined.

Lemma Time_failure_is_caught_witness :
  unpack (ST3 constants) [xff; xff; xff; xff; xff; xff; xff; x7f]
    = Ok 9223372036854775807 /\
  filetimeToUtc 9223372036854775807
    = Ok (S754_finite false 7460394844860232 (-13)) /\
  fromTimeStamp (S754_finite false 7460394844860232 (-13)) = Raise OverflowError /\
  exists p,
    FixedLengthProp_init dt constants utils olefile enum time_overflow_entry [] =
      (Ok p,
       [exception OverflowError;
        error [Lit "Timestamp value of ";
               FFloat (S754_finite false 7460394844860232 (-13));
               Lit " caused an exception. This was probably caused by the time stamp being too far in the future."];
        error [FBytes time_overflow_entry]]) /\
    value p = PyBytes [xff; xff; xff; xff; xff; xff; xff; x7f] /\
    raw (fixed_base p) = time_overflow_entry.
Proof.
  split; [reflexivity|]. split; [vm_compute; reflexivity|].
  split; [vm_compute; reflexivity|].
  apply (prop_facts.Time_failure_is_caught dt constants utils olefile enum
           time_overflow_entry [xff; xff; xff; xff; xff; xff; xff; x7f] 6
           9223372036854775807 (S754_finite false 7460394844860232 (-13))
           OverflowError []).
  - reflexivity.
  - reflexivity.
  - reflexivity.
  - vm_compute; reflexivity.
  - reflexivity.
  - right. split; [discriminate|]. split; [discriminate | vm_compute; reflexivity].
Defined.

Lemma ErrorCode_unmapped_raises_witness :
  unpack (ST2 constants) errorcode_entry = Ok (0x000A, 6) /\
  unpack (STI32 constants) [x01; x00; x00; x00; x00; x00; x00; x00] = Ok 1 /\
  PyEnum.by_value Z.eqb (ErrorCodeType enum) 1 = None /\
  createProp dt constants utils olefile enum errorcode_entry [] =
    (Raise (NameError "ErrorType"),
     [warning [Lit "Error type found that was not from Additional Error Codes. Value was ";
               FInt 1; Lit ". You should report this to the developers."]]).
Proof.
  split; [reflexivity|]. split; [reflexivity|]. split; [reflexivity|].
  unfold createProp, bind, lift.
  change (unpack (ST2 constants) errorcode_entry) with (@Ok (Z * Z) (0x000A, 6)).
  cbv beta iota.
  change (contains (FIXED_LENGTH_PROPS constants) 0x000A) with true.
  cbv beta iota.
  rewrite (prop_facts.ErrorCode_unmapped_raises dt constants utils olefile enum
             errorcode_entry [x01; x00; x00; x00; x00; x00; x00; x00] 6 1 []
             eq_refl eq_refl eq_refl eq_refl).
  reflexivity.
Defined.

Lemma header_recurrence_witness :
  meeting_forward.appointmentRecur weekly_forward
    = Some {| meeting_forward.patternType := meeting_forward.WEEK |} /\
  exists h,
    meeting_forward.headerFormatProperties weekly_forward = Ok h /\
    meeting_forward.header_field h "-recurrence-" "Recurrance" = Some (Some "Weekly").
Proof.
  split; [reflexivity|].
  destruct (meeting_forward_facts.header_recurrence dt weekly_forward) as [_ H].
  destruct (H _ eq_refl) as (_ & Hweek & _).
  exact (Hweek eq_refl).
Defined.

End examples.

(** ** The enumerations of enums.py *)

Module enums_tables_facts.
Import enums enums_tables.

Lemma bin_digits_has_one (p : positive) : In "1"%char (bin_digits p).
Proof.
  induction p as [q IH|q IH|]; simpl.
  - apply in_or_app. right. now left.
  - apply in_or_app. now left.
  - now left.
Qed.

Lemma In_combine_seq {A} (l : list A) (x : A) (start : nat) :
  In x l -> exists i, In (i, x) (combine (seq start (List.length l)) l).
Proof.
  revert start. induction l as [|y l IH]; intros start Hin; [contradiction|].
  destruct Hin as [->|Hin].
  - exists start. now left.
  - destruct (IH (S start) Hin) as [i Hi]. exists i. now right.
Qed.

Lemma fromBits_generator_one (cls : PyEnum.defs Z) (items : list (nat * ascii)) :
  (exists i, In (i, "1"%char) items) ->
  fromBits_generator cls items = Raise (NameError "x").
Proof.
  induction items as [|[index val] rest IH]; intros [i Hin]; [contradiction|].
  simpl fromBits_generator.
  destruct (Ascii.eqb_spec val "1"%char) as [->|Hne].
  - reflexivity.
  - apply IH. destruct Hin as [Heq|Hin]; [|now exists i].
    injection Heq as _ Hval. now contradiction Hne.
Qed.

(** X1 ([fromBits]).  A negative value raises [ValueError]; 0 gives the
    empty tuple; every positive value raises [NameError]: the first set bit
    makes the generator read [x], which nothing binds. *)
Theorem fromBits_behaviour (value : Z) :
  (value < 0 -> fromBits value = Raise ValueError) /\
  (value = 0 -> fromBits value = Ok []) /\
  (0 < value -> fromBits value = Raise (NameError "x")).
Proof.
  split; [|split].
  - intros H. unfold fromBits. now destruct (Z.ltb_spec value 0); [|lia].
  - intros ->. reflexivity.
  - intros H. unfold fromBits. destruct (Z.ltb_spec value 0) as [Hneg|_]; [lia|].
    destruct value as [|p|p]; try lia.
    apply fromBits_generator_one.
    unfold slice_down_to_2, bin. simpl skipn.
    rewrite list_ascii_of_string_of_list_ascii.
    apply In_combine_seq. apply -> in_rev. apply bin_digits_has_one.
Qed.

Lemma line_ok_sound {V} (V_eqb : V -> V -> bool)
    (V_eqb_eq : forall a b, V_eqb a b = true -> a = b)
    (cls : PyEnum.defs V) (d : string * V) :
  line_ok V_eqb cls d = true ->
  PyEnum.call V_eqb cls (snd d) = Ok {| PyEnum.name := fst d; PyEnum.value := snd d |} /\
  PyEnum.getitem V_eqb cls (fst d) = Ok {| PyEnum.name := fst d; PyEnum.value := snd d |}.
Proof.
  unfold line_ok, PyEnum.call, PyEnum.getitem.
  destruct (PyEnum.by_value V_eqb cls (snd d)) as [[n v]|]; [|discriminate].
  destruct (PyEnum.by_name V_eqb cls (fst d)) as [[n' v']|]; [|discriminate].
  simpl. rewrite !andb_true_iff. intros [[[Hn Hn'] Hv] Hv'].
  apply String.eqb_eq in Hn, Hn'. apply V_eqb_eq in Hv, Hv'. now subst.
Qed.

(** X2 (no aliases outside the entry-ID kinds).  In every enumeration of
    enums.py with integer values, and in [Guid], each line [NAME = v] makes
    a member of its own: [Class(v)] and [Class[NAME]] both return the member
    named [NAME] with value [v]. *)
Theorem enumerations_have_no_alias :
  Forall (fun c : string * PyEnum.defs Z =>
            Forall (fun d : string * Z =>
                      PyEnum.call Z.eqb (snd c) (snd d)
                        = Ok {| PyEnum.name := fst d; PyEnum.value := snd d |} /\
                      PyEnum.getitem Z.eqb (snd c) (fst d)
                        = Ok {| PyEnum.name := fst d; PyEnum.value := snd d |})
                   (snd c)) int_classes
  /\
  Forall (fun d : string * string =>
            PyEnum.call String.eqb Guid (snd d)
              = Ok {| PyEnum.name := fst d; PyEnum.value := snd d |} /\
            PyEnum.getitem String.eqb Guid (fst d)
              = Ok {| PyEnum.name := fst d; PyEnum.value := snd d |}) Guid.
Proof.
  split.
  - apply Forall_forall. intros c Hc. apply Forall_forall. intros d Hd.
    apply line_ok_sound; [intros a b; apply Z.eqb_eq|].
    assert (forallb (fun c => forallb (line_ok Z.eqb (snd c)) (snd c)) int_classes = true)
      as Hall by (vm_compute; reflexivity).
    rewrite forallb_forall in Hall. specialize (Hall c Hc).
    rewrite forallb_forall in Hall. exact (Hall d Hd).
  - apply Forall_forall. intros d Hd.
    apply line_ok_sound; [intros a b; apply String.eqb_eq|].
    assert (forallb (line_ok String.eqb Guid) Guid = true) as Hall
      by (vm_compute; reflexivity).
    rewrite forallb_forall in Hall. exact (Hall d Hd).
Qed.

(** X3 ([EntryIDType(b)] on any bytes).  The call either returns a member
    whose value is [b] - then [b] is one of the 16-byte signatures, the
    member is never named [PERMANENT], and [toHex] and back [toRaw] succeed
    on it, giving the hex text of [b] - or raises [ValueError], and then [b]
    is no signature of the class. *)
Theorem EntryIDType_call_cases (b : bytes) :
  match EntryIDType_call b with
  | Ok k =>
      PyEnum.value k = b /\ List.length b = 16%nat /\
      PyEnum.name k <> "PERMANENT" /\
      In (PyEnum.name k, b) EntryIDType /\
      exists h, toHex k = Ok h /\ PyEnum.value h = hexEncode b /\ toRaw h = Ok k
  | Raise e => e = ValueError /\ ~ In b (map snd EntryIDType)
  end.
Proof.
  unfold EntryIDType_call, PyEnum.call, EntryIDType.
  cbn [PyEnum.by_value map snd].
  repeat match goal with
         | |- context [bytes_eqb ?v b] =>
             let E := fresh "E" in
             destruct (bytes_eqb v b) eqn:E;
             [ apply bytes_eqb_eq in E; subst b;
               cbn [PyEnum.value PyEnum.name];
               repeat split;
               [ discriminate
               | cbn [In]; tauto
               | eexists; repeat split; vm_compute; reflexivity ]
             | ]
         end.
  split; [reflexivity|].
  cbn [In]. intros H.
  repeat match goal with
         | E : bytes_eqb ?v b = false |- _ =>
             assert (v <> b) by (intros Heq; apply bytes_eqb_eq in Heq; congruence);
             clear E
         end.
  tauto.
Qed.

End enums_tables_facts.

(** ** More on property records *)

Module prop_more.
Import prop prop_views prop_facts.

Lemma land_pow2 (a k : Z) :
  0 <= k -> Z.land a (2 ^ k) = if Z.testbit a k then 2 ^ k else 0.
Proof.
  intros Hk. apply Z.bits_inj'. intros n Hn.
  rewrite Z.land_spec, (Z.pow2_bits_eqb k n Hk).
  destruct (Z.eqb_spec k n) as [->|Hne].
  - destruct (Z.testbit a n) eqn:E.
    + now rewrite (Z.pow2_bits_eqb n n Hk), Z.eqb_refl.
    + now rewrite Z.bits_0.
  - rewrite andb_false_r. destruct (Z.testbit a k).
    + rewrite (Z.pow2_bits_eqb k n Hk). symmetry. now apply Z.eqb_neq.
    + now rewrite Z.bits_0.
Qed.

Lemma flag_test (a k : Z) :
  0 <= k -> (Z.land a (2 ^ k) =? 2 ^ k) = Z.testbit a k.
Proof.
  intros Hk. rewrite (land_pow2 a k Hk).
  assert (0 < 2 ^ k) by (apply Z.pow_pos_nonneg; lia).
  destruct (Z.testbit a k); [apply Z.eqb_refl | apply Z.eqb_neq; lia].
Qed.

Section prop_more.
Variable dt : datetime_module.
Variable constants : constants_module dt.
Variable utils : utils_module dt.
Variable olefile : olefile_module dt.
Variable enum : enum_module.

Local Abbreviation PropBase_of := (PropBase_of dt utils).
Local Abbreviation parseType := (parseType dt constants utils olefile enum).
Local Abbreviation FixedLengthProp_init := (FixedLengthProp_init dt constants utils olefile enum).
Local Abbreviation VariableLengthProp_init := (VariableLengthProp_init dt constants utils).
Local Abbreviation createProp := (createProp dt constants utils olefile enum).

(** Decide the comparisons of a literal type code with the codes of the
    [if]/[elif] chain. *)
Ltac literal_tests :=
  repeat match goal with
         | |- context [Z.eqb (Zpos ?a) ?b] =>
             let v := eval vm_compute in (Z.eqb (Zpos a) b) in
             change (Z.eqb (Zpos a) b) with v
         end;
  cbv beta iota zeta.

(** Whatever [createProp] returns was built on [PropBase_of]. *)
Lemma createProp_inv (string : bytes) (l l' : log) (p : Prop_ dt) :
  createProp string l = (Ok p, l') ->
  exists ty fl,
    unpack (ST2 constants) string = Ok (ty, fl) /\
    base p = PropBase_of string ty fl /\
    is_fixed p = contains (FIXED_LENGTH_PROPS constants) ty.
Proof.
  unfold prop.createProp, bind, lift.
  destruct (unpack (ST2 constants) string) as [[ty fl]|e] eqn:H2; [|discriminate].
  intros H. exists ty, fl. split; [reflexivity|].
  destruct (contains (FIXED_LENGTH_PROPS constants) ty) eqn:HF.
  - destruct (unpack (STFIX constants) string) as [stream|e] eqn:HS.
    + rewrite (FixedLengthProp_init_eq dt constants utils olefile enum _ _ _ _ _ H2 HS) in H.
      destruct (parseType _ ty stream l) as [[v|e] l1]; [|discriminate].
      unfold ret in H. injection H as <- _. split; reflexivity.
    + unfold prop.FixedLengthProp_init, bind in H.
      rewrite (PropBase_init_ok dt constants utils _ _ _ _ H2) in H.
      unfold lift in H. rewrite HS in H. discriminate.
  - destruct (negb (contains (VARIABLE_LENGTH_PROPS constants) ty)).
    + unfold emit in H.
      unfold prop.VariableLengthProp_init, bind in H.
      rewrite (PropBase_init_ok dt constants utils _ _ _ _ H2) in H.
      unfold lift in H.
      destruct (unpack (STVAR constants) string) as [[len res]|e]; [|discriminate].
      unfold ret in H. injection H as <- _. split; reflexivity.
    + unfold ret at 1 in H.
      unfold prop.VariableLengthProp_init, bind in H.
      rewrite (PropBase_init_ok dt constants utils _ _ _ _ H2) in H.
      unfold lift in H.
      destruct (unpack (STVAR constants) string) as [[len res]|e]; [|discriminate].
      unfold ret in H. injection H as <- _. split; reflexivity.
Qed.

(** X4 (what [createProp] keeps of the entry).  A property [createProp]
    returns has the entry itself as [raw], the type and flags [ST2] unpacks
    as [type] and [flags], and is a [FixedLengthProp] exactly when the type is
    in [FIXED_LENGTH_PROPS] (so a type listed as both fixed and variable is
    fixed). *)
Theorem createProp_keeps_entry (string : bytes) (l l' : log) (p : Prop_ dt) :
  createProp string l = (Ok p, l') ->
  raw (base p) = string /\
  unpack (ST2 constants) string = Ok (type (base p), flags (base p)) /\
  (is_fixed p = true <-> In (type (base p)) (FIXED_LENGTH_PROPS constants)).
Proof.
  intros H. destruct (createProp_inv _ _ _ _ H) as (ty & fl & H2 & Hb & Hk).
  rewrite Hb. simpl. split; [reflexivity|]. split; [exact H2|].
  rewrite Hk. apply contains_In.
Qed.

(** X5 (flag properties).  On a property [createProp] returns,
    [flagMandatory], [flagReadable] and [flagWritable] are bits 0, 1 and 2
    of [flags], whatever the other bits are. *)
Theorem flag_properties_are_bits (string : bytes) (l l' : log) (p : Prop_ dt) :
  createProp string l = (Ok p, l') ->
  flagMandatory (base p) = Z.testbit (flags (base p)) 0 /\
  flagReadable (base p) = Z.testbit (flags (base p)) 1 /\
  flagWritable (base p) = Z.testbit (flags (base p)) 2.
Proof.
  intros H. destruct (createProp_inv _ _ _ _ H) as (ty & fl & _ & Hb & _).
  rewrite Hb. simpl.
  split; [|split].
  - exact (flag_test fl 0 ltac:(lia)).
  - exact (flag_test fl 1 ltac:(lia)).
  - exact (flag_test fl 2 ltac:(lia)).
Qed.

(** X6 (a listed variable-length type is built silently).  For an entry
    whose type is in [VARIABLE_LENGTH_PROPS] and not in [FIXED_LENGTH_PROPS],
    [createProp] returns the [VariableLengthProp] and logs nothing. *)
Theorem createProp_listed_variable_type
    (string : bytes) (ty fl len : Z) (res : bytes) (l : log) :
  unpack (ST2 constants) string = Ok (ty, fl) ->
  unpack (STVAR constants) string = Ok (len, res) ->
  ~ In ty (FIXED_LENGTH_PROPS constants) ->
  In ty (VARIABLE_LENGTH_PROPS constants) ->
  exists p,
    createProp string l = (Ok (IsVariableLengthProp p), l) /\
    VariableLengthProp_init string l = (Ok p, l) /\
    length p = len /\ reservedFlags p = res.
Proof.
  intros H2 HV HnF HinV.
  apply contains_not_In in HnF. apply contains_In in HinV.
  destruct (VariableLengthProp_init_ok dt constants utils string ty fl len res l H2 HV)
    as (p & Hrun & _ & Hlen & Hres & _).
  exists p. split; [|split; [exact Hrun | split; assumption]].
  unfold prop.createProp, bind, lift. rewrite H2, HnF, HinV. simpl.
  unfold ret at 1. now rewrite Hrun.
Qed.

(** X7 (bounds of realLength).  For a length that is not negative,
    [realLength], when it is a number, never exceeds the length, and it is
    negative only for a string type whose length is shorter than its
    terminator. *)
Theorem realLength_bounds (string : bytes) (ty fl len : Z) (res : bytes) (l : log) :
  unpack (ST2 constants) string = Ok (ty, fl) ->
  unpack (STVAR constants) string = Ok (len, res) ->
  0 <= len ->
  exists p,
    VariableLengthProp_init string l = (Ok p, l) /\
    forall r, realLength p = Some r ->
      r <= len /\
      (r < 0 -> (ty = 0x001E /\ len = 0) \/ (ty = 0x001F /\ len < 2)).
Proof.
  intros H2 HV Hlen.
  destruct (VariableLengthProp_init_ok dt constants utils string ty fl len res l H2 HV)
    as (p & Hrun & _ & _ & _ & Hreal).
  exists p. split; [exact Hrun|]. intros r Hr. rewrite Hreal in Hr.
  assert (forall w, 0 < w -> 0 <= len / w <= len) as Hdiv.
  { intros w Hw. split; [apply Z.div_pos; lia|].
    apply Z.div_le_upper_bound; nia. }
  pose proof (Hdiv 2 ltac:(lia)). pose proof (Hdiv 4 ltac:(lia)).
  pose proof (Hdiv 8 ltac:(lia)). pose proof (Hdiv 16 ltac:(lia)).
  destruct (Z.eqb_spec ty 0x001E);
    [|destruct (Z.eqb_spec ty 0x001F);
      [|destruct (contains (MULTIPLE_2_BYTES_HEX constants) ty);
        [|destruct (contains (MULTIPLE_4_BYTES_HEX constants) ty);
          [|destruct (contains (MULTIPLE_8_BYTES_HEX constants) ty);
            [|destruct (contains (MULTIPLE_16_BYTES_HEX constants) ty);
              [|destruct (Z.eqb_spec ty 0x000D)]]]]]];
    try discriminate; injection Hr as <-; split; lia.
Qed.

(** X8 (when realLength is [None]).  [realLength] is [None] exactly for
    type 0x000D, unless one of the array tuples lists that code. *)
Theorem realLength_None_iff (string : bytes) (ty fl len : Z) (res : bytes) (l : log) :
  unpack (ST2 constants) string = Ok (ty, fl) ->
  unpack (STVAR constants) string = Ok (len, res) ->
  exists p,
    VariableLengthProp_init string l = (Ok p, l) /\
    (realLength p = None <->
     ty = 0x000D /\
     ~ In ty (MULTIPLE_2_BYTES_HEX constants ++ MULTIPLE_4_BYTES_HEX constants ++
              MULTIPLE_8_BYTES_HEX constants ++ MULTIPLE_16_BYTES_HEX constants)).
Proof.
  intros H2 HV.
  destruct (VariableLengthProp_init_ok dt constants utils string ty fl len res l H2 HV)
    as (p & Hrun & _ & _ & _ & Hreal).
  exists p. split; [exact Hrun|]. rewrite Hreal. rewrite !in_app_iff.
  destruct (contains (MULTIPLE_2_BYTES_HEX constants) ty) eqn:E2;
    [apply contains_In in E2 | apply contains_not_In in E2];
  (destruct (contains (MULTIPLE_4_BYTES_HEX constants) ty) eqn:E4;
    [apply contains_In in E4 | apply contains_not_In in E4]);
  (destruct (contains (MULTIPLE_8_BYTES_HEX constants) ty) eqn:E8;
    [apply contains_In in E8 | apply contains_not_In in E8]);
  (destruct (contains (MULTIPLE_16_BYTES_HEX constants) ty) eqn:E16;
    [apply contains_In in E16 | apply contains_not_In in E16]);
  (destruct (Z.eqb_spec ty 0x001E) as [e1|n1];
   [| destruct (Z.eqb_spec ty 0x001F) as [e2|n2];
      [| destruct (Z.eqb_spec ty 0x000D) as [e3|n3]]]);
  (split; [intros H; try discriminate H | intros [H1 H2']; try lia; try tauto]);
  try (split; [assumption | tauto]).
Qed.

(** X9 (PtypNull).  A fixed-length record of type 0x0001 always has the
    value [None]; the warning is logged exactly when the eight value bytes
    are not all zero, and the record is built either way. *)
Theorem Null_value_and_warning (string stream : bytes) (fl : Z) (l : log) :
  unpack (ST2 constants) string = Ok (0x0001, fl) ->
  unpack (STFIX constants) string = Ok stream ->
  exists p l',
    FixedLengthProp_init string l = (Ok p, l') /\
    value p = PyNone /\
    ((stream = null8 /\ l' = l) \/
     (stream <> null8 /\
      l' = l ++ [warning [Lit "Property type is PtypNull, but is not equal to 0."]])).
Proof.
  intros H2 HF.
  rewrite (FixedLengthProp_init_eq dt constants utils olefile enum _ _ _ _ _ H2 HF).
  unfold prop.parseType. literal_tests.
  unfold bind, ret, emit.
  destruct (bytes_eqb stream null8) eqn:E; simpl.
  - apply bytes_eqb_eq in E. eexists. eexists.
    split; [reflexivity|]. split; [reflexivity|]. now left.
  - eexists. eexists. split; [reflexivity|]. split; [reflexivity|]. right.
    split; [|reflexivity]. intros Heq. apply bytes_eqb_eq in Heq. congruence.
Qed.

(** X10 (types [parseType] has no conversion for).  For every type code
    other than the eleven it converts, the value of a fixed-length record is
    the eight value bytes as [STFIX] unpacks them, and nothing is logged:
    this is so for 0x0000 and 0x0048, and for any code that
    [FIXED_LENGTH_PROPS] may list beyond them. *)
Theorem unconverted_types_keep_bytes (string stream : bytes) (ty fl : Z) (l : log) :
  unpack (ST2 constants) string = Ok (ty, fl) ->
  unpack (STFIX constants) string = Ok stream ->
  ~ In ty [0x0001; 0x0002; 0x0003; 0x0004; 0x0005; 0x0006; 0x0007;
           0x000A; 0x000B; 0x0014; 0x0040] ->
  exists p,
    FixedLengthProp_init string l = (Ok p, l) /\
    value p = PyBytes stream /\
    raw (fixed_base p) = string.
Proof.
  intros H2 HF Hty.
  rewrite (FixedLengthProp_init_eq dt constants utils olefile enum _ _ _ _ _ H2 HF).
  unfold prop.parseType.
  repeat match goal with
         | |- context [Z.eqb ty ?c] =>
             destruct (Z.eqb_spec ty c);
             [try (exfalso; apply Hty; simpl; lia) | cbv beta iota zeta]
         end;
    unfold ret; eexists; repeat split.
Qed.

(** X11 (the two outcomes of a Time record).  When the constructor returns
    a record of type 0x0040, either its value is a datetime and nothing was
    logged, or its value is the eight raw bytes and exactly three lines were
    logged: the exception (of class [Exception]), the message, and the raw
    entry.  No decoded date comes with a log line, and no raw value without. *)
Theorem Time_value_or_log (string stream : bytes) (fl : Z) (l l' : log)
    (p : FixedLengthProp dt) :
  unpack (ST2 constants) string = Ok (0x0040, fl) ->
  unpack (STFIX constants) string = Ok stream ->
  FixedLengthProp_init string l = (Ok p, l') ->
  (exists d, value p = PyDatetime d /\ l' = l) \/
  (value p = PyBytes stream /\
   exists e t,
     isinstance_Exception e = true /\
     l' = l ++ [exception e;
                error [Lit "Timestamp value of "; FFloat t;
                       Lit " caused an exception. This was probably caused by the time stamp being too far in the future."];
                error [FBytes string]]).
Proof.
  intros H2 HF.
  rewrite (FixedLengthProp_init_eq dt constants utils olefile enum _ _ _ _ _ H2 HF).
  unfold prop.parseType. literal_tests.
  unfold try_except, bind, lift, ret, emit.
  change (raw (PropBase_of string 64 fl)) with string.
  destruct (unpack (ST3 constants) stream) as [rawtime|e0]; cbv beta iota zeta.
  - destruct (rawtime <? 116444736000000000).
    + destruct (filetime2datetime olefile rawtime) as [d|e]; cbv beta iota zeta.
      * intros [= <- <-]. left. now exists d.
      * destruct (isinstance_Exception e) eqn:He; [|discriminate].
        destruct (filetimeToUtc utils rawtime) as [t|e']; [|discriminate].
        intros [= <- <-]. right. split; [reflexivity|]. exists e, t.
        split; [exact He|]. now rewrite <- !app_assoc.
    + destruct (negb (rawtime =? 915151392000000000)).
      * destruct (filetimeToUtc utils rawtime) as [t|e]; cbv beta iota zeta.
        -- destruct (fromTimeStamp utils t) as [d|e]; cbv beta iota zeta.
           ++ intros [= <- <-]. left. now exists d.
           ++ destruct (isinstance_Exception e) eqn:He; [|discriminate].
              intros [= <- <-]. right. split; [reflexivity|]. exists e, t.
              split; [exact He|]. now rewrite <- !app_assoc.
        -- destruct (isinstance_Exception e); discriminate.
      * intros [= <- <-]. left. now eexists.
  - destruct (isinstance_Exception e0); discriminate.
Qed.

Lemma by_value_sound (cls : PyEnum.defs Z) (v : Z) (m : PyEnum.member Z) :
  PyEnum.by_value Z.eqb cls v = Some m ->
  PyEnum.value m = v /\ In (PyEnum.name m, v) cls.
Proof.
  induction cls as [|[n w] cls IH]; simpl; [discriminate|].
  destruct (Z.eqb_spec w v) as [->|Hne].
  - intros [= <-]. simpl. split; [reflexivity | now left].
  - intros H. destruct (IH H) as [Hv Hin]. split; [exact Hv | now right].
Qed.

(** X12 (an ErrorCode record never holds a bare integer).  When the
    constructor returns a record of type 0x000A, its value is a member of
    [ErrorCodeType] whose value is the integer [STI32] unpacks, and nothing
    was logged. *)
Theorem ErrorCode_value_is_member (string stream : bytes) (fl : Z) (l l' : log)
    (p : FixedLengthProp dt) :
  unpack (ST2 constants) string = Ok (0x000A, fl) ->
  unpack (STFIX constants) string = Ok stream ->
  FixedLengthProp_init string l = (Ok p, l') ->
  exists v m,
    unpack (STI32 constants) stream = Ok v /\
    value p = PyMember m /\
    PyEnum.value m = v /\
    In (PyEnum.name m, v) (ErrorCodeType enum) /\
    l' = l.
Proof.
  intros H2 HF.
  rewrite (FixedLengthProp_init_eq dt constants utils olefile enum _ _ _ _ _ H2 HF).
  unfold prop.parseType. literal_tests.
  unfold try_except, bind, lift, ret, emit.
  rewrite (ErrorCodeType_is_bound enum), (ErrorType_is_unbound enum).
  destruct (unpack (STI32 constants) stream) as [v|e]; [|discriminate].
  unfold call_with_int, PyEnum.call.
  destruct (PyEnum.by_value Z.eqb (ErrorCodeType enum) v) as [m|] eqn:Hm;
    cbv beta iota zeta.
  - intros [= <- <-]. exists v, m.
    destruct (by_value_sound _ _ _ Hm) as [Hv Hin].
    repeat split; assumption.
  - simpl. discriminate.
Qed.

(** X13 (FloatingTime is not guarded).  For an entry of type 0x0007 listed
    as fixed, [createProp] returns the record whose value is
    [PYTPFLOATINGTIME_START + timedelta(days = x)] when that sum exists, and
    otherwise lets the exception of the sum out, with nothing logged: unlike
    type 0x0040, nothing catches it. *)
Theorem FloatingTime_sum_or_exception
    (string stream : bytes) (fl : Z) (x : spec_float) (l : log) :
  unpack (ST2 constants) string = Ok (0x0007, fl) ->
  unpack (STFIX constants) string = Ok stream ->
  unpack (STF64 constants) stream = Ok x ->
  In 0x0007 (FIXED_LENGTH_PROPS constants) ->
  match add_timedelta_days dt (PYTPFLOATINGTIME_START constants) x with
  | Ok d =>
      exists p, createProp string l = (Ok (IsFixedLengthProp p), l) /\
                value p = PyDatetime d
  | Raise e => createProp string l = (Raise e, l)
  end.
Proof.
  intros H2 HF Hx Hin. apply contains_In in Hin.
  unfold prop.createProp, bind, lift. rewrite H2, Hin. cbv beta iota zeta.
  rewrite (FixedLengthProp_init_eq dt constants utils olefile enum _ _ _ _ _ H2 HF).
  unfold prop.parseType. literal_tests.
  unfold bind, lift, ret. rewrite Hx.
  destruct (add_timedelta_days dt (PYTPFLOATINGTIME_START constants) x) as [d|e].
  - eexists. split; reflexivity.
  - reflexivity.
Qed.

Lemma grows_refl (n : nat) (l : log) : grows_by n l l.
Proof. exists []. split; [now rewrite app_nil_r | simpl; lia]. Qed.

Lemma grows_1 (n : nat) (l : log) (a : log_call) :
  (1 <= n)%nat -> grows_by n l (l ++ [a]).
Proof. intros H. exists [a]. split; [reflexivity | simpl; lia]. Qed.

Lemma grows_2 (n : nat) (l : log) (a b : log_call) :
  (2 <= n)%nat -> grows_by n l ((l ++ [a]) ++ [b]).
Proof.
  intros H. exists [a; b]. split; [now rewrite <- app_assoc | simpl; lia].
Qed.

Lemma grows_3 (n : nat) (l : log) (a b c : log_call) :
  (3 <= n)%nat -> grows_by n l (((l ++ [a]) ++ [b]) ++ [c]).
Proof.
  intros H. exists [a; b; c]. split; [now rewrite <- !app_assoc | simpl; lia].
Qed.

Ltac grows :=
  first [ apply grows_refl
        | apply grows_1; lia
        | apply grows_2; lia
        | apply grows_3; lia ].

Lemma parseType_log (self : PropBase) (ty : Z) (stream : bytes) (l : log) :
  grows_by 3 l (snd (parseType self ty stream l)).
Proof.
  unfold prop.parseType.
  rewrite (ErrorCodeType_is_bound enum), (ErrorType_is_unbound enum).
  unfold try_except, bind, lift, ret, emit, call_with_int, PyEnum.call.
  repeat match goal with
         | |- context [Z.eqb ty ?c] => destruct (Z.eqb ty c)
         end;
    cbv beta iota zeta;
    repeat match goal with
           | |- context [match ?x with _ => _ end] =>
               match type of x with
               | result _ => destruct x
               | option _ => destruct x
               | bool => destruct x
               end; cbv beta iota zeta
           end;
    simpl snd; grows.
Qed.

(** X14 (the log only grows).  Whatever the entry and whether [createProp]
    returns or raises, the log after the call is the log before it followed
    by at most three new lines: nothing logged earlier is lost or changed. *)
Theorem createProp_log_grows (string : bytes) (l : log) :
  exists added,
    snd (createProp string l) = l ++ added /\ (List.length added <= 3)%nat.
Proof.
  change (grows_by 3 l (snd (createProp string l))).
  unfold prop.createProp, bind, lift.
  destruct (unpack (ST2 constants) string) as [[ty fl]|e] eqn:H2; [|simpl; grows].
  destruct (contains (FIXED_LENGTH_PROPS constants) ty).
  - unfold prop.FixedLengthProp_init, bind.
    rewrite (PropBase_init_ok dt constants utils _ _ _ _ H2). unfold lift.
    destruct (unpack (STFIX constants) string) as [stream|e]; [|simpl; grows].
    pose proof (parseType_log (PropBase_of string ty fl)
                  (type (PropBase_of string ty fl)) stream l) as Hlog.
    destruct (parseType _ _ stream l) as [[v|e] l1]; exact Hlog.
  - unfold prop.VariableLengthProp_init, bind, emit, ret.
    destruct (negb (contains (VARIABLE_LENGTH_PROPS constants) ty));
      rewrite (PropBase_init_ok dt constants utils _ _ _ _ H2); unfold lift;
      destruct (unpack (STVAR constants) string) as [[len res]|e]; simpl; grows.
Qed.

End prop_more.
End prop_more.

(** ** More properties on concrete entries *)

Module examples_more.
Import prop prop_views oxmsg oxmsg_entries.

Lemma createProp_keeps_entry_witness :
  exists p,
    createProp dt constants utils olefile enum currency_entry [] = (Ok p, []) /\
    raw (base p) = currency_entry /\
    unpack (ST2 constants) currency_entry = Ok (type (base p), flags (base p)) /\
    (is_fixed p = true <-> In (type (base p)) (FIXED_LENGTH_PROPS constants)).
Proof.
  eexists. split; [reflexivity|].
  match goal with
  | |- raw (base ?P) = _ /\ _ =>
      exact (prop_more.createProp_keeps_entry dt constants utils olefile enum
               currency_entry [] [] P eq_refl)
  end.
Defined.

Lemma flag_properties_are_bits_witness :
  exists p,
    createProp dt constants utils olefile enum string8_entry [] = (Ok p, []) /\
    flags (base p) = 6 /\
    flagMandatory (base p) = false /\
    flagReadable (base p) = true /\
    flagWritable (base p) = true.
Proof.
  eexists. split; [reflexivity|]. split; [reflexivity|].
  match goal with
  | |- flagMandatory (base ?P) = _ /\ _ =>
      destruct (prop_more.flag_properties_are_bits dt constants utils olefile enum
                  string8_entry [] [] P eq_refl) as (Hm & Hr & Hw)
  end.
  rewrite Hm, Hr, Hw. repeat split.
Defined.

Lemma createProp_listed_variable_type_witness :
  unpack (ST2 constants) binary_entry = Ok (0x0102, 6) /\
  In 0x0102 (VARIABLE_LENGTH_PROPS constants) /\
  exists p,
    createProp dt constants utils olefile enum binary_entry [] =
      (Ok (IsVariableLengthProp p), []) /\
    VariableLengthProp_init dt constants utils binary_entry [] = (Ok p, []) /\
    length p = 5 /\ reservedFlags p = [x00; x00; x00; x00].
Proof.
  assert (In 0x0102 (VARIABLE_LENGTH_PROPS constants)) as Hin.
  { apply contains_In. reflexivity. }
  assert (~ In 0x0102 (FIXED_LENGTH_PROPS constants)) as Hnot.
  { apply contains_not_In. reflexivity. }
  split; [reflexivity|]. split; [exact Hin|].
  exact (prop_more.createProp_listed_variable_type dt constants utils olefile enum
           binary_entry 0x0102 6 5 [x00; x00; x00; x00] [] eq_refl eq_refl Hnot Hin).
Defined.

Lemma realLength_bounds_witness :
  unpack (STVAR constants) long_array_entry = Ok (10, [x00; x00; x00; x00]) /\
  exists p,
    VariableLengthProp_init dt constants utils long_array_entry [] = (Ok p, []) /\
    realLength p = Some 2 /\ 2 <= 10.
Proof.
  split; [reflexivity|].
  destruct (prop_more.realLength_bounds dt constants utils long_array_entry
              0x1003 6 10 [x00; x00; x00; x00] [] eq_refl eq_refl)
    as (p & Hrun & Hb).
  - discriminate.
  - exists p. split; [exact Hrun|].
    assert (realLength p = Some 2) as Hr.
    { vm_compute in Hrun. injection Hrun as <-. reflexivity. }
    split; [exact Hr | exact (proj1 (Hb 2 Hr))].
Defined.

Lemma realLength_None_iff_witness :
  unpack (ST2 constants) object_entry = Ok (0x000D, 6) /\
  exists p,
    VariableLengthProp_init dt constants utils object_entry [] = (Ok p, []) /\
    realLength p = None.
Proof.
  split; [reflexivity|].
  destruct (prop_more.realLength_None_iff dt constants utils object_entry
              0x000D 6 12 [x00; x00; x00; x00] [] eq_refl eq_refl)
    as (p & Hrun & Hiff).
  exists p. split; [exact Hrun|].
  apply Hiff. split; [reflexivity|].
  simpl. intros H. repeat (destruct H as [H|H]; [discriminate H|]). exact H.
Defined.

Lemma Null_value_and_warning_witness :
  unpack (ST2 constants) null_entry = Ok (0x0001, 6) /\
  exists p,
    FixedLengthProp_init dt constants utils olefile enum null_entry [] =
      (Ok p, [warning [Lit "Property type is PtypNull, but is not equal to 0."]]) /\
    value p = PyNone.
Proof.
  split; [reflexivity|].
  destruct (prop_more.Null_value_and_warning dt constants utils olefile enum
              null_entry [x00; x00; x00; x00; x01; x00; x00; x00] 6 []
              eq_refl eq_refl)
    as (p & l' & Hrun & Hval & [[Habs _] | [_ Hlog]]).
  - discriminate Habs.
  - exists p. subst l'. split; [exact Hrun | exact Hval].
Defined.

Lemma unconverted_types_keep_bytes_witness :
  unpack (ST2 constants) unspecified_entry = Ok (0x0000, 6) /\
  exists p,
    FixedLengthProp_init dt constants utils olefile enum unspecified_entry [] = (Ok p, []) /\
    value p = PyBytes [x11; x22; x33; x44; x55; x66; x77; x88] /\
    raw (fixed_base p) = unspecified_entry.
Proof.
  split; [reflexivity|].
  apply (prop_more.unconverted_types_keep_bytes dt constants utils olefile enum
           unspecified_entry [x11; x22; x33; x44; x55; x66; x77; x88] 0x0000 6 []
           eq_refl eq_refl).
  simpl. intros H. repeat (destruct H as [H|H]; [discriminate H|]). exact H.
Defined.

Lemma Time_value_or_log_witness :
  exists p l',
    FixedLengthProp_init dt constants utils olefile enum time_epoch_entry [] = (Ok p, l') /\
    ((exists d, value p = PyDatetime d /\ l' = []) \/
     (value p = PyBytes [x00; x80; x3e; xd5; xde; xb1; x9d; x01] /\
      exists e t,
        isinstance_Exception e = true /\
        l' = [] ++ [exception e;
                    error [Lit "Timestamp value of "; FFloat t;
                           Lit " caused an exception. This was probably caused by the time stamp being too far in the future."];
                    error [FBytes time_epoch_entry]])).
Proof.
  eexists. eexists. split; [reflexivity|].
  match goal with
  | |- (exists d, value ?P = _ /\ ?L = _) \/ _ =>
      exact (prop_more.Time_value_or_log dt constants utils olefile enum
               time_epoch_entry [x00; x80; x3e; xd5; xde; xb1; x9d; x01] 6 [] L P
               eq_refl eq_refl eq_refl)
  end.
Defined.

Lemma ErrorCode_value_is_member_witness :
  exists p,
    FixedLengthProp_init dt constants utils olefile enum errorcode_known_entry []
      = (Ok p, []) /\
    exists v m,
      unpack (STI32 constants) [x05; x40; x00; x80; x00; x00; x00; x00] = Ok v /\
      value p = PyMember m /\
      PyEnum.value m = v /\
      In (PyEnum.name m, v) (ErrorCodeType enum) /\
      ([] : log) = [].
Proof.
  eexists. split; [reflexivity|].
  match goal with
  | |- exists v m, _ /\ value ?P = _ /\ _ =>
      exact (prop_more.ErrorCode_value_is_member dt constants utils olefile enum
               errorcode_known_entry [x05; x40; x00; x80; x00; x00; x00; x00] 6 [] [] P
               eq_refl eq_refl eq_refl)
  end.
Defined.

Lemma FloatingTime_sum_or_exception_witness :
  unpack (STF64 constants) [x9c; x75; x00; x88; x3c; xe4; x37; x7e]
    = Ok (S754_finite false 6724873095247260 944) /\
  In 0x0007 (FIXED_LENGTH_PROPS constants) /\
  createProp dt constants utils olefile enum floatingtime_huge_entry []
    = (Raise OverflowError, []).
Proof.
  assert (In 0x0007 (FIXED_LENGTH_PROPS constants)) as Hin.
  { apply contains_In. reflexivity. }
  split; [vm_compute; reflexivity|]. split; [exact Hin|].
  exact (prop_more.FloatingTime_sum_or_exception dt constants utils olefile enum
           floatingtime_huge_entry [x9c; x75; x00; x88; x3c; xe4; x37; x7e] 6
           (S754_finite false 6724873095247260 944) []
           eq_refl eq_refl eq_refl Hin).
Defined.

End examples_more.

(** ** The documentation generator *)

Module docs_gen_facts.
Import docs_gen docs_gen_spec.

Section dict_facts.
Context {V : Type}.
Implicit Types (d : dict V) (k : string) (v : V).

Lemma get_set_same d k v : get (set d k v) k = Some v.
Proof.
  induction d as [|[k' v'] d IH]; simpl.
  - now rewrite String.eqb_refl.
  - destruct (String.eqb_spec k' k) as [->|Hne]; simpl.
    + now rewrite String.eqb_refl.
    + destruct (String.eqb_spec k' k); [contradiction | exact IH].
Qed.

Lemma get_set_other d k k' v : k' <> k -> get (set d k v) k' = get d k'.
Proof.
  intros Hne. induction d as [|[k0 v0] d IH]; simpl.
  - destruct (String.eqb_spec k k'); [congruence | reflexivity].
  - destruct (String.eqb_spec k0 k) as [->|Hk]; simpl.
    + destruct (String.eqb_spec k k'); [congruence | reflexivity].
    + destruct (String.eqb_spec k0 k'); [reflexivity | exact IH].
Qed.

Lemma get_In d k v : get d k = Some v -> In (k, v) d.
Proof.
  induction d as [|[k' v'] d IH]; simpl; [discriminate|].
  destruct (String.eqb_spec k' k) as [->|Hne].
  - intros [= ->]. now left.
  - intros H. right. now apply IH.
Qed.

Lemma In_keys_get d k : In k (keys d) -> exists v, get d k = Some v.
Proof.
  induction d as [|[k' v'] d IH]; simpl; [contradiction|].
  destruct (String.eqb_spec k' k) as [->|Hne].
  - intros _. now exists v'.
  - intros [Heq|Hin]; [contradiction | now apply IH].
Qed.

Lemma get_keys d k v : get d k = Some v -> In k (keys d).
Proof.
  intros H. apply get_In in H. change k with (fst (k, v)). now apply in_map.
Qed.

Lemma In_NoDup_get d k v : NoDup (keys d) -> In (k, v) d -> get d k = Some v.
Proof.
  induction d as [|[k' v'] d IH]; simpl; [contradiction|].
  intros Hnd Hin. inversion Hnd as [|? ? Hnot Hnd']; subst.
  destruct Hin as [[= -> ->]|Hin].
  - now rewrite String.eqb_refl.
  - destruct (String.eqb_spec k' k) as [->|Hne]; [|now apply IH].
    exfalso. apply Hnot. change k with (fst (k, v)). now apply in_map.
Qed.

Lemma In_set d k v k' v' :
  In (k', v') (set d k v) -> (k' = k /\ v' = v) \/ In (k', v') d.
Proof.
  induction d as [|[k0 v0] d IH]; simpl.
  - intros [[= <- <-]|[]]. now left.
  - destruct (String.eqb_spec k0 k) as [->|Hne]; simpl.
    + intros [[= <- <-]|Hin]; [now left | right; now right].
    + intros [Heq|Hin]; [right; now left|].
      destruct (IH Hin) as [H|H]; [now left | right; now right].
Qed.

Lemma keys_set d k v :
  keys (set d k v) = if has_key d k then keys d else keys d ++ [k].
Proof.
  unfold has_key. induction d as [|[k0 v0] d IH]; simpl; [reflexivity|].
  destruct (String.eqb_spec k0 k) as [->|Hne]; simpl; [reflexivity|].
  rewrite IH. now destruct (get d k).
Qed.

Lemma well_keyed_set d k v : well_keyed d -> well_keyed (set d k v).
Proof.
  unfold well_keyed. intros Hnd. rewrite keys_set. unfold has_key.
  destruct (get d k) eqn:E; [exact Hnd|].
  apply NoDup_app; [exact Hnd | repeat constructor; intros [] | ].
  intros a Ha [Heq|[]]. subst a.
  destruct (In_keys_get d k Ha) as [w Hw]. congruence.
Qed.

Lemma has_key_set d k k' v : has_key d k' = true -> has_key (set d k v) k' = true.
Proof.
  unfold has_key. destruct (String.eqb_spec k' k) as [->|Hne].
  - now rewrite get_set_same.
  - now rewrite get_set_other.
Qed.

End dict_facts.

(** *** [_makePackage] *)

Lemma select_items (name : string) (data items : dict bool) (want : bool) :
  (forall k b, In (k, b) items -> get data k = Some b) ->
  select name data (keys items) want =
    Ok (map (dotted name) (filter (fun kv => Bool.eqb (snd kv) want) items)).
Proof.
  induction items as [|[k b] items IH]; intros Hget; [reflexivity|].
  simpl. unfold getitem. rewrite (Hget k b (or_introl eq_refl)). simpl.
  rewrite IH by (intros k' b' Hin; apply Hget; now right). simpl.
  now destruct (Bool.eqb b want).
Qed.

(** X15 ([_makePackage] splits the entries).  For a dict of unique keys,
    [_makePackage] raises nothing and returns as [modules] the keys mapped to
    [False] and as [packages] the keys mapped to [True], each prefixed with
    the package name and a dot, in the order of the dict: every key lands in
    exactly one of the two lists. *)
Theorem makePackage_splits (name : string) (data : dict bool) :
  well_keyed data ->
  exists pkg,
    _makePackage name data = Ok pkg /\
    modules pkg = map (dotted name) (filter (fun kv => negb (snd kv)) data) /\
    packages pkg = map (dotted name) (filter (fun kv => snd kv) data) /\
    (List.length (modules pkg) + List.length (packages pkg) = List.length data)%nat.
Proof.
  intros Hnd. unfold _makePackage.
  rewrite !(select_items name data data)
    by (intros k b Hin; now apply In_NoDup_get).
  simpl. eexists. split; [reflexivity|]. simpl.
  assert (forall l : dict bool,
             filter (fun kv => Bool.eqb (snd kv) false) l
             = filter (fun kv => negb (snd kv)) l) as Hf.
  { intros l. apply filter_ext. now intros [k []]. }
  assert (forall l : dict bool,
             filter (fun kv => Bool.eqb (snd kv) true) l
             = filter (fun kv => snd kv) l) as Ht.
  { intros l. apply filter_ext. now intros [k []]. }
  rewrite Hf, Ht. split; [reflexivity|]. split; [reflexivity|].
  rewrite !length_map. clear.
  induction data as [|[k []] data IH]; simpl; lia.
Qed.

(** *** [_readProject] *)

Section readProject_facts.
Variable rootName : string.

(** What every turn of the loops keeps: unique keys, the key of the root,
    the files filed so far ([cdone]), and the origin of every entry
    ([sdone]). *)
Local Abbreviation inv cdone sdone ret :=
  (well_keyed ret /\ has_key ret rootName = true /\
   complete rootName cdone ret /\ sound rootName sdone ret).

Lemma ensure_inv (ret : dict (dict bool)) (path : string) (cdone sdone : list Path) :
  inv cdone sdone ret ->
  inv cdone sdone (ensure ret path) /\ exists d, get (ensure ret path) path = Some d.
Proof.
  intros (Hk & Hr & Hc & Hs). unfold ensure, has_key.
  destruct (get ret path) as [d|] eqn:E.
  - split; [now repeat split | now exists d].
  - split; [|exists []; apply get_set_same].
    split; [now apply well_keyed_set|].
    split; [now apply has_key_set|]. split.
    + intros x Hx Hv. destruct (Hc x Hx Hv) as (d & Hd & Hn).
      exists d. split; [|exact Hn]. rewrite get_set_other; [exact Hd|].
      intros Heq. rewrite Heq in Hd. congruence.
    + intros p d n b Hin Hn. apply In_set in Hin.
      destruct Hin as [[-> ->]|Hin]; [contradiction | now apply (Hs p d n b)].
Qed.

Lemma update_inv (ret : dict (dict bool)) (path : string) (d : dict bool)
    (n : string) (b : bool) (cdone sdone : list Path) (x : Path) :
  inv cdone sdone ret ->
  get ret path = Some d ->
  (b = true -> has_key d n = false) ->
  In x sdone -> visited x = true ->
  (if b then In n (parent_names x)
   else n = name x /\ path = package_path rootName x) ->
  inv cdone sdone (set ret path (set d n b)) /\
  (b = false -> recorded (set ret path (set d n b)) path n).
Proof.
  intros (Hk & Hr & Hc & Hs) Hd Hb Hx Hv Hor.
  split; [|intros ->; exists (set d n false); now rewrite !get_set_same].
  split; [now apply well_keyed_set|].
  split; [now apply has_key_set|]. split.
  - intros y Hy Hvy. destruct (Hc y Hy Hvy) as (d0 & Hd0 & Hn0).
    destruct (String.eqb_spec (package_path rootName y) path) as [Heq|Hne].
    + rewrite Heq in *. assert (d0 = d) as -> by congruence.
      exists (set d n b). split; [apply get_set_same|].
      destruct (String.eqb_spec (name y) n) as [Hn|Hn].
      * rewrite Hn in *. rewrite get_set_same.
        destruct b; [|reflexivity].
        specialize (Hb eq_refl). unfold has_key in Hb. now rewrite Hn0 in Hb.
      * now rewrite get_set_other.
    + exists d0. split; [now rewrite get_set_other | exact Hn0].
  - intros p d' n' b' Hin Hn'. apply In_set in Hin.
    destruct Hin as [[-> ->]|Hin]; [|now apply (Hs p d' n' b')].
    apply In_set in Hn'. destruct Hn' as [[-> ->]|Hn'].
    + exists x. now repeat split.
    + apply (Hs path d n' b'); [now apply get_In | exact Hn'].
Qed.

Lemma register_inv (parents : list string) (cdone sdone : list Path) (x : Path) :
  In x sdone -> visited x = true ->
  forall (names : list string) (index : nat) (ret : dict (dict bool)),
    Forall (fun n => In n (parent_names x)) names ->
    inv cdone sdone ret ->
    exists ret', register ret parents index names = Ok ret' /\ inv cdone sdone ret'.
Proof.
  intros Hx Hv names. induction names as [|n names IH]; intros index ret Hnames Hinv.
  - exists ret. now split.
  - inversion Hnames as [|? ? Hn Hrest]; subst. simpl register.
    destruct (ensure_inv ret (join "." (firstn (index + 1) parents)) cdone sdone Hinv)
      as [Hinv' [d Hd]].
    unfold getitem. rewrite Hd. simpl rbind.
    destruct (has_key d n) eqn:Hk.
    + now apply IH.
    + apply IH; [exact Hrest|].
      apply (update_inv _ _ d n true cdone sdone x Hinv' Hd); auto.
Qed.

Lemma sound_weaken (sdone : list Path) (x : Path) (ret : dict (dict bool)) :
  sound rootName sdone ret -> sound rootName (x :: sdone) ret.
Proof.
  intros Hs p d n b Hin Hn. destruct (Hs p d n b Hin Hn) as (y & Hy & H).
  exists y. split; [now right | exact H].
Qed.

Lemma visit_inv (done : list Path) (x : Path) (ret : dict (dict bool)) :
  inv done done ret ->
  exists ret', visit rootName ret x = Ok ret' /\ inv (x :: done) (x :: done) ret'.
Proof.
  intros (Hk & Hr & Hc & Hs).
  assert (inv done (x :: done) ret) as Hinv
    by (repeat split; try assumption; now apply sound_weaken).
  unfold visit.
  destruct (startswith (name x) "_") eqn:E1.
  { exists ret. split; [reflexivity|]. destruct Hinv as (? & ? & ? & ?).
    repeat split; try assumption.
    intros y [<-|Hy] Hv; [|now apply Hc].
    unfold visited in Hv. rewrite E1 in Hv. discriminate. }
  destruct (existsb (fun y => startswith y "_") (parent_names x)) eqn:E2.
  { exists ret. split; [reflexivity|]. destruct Hinv as (? & ? & ? & ?).
    repeat split; try assumption.
    intros y [<-|Hy] Hv; [|now apply Hc].
    unfold visited in Hv. rewrite E1, E2 in Hv. discriminate. }
  assert (visited x = true) as Hv by (unfold visited; now rewrite E1, E2).
  assert (In x (x :: done)) as Hx by now left.
  assert (Forall (fun n => In n (parent_names x))
                 (tl (rev (parent_names x ++ [rootName])))) as Hnames.
  { rewrite rev_app_distr. simpl. apply Forall_forall. intros n Hn.
    now apply in_rev. }
  destruct (register_inv (rev (parent_names x ++ [rootName])) done (x :: done) x
              Hx Hv _ 0%nat ret Hnames Hinv) as (ret1 & Hreg & Hinv1).
  rewrite Hreg. simpl rbind.
  destruct (ensure_inv ret1 (join "." (rev (parent_names x ++ [rootName])))
              done (x :: done) Hinv1) as [Hinv2 [d Hd]].
  unfold getitem. rewrite Hd. simpl rbind.
  eexists. split; [reflexivity|].
  destruct (update_inv _ _ d (name x) false done (x :: done) x Hinv2 Hd)
    as [(Hk3 & Hr3 & Hc3 & Hs3) Hrec]; auto; [discriminate|].
  repeat split; try assumption.
  intros y [<-|Hy] Hvy; [now apply Hrec | now apply Hc3].
Qed.

Lemma visit_all_inv (glob done : list Path) (ret : dict (dict bool)) :
  inv done done ret ->
  exists ret', visit_all rootName ret glob = Ok ret' /\
               inv (rev glob ++ done) (rev glob ++ done) ret'.
Proof.
  revert done ret. induction glob as [|x glob IH]; intros done ret Hinv.
  - exists ret. now split.
  - simpl visit_all. destruct (visit_inv done x ret Hinv) as (ret1 & Hv & Hinv1).
    rewrite Hv. simpl rbind.
    destruct (IH (x :: done) ret1 Hinv1) as (ret2 & Hall & Hinv2).
    exists ret2. split; [exact Hall|].
    simpl rev. now rewrite <- app_assoc.
Qed.

Lemma readProject_inv (glob : list Path) :
  exists ret, _readProject rootName glob = Ok ret /\ inv glob glob ret.
Proof.
  unfold _readProject.
  destruct (visit_all_inv glob [] [(rootName, [])]) as (ret & Hrun & Hk & Hr & Hc & Hs).
  - split; [repeat constructor; intros []|].
    split; [unfold has_key; simpl; now rewrite String.eqb_refl|].
    split; [intros x []|].
    intros p d n b [[= <- <-]|[]] [].
  - exists ret. split; [exact Hrun|]. rewrite app_nil_r in *.
    split; [exact Hk|]. split; [exact Hr|]. split.
    + intros x Hx. apply Hc. now apply -> in_rev.
    + intros p d n b Hin Hn. destruct (Hs p d n b Hin Hn) as (x & Hx & H).
      exists x. split; [now apply in_rev | exact H].
Qed.

(** X16 ([_readProject] files every Python file it does not skip).
    [_readProject] raises nothing.  The dict it returns has unique keys, has
    the key of the root even when the glob is empty, and for every path of
    the glob whose name and parents do not start with an underscore, holds
    [False] under the file name in the dict of the dotted path of its
    package. *)
Theorem readProject_files_every_module (glob : list Path) :
  exists ret,
    _readProject rootName glob = Ok ret /\
    NoDup (keys ret) /\
    has_key ret rootName = true /\
    forall x, In x glob -> visited x = true ->
      exists d, get ret (package_path rootName x) = Some d /\
                get d (name x) = Some false.
Proof.
  destruct (readProject_inv glob) as (ret & Hrun & Hk & Hr & Hc & _).
  exists ret. repeat split; assumption.
Qed.

(** X17 ([_readProject] lists nothing else).  Every entry of the returned
    dict comes from a path of the glob that was not skipped: an entry
    [False] is the name of such a file, under the dotted path of its
    package, and an entry [True] is the name of a parent of one.  So no
    entry name starts with an underscore. *)
Theorem readProject_lists_only_visited (glob : list Path) :
  exists ret,
    _readProject rootName glob = Ok ret /\
    forall p d n (b : bool), In (p, d) ret -> In (n, b) d ->
      (exists x, In x glob /\ visited x = true /\
                 if b then In n (parent_names x)
                 else n = name x /\ p = package_path rootName x) /\
      startswith n "_" = false.
Proof.
  destruct (readProject_inv glob) as (ret & Hrun & _ & _ & _ & Hs).
  exists ret. split; [exact Hrun|]. intros p d n b Hin Hn.
  destruct (Hs p d n b Hin Hn) as (x & Hx & Hv & H).
  split; [now exists x|].
  unfold visited in Hv. apply andb_true_iff in Hv. destruct Hv as [Hv1 Hv2].
  apply negb_true_iff in Hv1, Hv2. destruct b.
  - destruct (startswith n "_") eqn:E; [|reflexivity].
    assert (existsb (fun y => startswith y "_") (parent_names x) = true) as Hex.
    { apply existsb_exists. now exists n. }
    congruence.
  - destruct H as [-> _]. exact Hv1.
Qed.

(** *** [readProject] *)

Lemma select_total (name : string) (data : dict bool) (want : bool) (ks : list string) :
  (forall k, In k ks -> exists b, get data k = Some b) ->
  exists l,
    select name data ks want = Ok l /\
    forall n, In n ks -> get data n = Some want -> In (name ++ "." ++ n)%string l.
Proof.
  induction ks as [|k ks IH]; intros Hks.
  - exists []. split; [reflexivity | intros n []].
  - destruct (Hks k (or_introl eq_refl)) as [b Hb].
    destruct IH as (l & Hl & Hin); [intros k' Hk'; apply Hks; now right|].
    simpl. unfold getitem. rewrite Hb. simpl. rewrite Hl. simpl.
    eexists. split; [reflexivity|].
    intros n [<-|Hn] Hw.
    + assert (b = want) as -> by congruence. rewrite Bool.eqb_reflx. now left.
    + destruct (Bool.eqb b want); [right|]; now apply Hin.
Qed.

Lemma makePackage_total (name : string) (data : dict bool) :
  exists pkg,
    _makePackage name data = Ok pkg /\
    (forall n, get data n = Some false -> In (name ++ "." ++ n)%string (modules pkg)) /\
    (forall n, get data n = Some true -> In (name ++ "." ++ n)%string (packages pkg)).
Proof.
  unfold _makePackage.
  destruct (select_total name data false (keys data)) as (ms & Hms & Hm);
    [apply In_keys_get|].
  destruct (select_total name data true (keys data)) as (ps & Hps & Hp);
    [apply In_keys_get|].
  rewrite Hms, Hps. simpl. eexists. split; [reflexivity|]. simpl. split.
  - intros n Hn. apply Hm; [now apply (get_keys data n false) | exact Hn].
  - intros n Hn. apply Hp; [now apply (get_keys data n true) | exact Hn].
Qed.

Lemma packages_of_total (items : list (string * dict bool)) (acc : dict Package) :
  exists proj,
    packages_of acc items = Ok proj /\
    (forall k, ~ In k (keys items) -> get proj k = get acc k) /\
    (NoDup (keys items) ->
     forall k y, In (k, y) items ->
       exists pkg, get proj k = Some pkg /\ _makePackage k y = Ok pkg).
Proof.
  revert acc. induction items as [|[x y] items IH]; intros acc.
  - exists acc. split; [reflexivity|]. split; [reflexivity | intros _ k y' []].
  - simpl packages_of.
    destruct (makePackage_total x y) as (p & Hp & _). rewrite Hp. simpl rbind.
    destruct (IH (set acc x p)) as (proj & Hrun & Hout & Hin).
    exists proj. split; [exact Hrun|]. split.
    + intros k Hk. simpl in Hk. rewrite Hout by tauto.
      apply get_set_other. intros ->. tauto.
    + intros Hnd k y' Hky. inversion Hnd as [|? ? Hnot Hnd']; subst.
      destruct Hky as [[= -> ->]|Hky]; [|now apply Hin].
      exists p. split; [|exact Hp].
      rewrite Hout by exact Hnot. apply get_set_same.
Qed.

(** X18 ([readProject] lists every module).  [readProject] raises nothing,
    and for every path of the glob that is not skipped, the package filed
    under the dotted path of its parents lists, among its [modules], that
    path followed by a dot and the file name. *)
Theorem readProject_lists_every_module (glob : list Path) :
  exists project,
    readProject rootName glob = Ok project /\
    forall x, In x glob -> visited x = true ->
      exists pkg,
        get project (package_path rootName x) = Some pkg /\
        In (package_path rootName x ++ "." ++ name x)%string (modules pkg).
Proof.
  unfold readProject.
  destruct (readProject_inv glob) as (ret & Hrun & Hk & _ & Hc & _).
  rewrite Hrun. simpl rbind.
  destruct (packages_of_total ret []) as (proj & Hproj & _ & Hin).
  exists proj. split; [exact Hproj|]. intros x Hx Hv.
  destruct (Hc x Hx Hv) as (d & Hd & Hn).
  destruct (Hin Hk _ d (get_In _ _ _ Hd)) as (pkg & Hget & Hmk).
  exists pkg. split; [exact Hget|].
  destruct (makePackage_total (package_path rootName x) d) as (pkg' & Hmk' & Hm & _).
  assert (pkg' = pkg) as -> by congruence.
  now apply Hm.
Qed.

End readProject_facts.

End docs_gen_facts.

(** ** The whole header of a meeting forward notification *)

Module meeting_forward_more.
Import meeting_forward.

Section meeting_forward_more.
Variable dt : datetime_module.

(** X19 (layout of the header).  Whenever [headerFormatProperties] returns,
    the header has the same five sections with the same keys in the same
    order; [Start] and [End] are [None] exactly when the object has no start
    or end date; and the [Recurrance] entry is one of the four texts
    [(none)], [Daily], [Weekly], [Monthly], never [None]. *)
Theorem header_layout (self : MeetingForwardNotification dt) (h : HEADER_FORMAT_TYPE) :
  headerFormatProperties self = Ok h ->
  map (fun s => (fst s, map fst (snd s))) h =
    [ ("-main info-", ["Subject"; "Location"]);
      ("-date-", ["Start"; "End"]);
      ("-recurrence-", ["Recurrance"; "Recurrence Pattern"]);
      ("-attendees-",
       ["Organizer"; "Required Attendees"; "Optional Attendees"; "Resources"]);
      ("-importance-", ["Importance"]) ] /\
  (header_field h "-date-" "Start" = Some None <-> startDate self = None) /\
  (header_field h "-date-" "End" = Some None <-> endDate self = None) /\
  (exists recur,
      header_field h "-recurrence-" "Recurrance" = Some (Some recur) /\
      In recur ["(none)"; "Daily"; "Weekly"; "Monthly"]) /\
  header_field h "-main info-" "Subject" = Some (subject self).
Proof.
  unfold headerFormatProperties.
  destruct (recur_string self) as [recur|e] eqn:Hr; [|discriminate].
  intros [= <-]. split; [reflexivity|].
  split; [|split; [|split; [|reflexivity]]].
  - unfold header_field; simpl. unfold format_date.
    destruct (startDate self); split; intros H; try discriminate; reflexivity.
  - unfold header_field; simpl. unfold format_date.
    destruct (endDate self); split; intros H; try discriminate; reflexivity.
  - exists recur. split; [reflexivity|].
    unfold recur_string in Hr.
    destruct (appointmentRecur self) as [[pt]|].
    + destruct pt; simpl in Hr; try discriminate;
        injection Hr as <-; simpl; tauto.
    + injection Hr as <-. now left.
Qed.

End meeting_forward_more.
End meeting_forward_more.

(** ** The generator on a small tree, and the header of a weekly meeting *)

Module examples_gen.
Import docs_gen docs_gen_spec docs_gen_examples.

Lemma makePackage_splits_witness :
  well_keyed sample_data /\
  exists pkg,
    _makePackage "extract_msg" sample_data = Ok pkg /\
    modules pkg = ["extract_msg.enums.py"; "extract_msg.prop.py"] /\
    packages pkg = ["extract_msg.msg_classes"].
Proof.
  assert (well_keyed sample_data) as Hk.
  { repeat constructor; simpl; intros H;
      repeat (destruct H as [H|H]; [discriminate H|]); exact H. }
  split; [exact Hk|].
  destruct (docs_gen_facts.makePackage_splits "extract_msg" sample_data Hk)
    as (pkg & Hrun & Hm & Hp & _).
  exists pkg. split; [exact Hrun|]. rewrite Hm, Hp. split; reflexivity.
Defined.

Lemma readProject_files_every_module_witness :
  exists ret d,
    _readProject "extract_msg" sample_glob = Ok ret /\
    get ret "extract_msg.msg_classes" = Some d /\
    get d "meeting_forward.py" = Some false.
Proof.
  destruct (docs_gen_facts.readProject_files_every_module "extract_msg" sample_glob)
    as (ret & Hrun & _ & _ & Hall).
  destruct (Hall {| name := "meeting_forward.py"; parent_names := ["msg_classes"] |})
    as (d & Hd & Hn).
  - right. right. right. now left.
  - reflexivity.
  - exists ret, d. repeat split; assumption.
Defined.

Lemma readProject_lists_only_visited_witness :
  exists ret,
    _readProject "extract_msg" sample_glob = Ok ret /\
    In ("extract_msg", [("enums.py", false); ("prop.py", false); ("msg_classes", true)])
       ret /\
    startswith "msg_classes" "_" = false.
Proof.
  destruct (docs_gen_facts.readProject_lists_only_visited "extract_msg" sample_glob)
    as (ret & Hrun & Hall).
  exists ret. split; [exact Hrun|].
  assert (In ("extract_msg",
              [("enums.py", false); ("prop.py", false); ("msg_classes", true)]) ret)
    as Hin.
  { vm_compute in Hrun. injection Hrun as <-. now left. }
  split; [exact Hin|].
  refine (proj2 (Hall _ _ "msg_classes" true Hin _)).
  right. right. now left.
Defined.

Lemma readProject_lists_every_module_witness :
  exists project pkg,
    readProject "extract_msg" sample_glob = Ok project /\
    get project "extract_msg.msg_classes" = Some pkg /\
    In "extract_msg.msg_classes.meeting_forward.py" (modules pkg).
Proof.
  destruct (docs_gen_facts.readProject_lists_every_module "extract_msg" sample_glob)
    as (project & Hrun & Hall).
  destruct (Hall {| name := "meeting_forward.py"; parent_names := ["msg_classes"] |})
    as (pkg & Hget & Hin).
  - right. right. right. now left.
  - reflexivity.
  - exists project, pkg. repeat split; assumption.
Defined.

Lemma header_layout_witness :
  exists h,
    meeting_forward.headerFormatProperties oxmsg.weekly_forward = Ok h /\
    meeting_forward.header_field h "-date-" "Start" = Some None /\
    meeting_forward.header_field h "-main info-" "Subject" = Some (Some "Stand-up").
Proof.
  eexists. split; [reflexivity|].
  match goal with
  | |- meeting_forward.header_field ?H _ _ = _ /\ _ =>
      destruct (meeting_forward_more.header_layout oxmsg.dt oxmsg.weekly_forward H eq_refl)
        as (_ & Hstart & _ & _ & Hsubj)
  end.
  split; [apply Hstart; reflexivity | exact Hsubj].
Defined.

End examples_gen.

(** ** The files of the documentation generator *)

Module docs_gen_io_facts.
Import docs_gen docs_gen_spec docs_gen_io docs_gen_io_spec docs_gen_facts.

(** *** Text *)

Lemma append_assoc (a b c : string) : ((a ++ b) ++ c = a ++ (b ++ c))%string.
Proof. induction a as [|x a IH]; simpl; [reflexivity | now rewrite IH]. Qed.

Lemma append_nil_r (a : string) : (a ++ "" = a)%string.
Proof. induction a as [|x a IH]; simpl; [reflexivity | now rewrite IH]. Qed.

Lemma chars_append (a b : string) :
  list_ascii_of_string (a ++ b) = list_ascii_of_string a ++ list_ascii_of_string b.
Proof. induction a as [|x a IH]; simpl; [reflexivity | now rewrite IH]. Qed.

Lemma chars_inj (a b : string) :
  list_ascii_of_string a = list_ascii_of_string b -> a = b.
Proof.
  intros H. rewrite <- (string_of_list_ascii_of_string a),
              <- (string_of_list_ascii_of_string b). now rewrite H.
Qed.

Lemma append_inv_tail (a b t : string) : (a ++ t = b ++ t)%string -> a = b.
Proof.
  intros H. apply chars_inj. apply (f_equal list_ascii_of_string) in H.
  rewrite !chars_append in H. now apply app_inv_tail in H.
Qed.

Lemma concat_cons (x : string) (l : list string) :
  String.concat "" (x :: l) = (x ++ String.concat "" l)%string.
Proof. destruct l; simpl; [now rewrite append_nil_r | reflexivity]. Qed.

Lemma join_cons (sep x y : string) (l : list string) :
  join sep (x :: y :: l) = (x ++ sep ++ join sep (y :: l))%string.
Proof. reflexivity. Qed.

Lemma occurs_in_concat (c : string) (l : list string) :
  In c l -> occurs_in c (String.concat "" l).
Proof.
  induction l as [|x l IH]; [contradiction|]. rewrite concat_cons.
  intros [->|Hin].
  - exists ""%string, (String.concat "" l). reflexivity.
  - destruct (IH Hin) as (before & after & Heq).
    exists (x ++ before)%string, after. now rewrite Heq, append_assoc.
Qed.

(** *** Reading the list back *)

Lemma file_lines_app (s cur rest : list ascii) :
  Forall (fun c => Ascii.eqb c LF = false /\ Ascii.eqb c CR = false) s ->
  file_lines cur (s ++ rest) = file_lines (rev s ++ cur) rest.
Proof.
  revert cur. induction s as [|c s IH]; intros cur Hs; [reflexivity|].
  inversion Hs as [|? ? [Hlf Hcr] Hs']; subst.
  simpl app. simpl file_lines. rewrite Hlf, Hcr. rewrite (IH (c :: cur) Hs').
  simpl rev. now rewrite <- app_assoc.
Qed.

Lemma rstrip_line (s : list ascii) : rstrip (s ++ [LF]) = rstrip s.
Proof. unfold rstrip. rewrite rev_app_distr. reflexivity. Qed.

Lemma strip_line (f : string) :
  strip f = f ->
  strip (string_of_list_ascii (list_ascii_of_string f ++ [LF])) = f.
Proof.
  intros Hf. unfold strip. rewrite list_ascii_of_string_of_list_ascii.
  rewrite rstrip_line. exact Hf.
Qed.

Lemma chars_nonempty (f : string) : f <> ""%string -> list_ascii_of_string f <> [].
Proof. destruct f; [congruence | discriminate]. Qed.

Lemma file_lines_end (cur : list ascii) : cur <> [] -> file_lines cur [] = [rev cur].
Proof. destruct cur; [congruence | reflexivity]. Qed.

Lemma rev_nonempty {A} (l : list A) : l <> [] -> rev l <> [].
Proof.
  destruct l as [|x l]; [congruence|]. simpl. intros _ H.
  apply app_eq_nil in H. destruct H as [_ H]. discriminate H.
Qed.

Lemma chars_join_cons (f g : string) (l : list string) :
  list_ascii_of_string (join nl (f :: g :: l))
  = list_ascii_of_string f ++ LF :: list_ascii_of_string (join nl (g :: l)).
Proof. rewrite join_cons, chars_append. reflexivity. Qed.

Lemma file_lines_line (cur s : list ascii) :
  file_lines cur (LF :: s) = rev (LF :: cur) :: file_lines [] s.
Proof. reflexivity. Qed.

Lemma read_back (names : list string) :
  Forall plain_name names ->
  map (fun x => strip (string_of_list_ascii x))
      (filter (fun x => negb (Nat.eqb (List.length x) 0))
              (file_lines [] (list_ascii_of_string (join nl names))))
  = names.
Proof.
  induction names as [|f names IH]; intros Hall; [reflexivity|].
  inversion Hall as [|? ? (Hne & Hnl & Hstrip) Hrest]; subst.
  pose proof (chars_nonempty f Hne) as Hchars.
  destruct names as [|g names].
  - simpl join. rewrite <- (app_nil_r (list_ascii_of_string f)).
    rewrite (file_lines_app _ [] [] Hnl). rewrite app_nil_r.
    rewrite file_lines_end by (now apply rev_nonempty).
    rewrite rev_involutive. simpl filter.
    replace (Nat.eqb (List.length (list_ascii_of_string f)) 0) with false
      by (symmetry; apply Nat.eqb_neq; destruct (list_ascii_of_string f);
          [congruence | discriminate]).
    simpl. now rewrite string_of_list_ascii_of_string, Hstrip.
  - rewrite chars_join_cons.
    rewrite (file_lines_app _ [] _ Hnl). rewrite app_nil_r.
    rewrite file_lines_line. cbn [rev]. rewrite rev_involutive.
    cbn [filter].
    replace (Nat.eqb (List.length (list_ascii_of_string f ++ [LF])) 0) with false
      by (rewrite length_app; simpl; symmetry; apply Nat.eqb_neq; lia).
    cbn [negb map]. rewrite (strip_line f Hstrip). f_equal. exact (IH Hrest).
Qed.

(** X20 (the list of generated files is read back as written).  After
    [writeAutoGenerated] of names that are not empty, hold no line end, and
    have no white space at either end, [getAutoGenerated] returns the same
    names in the same order, whatever the directory held before. *)
Theorem autogen_roundtrip (fs : files) (names : list string) :
  Forall plain_name names ->
  getAutoGenerated (writeAutoGenerated fs names) = Ok names.
Proof.
  intros Hall. unfold getAutoGenerated, writeAutoGenerated.
  rewrite get_set_same. now rewrite (read_back names Hall).
Qed.

(** *** [generateFile] *)

Lemma generateFile_other (fs : files) (name f : string) (package : Package) :
  f <> (name ++ ".rst")%string -> get (generateFile fs name package) f = get fs f.
Proof. intros H. unfold generateFile. now apply get_set_other. Qed.

(** X21 ([generateFile] documents the package and each of its modules).
    The file [name + '.rst'] holds, after [generateFile], the directive
    [.. automodule:: name] and, for every module the package lists, the
    directive [.. automodule:: ] with the module name without its [.py];
    no other file of the directory changes. *)
Theorem generateFile_documents (fs : files) (name : string) (package : Package) :
  (exists text,
      get (generateFile fs name package) (name ++ ".rst")%string = Some text /\
      occurs_in (".. automodule:: " ++ name ++ nl)%string text /\
      forall m, In m (modules package) ->
                occurs_in (".. automodule:: " ++ stem m ++ nl)%string text) /\
  (forall f, f <> (name ++ ".rst")%string ->
             get (generateFile fs name package) f = get fs f).
Proof.
  split; [|intros f; apply generateFile_other].
  unfold generateFile. rewrite get_set_same. eexists. split; [reflexivity|].
  split.
  - apply occurs_in_concat. unfold generateFile_writes.
    apply in_or_app. right. apply in_or_app. right. apply in_or_app. right.
    right. now left.
  - intros m Hm. apply occurs_in_concat. unfold generateFile_writes.
    apply in_or_app. right. apply in_or_app. right. apply in_or_app. left.
    destruct (modules package) as [|m0 ms] eqn:Hms; [contradiction|].
    right. apply in_flat_map. exists m. split; [exact Hm|].
    unfold module_writes, stem. right. now left.
Qed.

(** *** [run] *)

Lemma get_delete_other {V} (d : dict V) (k k' : string) :
  k' <> k -> get (delete d k) k' = get d k'.
Proof.
  intros Hne. induction d as [|[k0 v0] d IH]; simpl; [reflexivity|].
  destruct (String.eqb_spec k0 k) as [->|Hk]; simpl.
  - destruct (String.eqb_spec k k'); [congruence | reflexivity].
  - destruct (String.eqb_spec k0 k'); [reflexivity | exact IH].
Qed.

Lemma remove_all_ok (names : list string) (fs : files) :
  NoDup names ->
  Forall (fun x => has_key fs x = true) names ->
  exists fs',
    remove_all fs names = Ok fs' /\
    forall k, ~ In k names -> get fs' k = get fs k.
Proof.
  revert fs. induction names as [|x names IH]; intros fs Hnd Hall.
  - exists fs. split; [reflexivity | reflexivity].
  - inversion Hnd as [|? ? Hnot Hnd']; subst.
    inversion Hall as [|? ? Hx Hrest]; subst.
    simpl remove_all. unfold os_remove. rewrite Hx. simpl rbind.
    destruct (IH (delete fs x) Hnd') as (fs' & Hrun & Hget).
    + apply Forall_forall. intros y Hy.
      rewrite Forall_forall in Hrest. specialize (Hrest y Hy).
      unfold has_key in *. rewrite get_delete_other; [exact Hrest|].
      intros ->. contradiction.
    + exists fs'. split; [exact Hrun|]. intros k Hk. simpl in Hk.
      rewrite Hget by tauto. apply get_delete_other. intros ->. tauto.
Qed.

Lemma packages_of_keys (items : list (string * dict bool)) (acc proj : dict Package) :
  packages_of acc items = Ok proj ->
  NoDup (keys acc ++ keys items) ->
  keys proj = keys acc ++ keys items.
Proof.
  revert acc. induction items as [|[x y] items IH]; intros acc Hrun Hnd.
  - simpl in *. injection Hrun as <-. now rewrite app_nil_r.
  - simpl packages_of in Hrun.
    destruct (_makePackage x y) as [p|e]; [|discriminate]. simpl rbind in Hrun.
    assert (has_key acc x = false) as Hx.
    { unfold has_key. destruct (get acc x) as [v|] eqn:E; [|reflexivity].
      exfalso. apply get_keys in E. apply NoDup_remove_2 in Hnd.
      apply Hnd. apply in_or_app. now left. }
    assert (keys (set acc x p) = keys acc ++ [x]) as Hk
      by (rewrite keys_set; now rewrite Hx).
    rewrite (IH (set acc x p) Hrun); rewrite Hk, <- app_assoc; [reflexivity|].
    exact Hnd.
Qed.

Lemma generate_all_spec (items : list (string * Package)) (fs : files) :
  NoDup (keys items) ->
  (forall k pkg, In (k, pkg) items ->
     get (generate_all fs items) (k ++ ".rst")%string
     = Some (String.concat "" (generateFile_writes k pkg))) /\
  (forall f, (forall k, In k (keys items) -> f <> (k ++ ".rst")%string) ->
     get (generate_all fs items) f = get fs f).
Proof.
  revert fs. induction items as [|[x y] items IH]; intros fs Hnd.
  - split; [intros k pkg [] | reflexivity].
  - inversion Hnd as [|? ? Hnot Hnd']; subst. simpl generate_all.
    destruct (IH (generateFile fs x y) Hnd') as [Hin Hout]. split.
    + intros k pkg [[= -> ->]|Hk]; [|now apply Hin].
      rewrite Hout.
      * unfold generateFile. apply get_set_same.
      * intros k' Hk' Heq. apply append_inv_tail in Heq. now subst.
    + intros f Hf. rewrite Hout.
      * apply generateFile_other. apply Hf. now left.
      * intros k Hk. apply Hf. now right.
Qed.

Lemma rst_not_autogen (k : string) : (k ++ ".rst")%string <> autogen.
Proof.
  intros H. apply (f_equal list_ascii_of_string) in H. rewrite chars_append in H.
  apply (f_equal (@rev ascii)) in H. rewrite rev_app_distr in H.
  simpl in H. discriminate H.
Qed.

(** The module of a path that is not skipped, in the project. *)
Lemma project_module (glob : list Path) (ret : dict (dict bool))
    (project : dict Package) (x : Path) :
  _readProject "extract_msg" glob = Ok ret ->
  readProject "extract_msg" glob = Ok project ->
  In x glob -> visited x = true ->
  exists pkg,
    get project (package_path "extract_msg" x) = Some pkg /\
    In (package_path "extract_msg" x ++ "." ++ name x)%string (modules pkg).
Proof.
  intros Hret Hproj Hx Hv.
  destruct (readProject_inv "extract_msg" glob) as (ret' & Hret' & Hk & _ & Hc & _).
  assert (ret' = ret) as -> by congruence.
  unfold readProject in Hproj. rewrite Hret in Hproj. cbn [rbind] in Hproj.
  destruct (packages_of_total ret []) as (proj & Hrun & _ & Hin).
  assert (proj = project) as -> by congruence.
  destruct (Hc x Hx Hv) as (d & Hd & Hn).
  destruct (Hin Hk _ d (get_In _ _ _ Hd)) as (pkg & Hget & Hmk).
  exists pkg. split; [exact Hget|].
  destruct (makePackage_total (package_path "extract_msg" x) d) as (pkg' & Hmk' & Hm & _).
  assert (pkg' = pkg) as -> by congruence.
  now apply Hm.
Qed.

(** What [run] leaves, in terms of the project it read. *)
Lemma run_spec (fs : files) (glob : list Path) :
  runnable fs ->
  exists fs1 fs' ret project,
    run fs glob = Ok fs' /\
    _readProject "extract_msg" glob = Ok ret /\
    readProject "extract_msg" glob = Ok project /\
    keys project = keys ret /\
    NoDup (keys project) /\
    fs' = writeAutoGenerated (generate_all fs1 project)
            (map (fun x => (x ++ ".rst")%string) (keys project)).
Proof.
  intros (old & Hold & Hnd & Hall).
  destruct (remove_all_ok old fs Hnd Hall) as (fs1 & Hrm & _).
  destruct (readProject_inv "extract_msg" glob) as (ret & Hret & Hk & _).
  destruct (packages_of_total ret []) as (project & Hproj & _).
  assert (keys project = keys ret) as Hkeys.
  { apply (packages_of_keys ret [] project Hproj). exact Hk. }
  exists fs1. eexists. exists ret, project.
  unfold run. rewrite Hold. simpl rbind. rewrite Hrm. simpl rbind.
  unfold readProject. rewrite Hret. simpl rbind. rewrite Hproj. simpl rbind.
  split; [reflexivity|]. split; [reflexivity|]. split; [reflexivity|].
  split; [exact Hkeys|]. split; [rewrite Hkeys; exact Hk | reflexivity].
Qed.

(** X22 ([run] writes the pages and lists them).  From a directory in
    which the old list can be read and every file it lists once is there,
    [run] raises nothing; afterwards [_autogen.txt] holds the names
    [key + '.rst'] of the packages of the project, one per line, and for
    every path of the glob that is not skipped the page of its package is
    there and holds the [automodule] directive of the module, named by the
    dotted path and the file name without [.py]. *)
Theorem run_generates (fs : files) (glob : list Path) :
  runnable fs ->
  exists fs' project,
    run fs glob = Ok fs' /\
    readProject "extract_msg" glob = Ok project /\
    get fs' autogen
      = Some (join nl (map (fun x => (x ++ ".rst")%string) (keys project))) /\
    forall x, In x glob -> visited x = true ->
      exists text,
        get fs' (package_path "extract_msg" x ++ ".rst")%string = Some text /\
        occurs_in (".. automodule:: "
                   ++ stem (package_path "extract_msg" x ++ "." ++ name x) ++ nl)%string
                  text.
Proof.
  intros Hrun.
  destruct (run_spec fs glob Hrun)
    as (fs1 & fs' & ret & project & Hr & Hret & Hproj & _ & Hnd & ->).
  eexists. exists project. split; [exact Hr|]. split; [exact Hproj|].
  split; [unfold writeAutoGenerated; apply get_set_same|].
  intros x Hx Hv.
  destruct (project_module glob ret project x Hret Hproj Hx Hv) as (pkg & Hget & Hin).
  destruct (generate_all_spec project fs1 Hnd) as [Hgen _].
  unfold writeAutoGenerated. rewrite get_set_other by apply rst_not_autogen.
  rewrite (Hgen _ pkg (get_In _ _ _ Hget)).
  eexists. split; [reflexivity|].
  apply occurs_in_concat. unfold generateFile_writes.
  apply in_or_app. right. apply in_or_app. right. apply in_or_app. left.
  destruct (modules pkg) as [|m0 ms] eqn:Hms; [contradiction|].
  right. apply in_flat_map.
  exists (package_path "extract_msg" x ++ "." ++ name x)%string.
  split; [exact Hin|]. unfold module_writes, stem. right. now left.
Qed.

(** *** Running again *)

Section keys.
Variable rootName : string.

Local Abbreviation keys_ok done ret :=
  (forall p, In p (keys ret) -> key_shape rootName done p).

Lemma key_shape_weaken (done : list Path) (x : Path) (p : string) :
  key_shape rootName done p -> key_shape rootName (x :: done) p.
Proof.
  intros (ds & Hp & Hds). exists ds. split; [exact Hp|].
  intros n Hn. destruct (Hds n Hn) as (y & Hy & H). exists y. split; [now right | exact H].
Qed.

Lemma keys_ensure (ret : dict (dict bool)) (path p : string) :
  In p (keys (ensure ret path)) -> In p (keys ret) \/ p = path.
Proof.
  unfold ensure. destruct (has_key ret path) eqn:E; [now left|].
  rewrite keys_set, E. intros H. apply in_app_or in H.
  destruct H as [H|[H|[]]]; [now left | now right].
Qed.

Lemma keys_update {V} (d : dict V) (k : string) (v w : V) :
  get d k = Some w -> keys (set d k v) = keys d.
Proof. intros H. rewrite keys_set. unfold has_key. now rewrite H. Qed.

Lemma In_firstn {A} (n : nat) (l : list A) (a : A) : In a (firstn n l) -> In a l.
Proof.
  intros H. rewrite <- (firstn_skipn n l). apply in_or_app. now left.
Qed.

Lemma register_keys (done : list Path) (ps : list string) :
  (forall n, In n ps ->
     exists x, In x done /\ visited x = true /\ In n (parent_names x)) ->
  forall (names : list string) (index : nat) (ret ret' : dict (dict bool)),
    register ret (rootName :: ps) index names = Ok ret' ->
    keys_ok done ret -> keys_ok done ret'.
Proof.
  intros Hps names. induction names as [|n names IH]; intros index ret ret' Hrun Hok.
  - injection Hrun as <-. exact Hok.
  - simpl register in Hrun. unfold getitem in Hrun.
    set (path := join "." (firstn (index + 1) (rootName :: ps))) in *.
    destruct (get (ensure ret path) path) as [d|] eqn:Hd; [|discriminate].
    simpl rbind in Hrun.
    assert (keys_ok done (ensure ret path)) as Hok1.
    { intros p Hp. apply keys_ensure in Hp. destruct Hp as [Hp| ->]; [now apply Hok|].
      exists (firstn index ps). split.
      - unfold path. now rewrite Nat.add_1_r.
      - intros m Hm. apply Hps. now apply (In_firstn index). }
    destruct (has_key d n).
    + exact (IH _ _ _ Hrun Hok1).
    + apply (IH _ _ _ Hrun). intros p Hp.
      rewrite (keys_update _ _ _ _ Hd) in Hp. now apply Hok1.
Qed.

Lemma visit_keys (done : list Path) (x : Path) (ret ret' : dict (dict bool)) :
  visit rootName ret x = Ok ret' ->
  keys_ok done ret -> keys_ok (x :: done) ret'.
Proof.
  intros Hrun Hok.
  assert (keys_ok (x :: done) ret) as Hok1
    by (intros p Hp; apply key_shape_weaken; now apply Hok).
  unfold visit in Hrun.
  destruct (startswith (name x) "_") eqn:E1; [injection Hrun as <-; exact Hok1|].
  destruct (existsb (fun y => startswith y "_") (parent_names x)) eqn:E2;
    [injection Hrun as <-; exact Hok1|].
  assert (visited x = true) as Hv by (unfold visited; now rewrite E1, E2).
  assert (rev (parent_names x ++ [rootName]) = rootName :: rev (parent_names x)) as Hp
    by (now rewrite rev_app_distr).
  rewrite Hp in Hrun.
  assert (forall n, In n (rev (parent_names x)) ->
            exists y, In y (x :: done) /\ visited y = true /\ In n (parent_names y))
    as Hps.
  { intros n Hn. exists x. split; [now left|]. split; [exact Hv | now apply in_rev]. }
  destruct (register ret (rootName :: rev (parent_names x)) 0
              (tl (rootName :: rev (parent_names x)))) as [ret1|e] eqn:Hreg;
    [|discriminate].
  cbn [rbind] in Hrun. unfold getitem in Hrun.
  set (path := join "." (rootName :: rev (parent_names x))) in *.
  destruct (get (ensure ret1 path) path) as [d|] eqn:Hd; [|discriminate].
  cbn [rbind] in Hrun. injection Hrun as <-.
  pose proof (register_keys (x :: done) _ Hps _ _ _ _ Hreg Hok1) as Hok2.
  intros p Hin. rewrite (keys_update _ _ _ _ Hd) in Hin.
  apply keys_ensure in Hin. destruct Hin as [Hin| ->]; [now apply Hok2|].
  exists (rev (parent_names x)). split; [reflexivity | exact Hps].
Qed.

Lemma visit_all_keys (glob done : list Path) (ret ret' : dict (dict bool)) :
  visit_all rootName ret glob = Ok ret' ->
  keys_ok done ret -> keys_ok (rev glob ++ done) ret'.
Proof.
  revert done ret. induction glob as [|x glob IH]; intros done ret Hrun Hok.
  - injection Hrun as <-. exact Hok.
  - simpl visit_all in Hrun.
    destruct (visit rootName ret x) as [ret1|e] eqn:Hv; [|discriminate].
    simpl rbind in Hrun. simpl rev. intros p Hp. rewrite <- app_assoc.
    exact (IH (x :: done) ret1 Hrun (visit_keys done x ret ret1 Hv Hok) p Hp).
Qed.

Lemma readProject_keys (glob : list Path) (ret : dict (dict bool)) :
  _readProject rootName glob = Ok ret ->
  forall p, In p (keys ret) -> key_shape rootName glob p.
Proof.
  unfold _readProject. intros Hrun p Hp.
  assert (keys_ok [] [(rootName, ([] : dict bool))]) as Hok0.
  { intros q [<-|[]]. exists []. split; [reflexivity | intros n []]. }
  destruct (visit_all_keys glob [] _ ret Hrun Hok0 p Hp) as (ds & Hds & Hall).
  exists ds. split; [exact Hds|]. intros n Hn.
  destruct (Hall n Hn) as (x & Hx & H). exists x. split; [|exact H].
  rewrite app_nil_r in Hx. now apply in_rev.
Qed.

End keys.

Lemma no_newline_append (a b : string) :
  no_newline a -> no_newline b -> no_newline (a ++ b).
Proof.
  unfold no_newline. intros Ha Hb. rewrite chars_append. apply Forall_app. now split.
Qed.

Lemma no_newline_join (r : string) (ds : list string) :
  no_newline r -> Forall no_newline ds -> no_newline (join "." (r :: ds)).
Proof.
  revert r. induction ds as [|d ds IH]; intros r Hr Hds; [exact Hr|].
  inversion Hds as [|? ? Hd Hrest]; subst. rewrite join_cons.
  apply no_newline_append; [exact Hr|].
  apply no_newline_append; [|now apply IH].
  repeat constructor.
Qed.

Lemma join_head (sep r : string) (ds : list string) :
  exists rest, join sep (r :: ds) = (r ++ rest)%string.
Proof.
  destruct ds as [|d ds].
  - exists ""%string. simpl. now rewrite append_nil_r.
  - eexists. apply join_cons.
Qed.

Lemma strip_ends (c c' : ascii) (m : list ascii) :
  is_space c = false -> is_space c' = false ->
  lstrip (rstrip (c :: m ++ [c'])) = c :: m ++ [c'].
Proof.
  intros Hc Hc'. unfold rstrip.
  assert (rev (c :: m ++ [c']) = c' :: (rev m ++ [c])) as ->
    by (simpl; now rewrite rev_app_distr).
  cbn [lstrip]. rewrite Hc'.
  assert (rev (c' :: (rev m ++ [c])) = c :: m ++ [c']) as ->
    by (simpl; now rewrite rev_app_distr, rev_involutive).
  cbn [lstrip]. now rewrite Hc.
Qed.

Lemma strip_id (s : string) (c c' : ascii) (m : list ascii) :
  list_ascii_of_string s = c :: m ++ [c'] ->
  is_space c = false -> is_space c' = false ->
  strip s = s.
Proof.
  intros Hs Hc Hc'. unfold strip. rewrite Hs, (strip_ends c c' m Hc Hc'), <- Hs.
  apply string_of_list_ascii_of_string.
Qed.

Lemma key_page_plain (glob : list Path) (k : string) :
  key_shape "extract_msg" glob k ->
  (forall x, In x glob -> visited x = true -> Forall no_newline (parent_names x)) ->
  plain_name (k ++ ".rst").
Proof.
  intros (ds & -> & Hds) Hglob. split; [|split].
  - destruct (join_head "." "extract_msg" ds) as [rest ->]. discriminate.
  - apply no_newline_append; [|repeat constructor].
    apply no_newline_join; [repeat constructor|].
    apply Forall_forall. intros n Hn. destruct (Hds n Hn) as (x & Hx & Hv & Hin).
    pose proof (Hglob x Hx Hv) as Hall. rewrite Forall_forall in Hall. now apply Hall.
  - destruct (join_head "." "extract_msg" ds) as [rest ->].
    apply (strip_id _ "e"%char "t"%char
             (list_ascii_of_string "xtract_msg" ++ list_ascii_of_string rest
              ++ list_ascii_of_string ".rs"));
      [|reflexivity|reflexivity].
    rewrite !chars_append. simpl. rewrite <- !app_assoc. reflexivity.
Qed.

Lemma NoDup_pages (ks : list string) :
  NoDup ks -> NoDup (map (fun x => (x ++ ".rst")%string) ks).
Proof.
  induction 1 as [|k ks Hnot Hnd IH]; simpl; constructor; [|exact IH].
  intros Hin. apply in_map_iff in Hin. destruct Hin as (k' & Heq & Hk').
  apply append_inv_tail in Heq. now subst.
Qed.

(** X23 ([run] can be run again).  From a directory in which [run] gets
    through its removals, and when no directory name of the package holds a
    line end, [run] leaves a directory in which it gets through them again:
    [getAutoGenerated] then returns exactly the pages just written, each
    once, and all of them are there, so a next [run], on any glob, raises
    nothing. *)
Theorem run_can_run_again (fs : files) (glob : list Path) :
  runnable fs ->
  (forall x, In x glob -> visited x = true -> Forall no_newline (parent_names x)) ->
  exists fs' project,
    run fs glob = Ok fs' /\
    readProject "extract_msg" glob = Ok project /\
    getAutoGenerated fs' = Ok (map (fun x => (x ++ ".rst")%string) (keys project)) /\
    runnable fs' /\
    forall glob', exists fs'', run fs' glob' = Ok fs''.
Proof.
  intros Hrun Hglob.
  destruct (run_spec fs glob Hrun)
    as (fs1 & fs' & ret & project & Hr & Hret & Hproj & Hkeys & Hnd & Hfs).
  assert (Forall plain_name (map (fun x => (x ++ ".rst")%string) (keys project)))
    as Hplain.
  { apply Forall_forall. intros n Hn. apply in_map_iff in Hn.
    destruct Hn as (k & <- & Hk). rewrite Hkeys in Hk.
    exact (key_page_plain glob k (readProject_keys "extract_msg" glob ret Hret k Hk) Hglob). }
  assert (getAutoGenerated fs'
          = Ok (map (fun x => (x ++ ".rst")%string) (keys project))) as Hget
    by (rewrite Hfs; unfold getAutoGenerated, writeAutoGenerated;
        rewrite get_set_same; now rewrite (read_back _ Hplain)).
  assert (runnable fs') as Hrunnable.
  { eexists. split; [exact Hget|]. split; [now apply NoDup_pages|].
    apply Forall_forall. intros n Hn. apply in_map_iff in Hn.
    destruct Hn as (k & <- & Hk).
    destruct (In_keys_get project k Hk) as [pkg Hpkg].
    destruct (generate_all_spec project fs1 Hnd) as [Hgen _].
    unfold has_key. rewrite Hfs. unfold writeAutoGenerated.
    rewrite get_set_other by apply rst_not_autogen.
    now rewrite (Hgen k pkg (get_In _ _ _ Hpkg)). }
  exists fs', project. split; [exact Hr|]. split; [exact Hproj|].
  split; [exact Hget|]. split; [exact Hrunnable|].
  intros glob'. destruct (run_spec fs' glob' Hrunnable) as (_ & fs'' & _ & _ & H & _).
  now exists fs''.
Qed.

End docs_gen_io_facts.

(** ** The generator's files on a small directory *)

Module examples_io.
Import docs_gen docs_gen_spec docs_gen_io docs_gen_io_spec.
Import docs_gen_examples docs_gen_io_examples.

Lemma fromBits_behaviour_witness :
  enums_tables.fromBits (-1) = Raise ValueError /\
  enums_tables.fromBits 0 = Ok [] /\
  enums_tables.fromBits 5 = Raise (NameError "x").
Proof.
  destruct (enums_tables_facts.fromBits_behaviour (-1)) as (Hneg & _ & _).
  destruct (enums_tables_facts.fromBits_behaviour 0) as (_ & Hzero & _).
  destruct (enums_tables_facts.fromBits_behaviour 5) as (_ & _ & Hpos).
  split; [apply Hneg; lia|]. split; [apply Hzero; reflexivity | apply Hpos; lia].
Defined.

Lemma plain_page_names : Forall plain_name ["extract_msg.rst"; "extract_msg.msg_classes.rst"].
Proof.
  repeat constructor; try discriminate; reflexivity.
Defined.

Lemma autogen_roundtrip_witness :
  Forall plain_name ["extract_msg.rst"; "extract_msg.msg_classes.rst"] /\
  getAutoGenerated
    (writeAutoGenerated sample_fs ["extract_msg.rst"; "extract_msg.msg_classes.rst"])
  = Ok ["extract_msg.rst"; "extract_msg.msg_classes.rst"].
Proof.
  split; [exact plain_page_names|].
  exact (docs_gen_io_facts.autogen_roundtrip sample_fs _ plain_page_names).
Defined.

Lemma generateFile_documents_witness :
  exists text,
    get (generateFile sample_fs "extract_msg" sample_package) "extract_msg.rst"
      = Some text /\
    occurs_in (".. automodule:: extract_msg.prop" ++ nl)%string text /\
    get (generateFile sample_fs "extract_msg" sample_package) "index.rst" = Some "kept".
Proof.
  destruct (docs_gen_io_facts.generateFile_documents sample_fs "extract_msg"
              sample_package) as [(text & Hget & _ & Hmods) Hother].
  exists text. split; [exact Hget|]. split.
  - apply (Hmods "extract_msg.prop.py"). right. now left.
  - rewrite Hother; [reflexivity | discriminate].
Defined.

Lemma sample_fs_runnable : runnable sample_fs.
Proof.
  exists ["old_page.rst"]. split; [reflexivity|]. split.
  - constructor; [intros [] | constructor].
  - repeat constructor.
Defined.

Lemma sample_glob_names :
  forall x, In x sample_glob -> visited x = true -> Forall no_newline (parent_names x).
Proof.
  intros x Hx _. simpl in Hx.
  repeat (destruct Hx as [<-|Hx]; [repeat constructor|]). contradiction.
Defined.

Lemma run_generates_witness :
  runnable sample_fs /\
  exists fs' text,
    run sample_fs sample_glob = Ok fs' /\
    get fs' autogen
      = Some ("extract_msg.rst" ++ nl ++ "extract_msg.msg_classes.rst")%string /\
    get fs' "extract_msg.msg_classes.rst" = Some text /\
    occurs_in (".. automodule:: extract_msg.msg_classes.meeting_forward" ++ nl)%string text.
Proof.
  split; [exact sample_fs_runnable|].
  destruct (docs_gen_io_facts.run_generates sample_fs sample_glob sample_fs_runnable)
    as (fs' & project & Hrun & Hproj & Hlist & Hall).
  destruct (Hall {| name := "meeting_forward.py"; parent_names := ["msg_classes"] |})
    as (text & Hget & Hocc).
  - right. right. right. now left.
  - reflexivity.
  - exists fs', text. split; [exact Hrun|]. split; [|split; [exact Hget | exact Hocc]].
    rewrite Hlist. vm_compute in Hproj. injection Hproj as <-. reflexivity.
Defined.

Lemma run_can_run_again_witness :
  exists fs' fs'',
    run sample_fs sample_glob = Ok fs' /\
    getAutoGenerated fs' = Ok ["extract_msg.rst"; "extract_msg.msg_classes.rst"] /\
    run fs' sample_glob = Ok fs''.
Proof.
  destruct (docs_gen_io_facts.run_can_run_again sample_fs sample_glob
              sample_fs_runnable sample_glob_names)
    as (fs' & project & Hrun & Hproj & Hget & _ & Hagain).
  destruct (Hagain sample_glob) as [fs'' Hrun2].
  exists fs', fs''. split; [exact Hrun|]. split; [|exact Hrun2].
  rewrite Hget. vm_compute in Hproj. injection Hproj as <-. reflexivity.
Defined.

End examples_io.
